(** * WuKongIM: channel reactor, channel placement, replica tick and cluster
      configuration — a shallow embedding of the Go sources and the properties
      proved about it.

    Layout: the embedding comes first, one module per Go package
    ([GoInt], [Channel], [Placement], [Replica], [ClusterEvent]); the
    properties follow, grouped by package. *)

From stdpp Require Import base option list gmap fin_maps strings.
From Stdlib Require Import ZArith NArith Lia.

Local Open Scope Z_scope.

(** ** Go machine integers *)

Module GoInt.

(** Go [int] on a 64-bit platform: two's complement, silent wrap-around. *)
Definition int_min : Z := - 2 ^ 63.
Definition int_max : Z := 2 ^ 63 - 1.
Definition wrap_int (z : Z) : Z := (z + 2 ^ 63) mod 2 ^ 64 - 2 ^ 63.
Definition in_int (z : Z) : Prop := int_min <= z <= int_max.

(** [x++], [x * k] on [int]. *)
Definition incr (z : Z) : Z := wrap_int (z + 1).

(** [uint32]: arithmetic modulo 2^32. *)
Definition u32_max : Z := 2 ^ 32 - 1.
Definition wrap_u32 (z : Z) : Z := z mod 2 ^ 32.
Definition u32_incr (z : Z) : Z := wrap_u32 (z + 1).
Definition in_u32 (z : Z) : Prop := 0 <= z <= u32_max.

End GoInt.

(** ** package server: the per-channel state machine (internal/server/channel.go) *)

Module Channel.
Import GoInt.

(** Per-stage flag [readyState]. *)
Record readyState := mkReadyState {
    processing : bool;
    willRetry : bool;
    retryTick : Z
  }.

(** Go's zero value [readyState{}]. *)
Definition readyState_zero : readyState := mkReadyState false false 0.

Definition set_processing (b : bool) (s : readyState) : readyState :=
    mkReadyState b (willRetry s) (retryTick s).

Inductive channelStatus :=
  | channelStatusUninitialized
  | channelStatusInitializing
  | channelStatusInitialized.

Inductive channelRole :=
  | channelRoleUnknown
  | channelRoleLeader
  | channelRoleProxy.

Inductive ChannelActionType :=
  | ChannelActionInit
  | ChannelActionSend
  | ChannelActionPayloadDecrypt
  | ChannelActionStreamPayloadDecrypt
  | ChannelActionPermissionCheck
  | ChannelActionStorage
  | ChannelActionSendack
  | ChannelActionDeliver
  | ChannelActionStreamDeliver
  | ChannelActionForward
  | ChannelActionStreamForward
  | ChannelActionCheckTag
  | ChannelActionClose.

#[global] Instance channelStatus_eq_dec : EqDecision channelStatus.
Proof. solve_decision. Defined.
#[global] Instance channelRole_eq_dec : EqDecision channelRole.
Proof. solve_decision. Defined.
#[global] Instance ChannelActionType_eq_dec : EqDecision ChannelActionType.
Proof. solve_decision. Defined.

(** Modelled from the spec: the declaration of [ReactorChannelMessage] is not
      among the sources. A message in flight carries the position the queue
      gave it and its encoded size; the other fields (sender, packet, reason
      code) play no part in the cursor discipline. *)
Record ReactorChannelMessage := mkMsg {
    MessageId : Z;
    Index : N;
    Size : N
  }.

Record ChannelAction := mkAction {
    ActionType : ChannelActionType;
    LeaderId : N;
    Messages : list ReactorChannelMessage
  }.

(** Modelled from the spec: [channelMsgQueue] (type and methods) is not among
      the sources. It is the append-only log of messages in flight, indexed by
      a monotonic position, with the six stage cursors and the proxy's
      [forwardingIndex]; positions are natural numbers. *)
Record channelMsgQueue := mkQueue {
    messages : list ReactorChannelMessage;
    lastIndex : N;
    payloadDecryptingIndex : N;
    permissionCheckingIndex : N;
    storagingIndex : N;
    sendackingIndex : N;
    deliveringIndex : N;
    forwardingIndex : N
  }.

Definition setq_messages (v : list ReactorChannelMessage) (c : channelMsgQueue) : channelMsgQueue :=
  {| messages := v; lastIndex := lastIndex c; payloadDecryptingIndex := payloadDecryptingIndex c; permissionCheckingIndex := permissionCheckingIndex c; storagingIndex := storagingIndex c; sendackingIndex := sendackingIndex c; deliveringIndex := deliveringIndex c; forwardingIndex := forwardingIndex c |}.
Definition setq_lastIndex (v : N) (c : channelMsgQueue) : channelMsgQueue :=
  {| messages := messages c; lastIndex := v; payloadDecryptingIndex := payloadDecryptingIndex c; permissionCheckingIndex := permissionCheckingIndex c; storagingIndex := storagingIndex c; sendackingIndex := sendackingIndex c; deliveringIndex := deliveringIndex c; forwardingIndex := forwardingIndex c |}.
Definition setq_payloadDecryptingIndex (v : N) (c : channelMsgQueue) : channelMsgQueue :=
  {| messages := messages c; lastIndex := lastIndex c; payloadDecryptingIndex := v; permissionCheckingIndex := permissionCheckingIndex c; storagingIndex := storagingIndex c; sendackingIndex := sendackingIndex c; deliveringIndex := deliveringIndex c; forwardingIndex := forwardingIndex c |}.
Definition setq_permissionCheckingIndex (v : N) (c : channelMsgQueue) : channelMsgQueue :=
  {| messages := messages c; lastIndex := lastIndex c; payloadDecryptingIndex := payloadDecryptingIndex c; permissionCheckingIndex := v; storagingIndex := storagingIndex c; sendackingIndex := sendackingIndex c; deliveringIndex := deliveringIndex c; forwardingIndex := forwardingIndex c |}.
Definition setq_storagingIndex (v : N) (c : channelMsgQueue) : channelMsgQueue :=
  {| messages := messages c; lastIndex := lastIndex c; payloadDecryptingIndex := payloadDecryptingIndex c; permissionCheckingIndex := permissionCheckingIndex c; storagingIndex := v; sendackingIndex := sendackingIndex c; deliveringIndex := deliveringIndex c; forwardingIndex := forwardingIndex c |}.
Definition setq_sendackingIndex (v : N) (c : channelMsgQueue) : channelMsgQueue :=
  {| messages := messages c; lastIndex := lastIndex c; payloadDecryptingIndex := payloadDecryptingIndex c; permissionCheckingIndex := permissionCheckingIndex c; storagingIndex := storagingIndex c; sendackingIndex := v; deliveringIndex := deliveringIndex c; forwardingIndex := forwardingIndex c |}.
Definition setq_deliveringIndex (v : N) (c : channelMsgQueue) : channelMsgQueue :=
  {| messages := messages c; lastIndex := lastIndex c; payloadDecryptingIndex := payloadDecryptingIndex c; permissionCheckingIndex := permissionCheckingIndex c; storagingIndex := storagingIndex c; sendackingIndex := sendackingIndex c; deliveringIndex := v; forwardingIndex := forwardingIndex c |}.
Definition setq_forwardingIndex (v : N) (c : channelMsgQueue) : channelMsgQueue :=
  {| messages := messages c; lastIndex := lastIndex c; payloadDecryptingIndex := payloadDecryptingIndex c; permissionCheckingIndex := permissionCheckingIndex c; storagingIndex := storagingIndex c; sendackingIndex := sendackingIndex c; deliveringIndex := deliveringIndex c; forwardingIndex := v |}.


(** Modelled from the spec: [newChannelMsgQueue] — an empty log, every cursor
      at position 0. *)
Definition newChannelMsgQueue : channelMsgQueue := mkQueue [] 0 0 0 0 0 0 0.

(** Modelled from the spec: [channelMsgQueue.sliceWithSize]. The messages at
      positions [startIndex, endIndex), cut to the longest prefix whose total
      size stays within [maxSize]; the callers that pass 0 ask for no bound. *)
Fixpoint limitSize (budget : N) (l : list ReactorChannelMessage)
    : list ReactorChannelMessage :=
    match l with
    | [] => []
    | m :: l' =>
        if (Size m <=? budget)%N then m :: limitSize (budget - Size m)%N l' else []
    end.

Definition slice (q : channelMsgQueue) (startIndex endIndex : N)
    : list ReactorChannelMessage :=
    filter (fun m => (startIndex <= Index m)%N /\ (Index m < endIndex)%N) (messages q).

Definition sliceWithSize (q : channelMsgQueue) (startIndex endIndex maxSize : N)
    : list ReactorChannelMessage :=
    if (maxSize =? 0)%N then slice q startIndex endIndex
    else limitSize maxSize (slice q startIndex endIndex).

(** Modelled from the spec: [channelMsgQueue.resetIndex] — the stage cursors
      go back to the start of the log; the log and [lastIndex] stay. *)
Definition queue_resetIndex (q : channelMsgQueue) : channelMsgQueue :=
    mkQueue (messages q) (lastIndex q) 0 0 0 0 0 0.

(** Modelled from the spec: appending a message gives it the next position. *)
Definition appendMessage (m : ReactorChannelMessage) (q : channelMsgQueue)
    : channelMsgQueue :=
    let i := (lastIndex q + 1)%N in
    setq_lastIndex i
      (setq_messages (messages q ++ [mkMsg (MessageId m) i (Size m)]) q).

Definition nonempty {A} (l : list A) : bool :=
    match l with [] => false | _ => true end.

(** The side list of stream messages ([streamList]) is not among the sources;
      the channel uses it through these operations only. *)
Class StreamList (S : Type) := {
    newStreamList : S;
    streams_hasPayloadUnDecrypt : S -> bool;
    streams_payloadUnDecryptMessages : S -> list ReactorChannelMessage * S;
    streams_hasUnDeliver : S -> bool;
    streams_unDeliverMessages : S -> list ReactorChannelMessage * S;
    streams_hasUnforward : S -> bool;
    streams_unforwardMessages : S -> list ReactorChannelMessage * S;
    streams_tick : S -> S
  }.

(** A channel that never carried a stream message. *)
#[global] Instance noStreams : StreamList unit := {|
    newStreamList := tt;
    streams_hasPayloadUnDecrypt := fun _ => false;
    streams_payloadUnDecryptMessages := fun s => ([], s);
    streams_hasUnDeliver := fun _ => false;
    streams_unDeliverMessages := fun s => ([], s);
    streams_hasUnforward := fun _ => false;
    streams_unforwardMessages := fun s => ([], s);
    streams_tick := fun s => s
  |}.

(** The options the channel reads: [opts.Cluster.NodeId] and
      [opts.Reactor.Channel.*]. *)
Record Options := mkOptions {
    NodeId : N;
    ProcessIntervalTick : Z;
    DeadlineTick : Z;
    TagCheckIntervalTick : Z
  }.

(** [stepFnc] and [tickFnc] hold one of the channel's own methods. *)
Inductive stepFn := stepNil | stepLeader | stepProxy.
Inductive tickFn := tickNil | tickLeaderFn | tickProxyFn.

Section WithStreams.
Context {S : Type} `{StreamList S}.

Record channel := mkChannel {
      channelId : string;
      channelType : Z;
      msgQueue : channelMsgQueue;
      streams : S;
      actions : list ChannelAction;
      storageMaxSize : N;
      deliverMaxSize : N;
      forwardMaxSize : N;
      status : channelStatus;
      role : channelRole;
      leaderId : N;
      receiverTagKey : string;
      stepFnc : stepFn;
      tickFnc : tickFn;
      payloadDecryptState : readyState;
      permissionCheckState : readyState;
      storageState : readyState;
      sendackState : readyState;
      deliveryState : readyState;
      forwardState : readyState;
      initTick : Z;
      forwardTick : Z;
      tagCheckTick : Z;
      idleTick : Z;
      opts : Options;
      retryTickCount : Z
    }.

Definition set_msgQueue (v : channelMsgQueue) (c : channel) : channel :=
  {| channelId := channelId c; channelType := channelType c; msgQueue := v; streams := streams c; actions := actions c; storageMaxSize := storageMaxSize c; deliverMaxSize := deliverMaxSize c; forwardMaxSize := forwardMaxSize c; status := status c; role := role c; leaderId := leaderId c; receiverTagKey := receiverTagKey c; stepFnc := stepFnc c; tickFnc := tickFnc c; payloadDecryptState := payloadDecryptState c; permissionCheckState := permissionCheckState c; storageState := storageState c; sendackState := sendackState c; deliveryState := deliveryState c; forwardState := forwardState c; initTick := initTick c; forwardTick := forwardTick c; tagCheckTick := tagCheckTick c; idleTick := idleTick c; opts := opts c; retryTickCount := retryTickCount c |}.
Definition set_streams (v : S) (c : channel) : channel :=
  {| channelId := channelId c; channelType := channelType c; msgQueue := msgQueue c; streams := v; actions := actions c; storageMaxSize := storageMaxSize c; deliverMaxSize := deliverMaxSize c; forwardMaxSize := forwardMaxSize c; status := status c; role := role c; leaderId := leaderId c; receiverTagKey := receiverTagKey c; stepFnc := stepFnc c; tickFnc := tickFnc c; payloadDecryptState := payloadDecryptState c; permissionCheckState := permissionCheckState c; storageState := storageState c; sendackState := sendackState c; deliveryState := deliveryState c; forwardState := forwardState c; initTick := initTick c; forwardTick := forwardTick c; tagCheckTick := tagCheckTick c; idleTick := idleTick c; opts := opts c; retryTickCount := retryTickCount c |}.
Definition set_actions (v : list ChannelAction) (c : channel) : channel :=
  {| channelId := channelId c; channelType := channelType c; msgQueue := msgQueue c; streams := streams c; actions := v; storageMaxSize := storageMaxSize c; deliverMaxSize := deliverMaxSize c; forwardMaxSize := forwardMaxSize c; status := status c; role := role c; leaderId := leaderId c; receiverTagKey := receiverTagKey c; stepFnc := stepFnc c; tickFnc := tickFnc c; payloadDecryptState := payloadDecryptState c; permissionCheckState := permissionCheckState c; storageState := storageState c; sendackState := sendackState c; deliveryState := deliveryState c; forwardState := forwardState c; initTick := initTick c; forwardTick := forwardTick c; tagCheckTick := tagCheckTick c; idleTick := idleTick c; opts := opts c; retryTickCount := retryTickCount c |}.
Definition set_status (v : channelStatus) (c : channel) : channel :=
  {| channelId := channelId c; channelType := channelType c; msgQueue := msgQueue c; streams := streams c; actions := actions c; storageMaxSize := storageMaxSize c; deliverMaxSize := deliverMaxSize c; forwardMaxSize := forwardMaxSize c; status := v; role := role c; leaderId := leaderId c; receiverTagKey := receiverTagKey c; stepFnc := stepFnc c; tickFnc := tickFnc c; payloadDecryptState := payloadDecryptState c; permissionCheckState := permissionCheckState c; storageState := storageState c; sendackState := sendackState c; deliveryState := deliveryState c; forwardState := forwardState c; initTick := initTick c; forwardTick := forwardTick c; tagCheckTick := tagCheckTick c; idleTick := idleTick c; opts := opts c; retryTickCount := retryTickCount c |}.
Definition set_role (v : channelRole) (c : channel) : channel :=
  {| channelId := channelId c; channelType := channelType c; msgQueue := msgQueue c; streams := streams c; actions := actions c; storageMaxSize := storageMaxSize c; deliverMaxSize := deliverMaxSize c; forwardMaxSize := forwardMaxSize c; status := status c; role := v; leaderId := leaderId c; receiverTagKey := receiverTagKey c; stepFnc := stepFnc c; tickFnc := tickFnc c; payloadDecryptState := payloadDecryptState c; permissionCheckState := permissionCheckState c; storageState := storageState c; sendackState := sendackState c; deliveryState := deliveryState c; forwardState := forwardState c; initTick := initTick c; forwardTick := forwardTick c; tagCheckTick := tagCheckTick c; idleTick := idleTick c; opts := opts c; retryTickCount := retryTickCount c |}.
Definition set_leaderId (v : N) (c : channel) : channel :=
  {| channelId := channelId c; channelType := channelType c; msgQueue := msgQueue c; streams := streams c; actions := actions c; storageMaxSize := storageMaxSize c; deliverMaxSize := deliverMaxSize c; forwardMaxSize := forwardMaxSize c; status := status c; role := role c; leaderId := v; receiverTagKey := receiverTagKey c; stepFnc := stepFnc c; tickFnc := tickFnc c; payloadDecryptState := payloadDecryptState c; permissionCheckState := permissionCheckState c; storageState := storageState c; sendackState := sendackState c; deliveryState := deliveryState c; forwardState := forwardState c; initTick := initTick c; forwardTick := forwardTick c; tagCheckTick := tagCheckTick c; idleTick := idleTick c; opts := opts c; retryTickCount := retryTickCount c |}.
Definition set_receiverTagKey (v : string) (c : channel) : channel :=
  {| channelId := channelId c; channelType := channelType c; msgQueue := msgQueue c; streams := streams c; actions := actions c; storageMaxSize := storageMaxSize c; deliverMaxSize := deliverMaxSize c; forwardMaxSize := forwardMaxSize c; status := status c; role := role c; leaderId := leaderId c; receiverTagKey := v; stepFnc := stepFnc c; tickFnc := tickFnc c; payloadDecryptState := payloadDecryptState c; permissionCheckState := permissionCheckState c; storageState := storageState c; sendackState := sendackState c; deliveryState := deliveryState c; forwardState := forwardState c; initTick := initTick c; forwardTick := forwardTick c; tagCheckTick := tagCheckTick c; idleTick := idleTick c; opts := opts c; retryTickCount := retryTickCount c |}.
Definition set_stepFnc (v : stepFn) (c : channel) : channel :=
  {| channelId := channelId c; channelType := channelType c; msgQueue := msgQueue c; streams := streams c; actions := actions c; storageMaxSize := storageMaxSize c; deliverMaxSize := deliverMaxSize c; forwardMaxSize := forwardMaxSize c; status := status c; role := role c; leaderId := leaderId c; receiverTagKey := receiverTagKey c; stepFnc := v; tickFnc := tickFnc c; payloadDecryptState := payloadDecryptState c; permissionCheckState := permissionCheckState c; storageState := storageState c; sendackState := sendackState c; deliveryState := deliveryState c; forwardState := forwardState c; initTick := initTick c; forwardTick := forwardTick c; tagCheckTick := tagCheckTick c; idleTick := idleTick c; opts := opts c; retryTickCount := retryTickCount c |}.
Definition set_tickFnc (v : tickFn) (c : channel) : channel :=
  {| channelId := channelId c; channelType := channelType c; msgQueue := msgQueue c; streams := streams c; actions := actions c; storageMaxSize := storageMaxSize c; deliverMaxSize := deliverMaxSize c; forwardMaxSize := forwardMaxSize c; status := status c; role := role c; leaderId := leaderId c; receiverTagKey := receiverTagKey c; stepFnc := stepFnc c; tickFnc := v; payloadDecryptState := payloadDecryptState c; permissionCheckState := permissionCheckState c; storageState := storageState c; sendackState := sendackState c; deliveryState := deliveryState c; forwardState := forwardState c; initTick := initTick c; forwardTick := forwardTick c; tagCheckTick := tagCheckTick c; idleTick := idleTick c; opts := opts c; retryTickCount := retryTickCount c |}.
Definition set_payloadDecryptState (v : readyState) (c : channel) : channel :=
  {| channelId := channelId c; channelType := channelType c; msgQueue := msgQueue c; streams := streams c; actions := actions c; storageMaxSize := storageMaxSize c; deliverMaxSize := deliverMaxSize c; forwardMaxSize := forwardMaxSize c; status := status c; role := role c; leaderId := leaderId c; receiverTagKey := receiverTagKey c; stepFnc := stepFnc c; tickFnc := tickFnc c; payloadDecryptState := v; permissionCheckState := permissionCheckState c; storageState := storageState c; sendackState := sendackState c; deliveryState := deliveryState c; forwardState := forwardState c; initTick := initTick c; forwardTick := forwardTick c; tagCheckTick := tagCheckTick c; idleTick := idleTick c; opts := opts c; retryTickCount := retryTickCount c |}.
Definition set_permissionCheckState (v : readyState) (c : channel) : channel :=
  {| channelId := channelId c; channelType := channelType c; msgQueue := msgQueue c; streams := streams c; actions := actions c; storageMaxSize := storageMaxSize c; deliverMaxSize := deliverMaxSize c; forwardMaxSize := forwardMaxSize c; status := status c; role := role c; leaderId := leaderId c; receiverTagKey := receiverTagKey c; stepFnc := stepFnc c; tickFnc := tickFnc c; payloadDecryptState := payloadDecryptState c; permissionCheckState := v; storageState := storageState c; sendackState := sendackState c; deliveryState := deliveryState c; forwardState := forwardState c; initTick := initTick c; forwardTick := forwardTick c; tagCheckTick := tagCheckTick c; idleTick := idleTick c; opts := opts c; retryTickCount := retryTickCount c |}.
Definition set_storageState (v : readyState) (c : channel) : channel :=
  {| channelId := channelId c; channelType := channelType c; msgQueue := msgQueue c; streams := streams c; actions := actions c; storageMaxSize := storageMaxSize c; deliverMaxSize := deliverMaxSize c; forwardMaxSize := forwardMaxSize c; status := status c; role := role c; leaderId := leaderId c; receiverTagKey := receiverTagKey c; stepFnc := stepFnc c; tickFnc := tickFnc c; payloadDecryptState := payloadDecryptState c; permissionCheckState := permissionCheckState c; storageState := v; sendackState := sendackState c; deliveryState := deliveryState c; forwardState := forwardState c; initTick := initTick c; forwardTick := forwardTick c; tagCheckTick := tagCheckTick c; idleTick := idleTick c; opts := opts c; retryTickCount := retryTickCount c |}.
Definition set_sendackState (v : readyState) (c : channel) : channel :=
  {| channelId := channelId c; channelType := channelType c; msgQueue := msgQueue c; streams := streams c; actions := actions c; storageMaxSize := storageMaxSize c; deliverMaxSize := deliverMaxSize c; forwardMaxSize := forwardMaxSize c; status := status c; role := role c; leaderId := leaderId c; receiverTagKey := receiverTagKey c; stepFnc := stepFnc c; tickFnc := tickFnc c; payloadDecryptState := payloadDecryptState c; permissionCheckState := permissionCheckState c; storageState := storageState c; sendackState := v; deliveryState := deliveryState c; forwardState := forwardState c; initTick := initTick c; forwardTick := forwardTick c; tagCheckTick := tagCheckTick c; idleTick := idleTick c; opts := opts c; retryTickCount := retryTickCount c |}.
Definition set_deliveryState (v : readyState) (c : channel) : channel :=
  {| channelId := channelId c; channelType := channelType c; msgQueue := msgQueue c; streams := streams c; actions := actions c; storageMaxSize := storageMaxSize c; deliverMaxSize := deliverMaxSize c; forwardMaxSize := forwardMaxSize c; status := status c; role := role c; leaderId := leaderId c; receiverTagKey := receiverTagKey c; stepFnc := stepFnc c; tickFnc := tickFnc c; payloadDecryptState := payloadDecryptState c; permissionCheckState := permissionCheckState c; storageState := storageState c; sendackState := sendackState c; deliveryState := v; forwardState := forwardState c; initTick := initTick c; forwardTick := forwardTick c; tagCheckTick := tagCheckTick c; idleTick := idleTick c; opts := opts c; retryTickCount := retryTickCount c |}.
Definition set_forwardState (v : readyState) (c : channel) : channel :=
  {| channelId := channelId c; channelType := channelType c; msgQueue := msgQueue c; streams := streams c; actions := actions c; storageMaxSize := storageMaxSize c; deliverMaxSize := deliverMaxSize c; forwardMaxSize := forwardMaxSize c; status := status c; role := role c; leaderId := leaderId c; receiverTagKey := receiverTagKey c; stepFnc := stepFnc c; tickFnc := tickFnc c; payloadDecryptState := payloadDecryptState c; permissionCheckState := permissionCheckState c; storageState := storageState c; sendackState := sendackState c; deliveryState := deliveryState c; forwardState := v; initTick := initTick c; forwardTick := forwardTick c; tagCheckTick := tagCheckTick c; idleTick := idleTick c; opts := opts c; retryTickCount := retryTickCount c |}.
Definition set_initTick (v : Z) (c : channel) : channel :=
  {| channelId := channelId c; channelType := channelType c; msgQueue := msgQueue c; streams := streams c; actions := actions c; storageMaxSize := storageMaxSize c; deliverMaxSize := deliverMaxSize c; forwardMaxSize := forwardMaxSize c; status := status c; role := role c; leaderId := leaderId c; receiverTagKey := receiverTagKey c; stepFnc := stepFnc c; tickFnc := tickFnc c; payloadDecryptState := payloadDecryptState c; permissionCheckState := permissionCheckState c; storageState := storageState c; sendackState := sendackState c; deliveryState := deliveryState c; forwardState := forwardState c; initTick := v; forwardTick := forwardTick c; tagCheckTick := tagCheckTick c; idleTick := idleTick c; opts := opts c; retryTickCount := retryTickCount c |}.
Definition set_forwardTick (v : Z) (c : channel) : channel :=
  {| channelId := channelId c; channelType := channelType c; msgQueue := msgQueue c; streams := streams c; actions := actions c; storageMaxSize := storageMaxSize c; deliverMaxSize := deliverMaxSize c; forwardMaxSize := forwardMaxSize c; status := status c; role := role c; leaderId := leaderId c; receiverTagKey := receiverTagKey c; stepFnc := stepFnc c; tickFnc := tickFnc c; payloadDecryptState := payloadDecryptState c; permissionCheckState := permissionCheckState c; storageState := storageState c; sendackState := sendackState c; deliveryState := deliveryState c; forwardState := forwardState c; initTick := initTick c; forwardTick := v; tagCheckTick := tagCheckTick c; idleTick := idleTick c; opts := opts c; retryTickCount := retryTickCount c |}.
Definition set_tagCheckTick (v : Z) (c : channel) : channel :=
  {| channelId := channelId c; channelType := channelType c; msgQueue := msgQueue c; streams := streams c; actions := actions c; storageMaxSize := storageMaxSize c; deliverMaxSize := deliverMaxSize c; forwardMaxSize := forwardMaxSize c; status := status c; role := role c; leaderId := leaderId c; receiverTagKey := receiverTagKey c; stepFnc := stepFnc c; tickFnc := tickFnc c; payloadDecryptState := payloadDecryptState c; permissionCheckState := permissionCheckState c; storageState := storageState c; sendackState := sendackState c; deliveryState := deliveryState c; forwardState := forwardState c; initTick := initTick c; forwardTick := forwardTick c; tagCheckTick := v; idleTick := idleTick c; opts := opts c; retryTickCount := retryTickCount c |}.
Definition set_idleTick (v : Z) (c : channel) : channel :=
  {| channelId := channelId c; channelType := channelType c; msgQueue := msgQueue c; streams := streams c; actions := actions c; storageMaxSize := storageMaxSize c; deliverMaxSize := deliverMaxSize c; forwardMaxSize := forwardMaxSize c; status := status c; role := role c; leaderId := leaderId c; receiverTagKey := receiverTagKey c; stepFnc := stepFnc c; tickFnc := tickFnc c; payloadDecryptState := payloadDecryptState c; permissionCheckState := permissionCheckState c; storageState := storageState c; sendackState := sendackState c; deliveryState := deliveryState c; forwardState := forwardState c; initTick := initTick c; forwardTick := forwardTick c; tagCheckTick := tagCheckTick c; idleTick := v; opts := opts c; retryTickCount := retryTickCount c |}.

Definition newChannel (o : Options) (id : string) (ty : Z) : channel :=
      {| channelId := id; channelType := ty;
         msgQueue := newChannelMsgQueue;
         streams := newStreamList;
         actions := [];
         storageMaxSize := 1024 * 1024 * 2;
         deliverMaxSize := 1024 * 1024 * 2;
         forwardMaxSize := 1024 * 1024 * 2;
         status := channelStatusUninitialized;
         role := channelRoleUnknown;
         leaderId := 0%N;
         receiverTagKey := EmptyString;
         stepFnc := stepNil; tickFnc := tickNil;
         payloadDecryptState := readyState_zero;
         permissionCheckState := readyState_zero;
         storageState := readyState_zero;
         sendackState := readyState_zero;
         deliveryState := readyState_zero;
         forwardState := readyState_zero;
         initTick := ProcessIntervalTick o;
         forwardTick := 0; tagCheckTick := 0; idleTick := 0;
         opts := o;
         retryTickCount := 20 |}.

(** Modelled from the spec: [channel.exec] is not among the sources; an
        emitted action is queued on [c.actions], which [ready] hands out. *)
Definition exec (a : ChannelAction) (c : channel) : channel :=
      set_actions (actions c ++ [a]) c.

Definition isInitialized (c : channel) : bool :=
      bool_decide (status c = channelStatusInitialized).

Definition hasPayloadUnDecrypt (c : channel) : bool :=
      if processing (payloadDecryptState c) then false
      else (payloadDecryptingIndex (msgQueue c) <? lastIndex (msgQueue c))%N.

Definition hasPermissionUnCheck (c : channel) : bool :=
      if processing (permissionCheckState c) then false
      else (permissionCheckingIndex (msgQueue c) <? payloadDecryptingIndex (msgQueue c))%N.

Definition hasUnstorage (c : channel) : bool :=
      if processing (storageState c) then false
      else (storagingIndex (msgQueue c) <? permissionCheckingIndex (msgQueue c))%N.

Definition hasSendack (c : channel) : bool :=
      if processing (sendackState c) then false
      else (sendackingIndex (msgQueue c) <? storagingIndex (msgQueue c))%N.

Definition hasUnDeliver (c : channel) : bool :=
      if processing (deliveryState c) then false
      else (deliveringIndex (msgQueue c) <? storagingIndex (msgQueue c))%N.

Definition hasUnforward (c : channel) : bool :=
      if processing (forwardState c) then false
      else (forwardingIndex (msgQueue c) <? payloadDecryptingIndex (msgQueue c))%N.

Definition hasReady (c : channel) : bool :=
      if negb (isInitialized c) then
        if initTick c <? ProcessIntervalTick (opts c) then false
        else negb (bool_decide (status c = channelStatusInitializing))
      else if hasPayloadUnDecrypt c || streams_hasPayloadUnDecrypt (streams c) then true
      else
        match role c with
        | channelRoleLeader =>
            if hasPermissionUnCheck c then true
            else if hasUnstorage c then true
            else if hasSendack c then true
            else if hasUnDeliver c || streams_hasUnDeliver (streams c) then true
            else nonempty (actions c)
        | channelRoleProxy =>
            if hasUnforward c || streams_hasUnforward (streams c) then true
            else nonempty (actions c)
        | channelRoleUnknown => nonempty (actions c)
        end.

(** [ready()], block by block in the order of the source. Each block opens
    its stage (sets [processing]) and, when the slice is not empty, emits the
    stage's action. *)
Definition readyPayloadDecrypt (c : channel) : channel :=
  if hasPayloadUnDecrypt c then
    let c := set_payloadDecryptState (set_processing true (payloadDecryptState c)) c in
    let msgs := sliceWithSize (msgQueue c)
                  (payloadDecryptingIndex (msgQueue c) + 1)
                  (lastIndex (msgQueue c) + 1) (1024 * 1024 * 2) in
    if nonempty msgs then exec (mkAction ChannelActionPayloadDecrypt 0 msgs) c else c
  else c.

Definition readyStreamPayloadDecrypt (c : channel) : channel :=
  if streams_hasPayloadUnDecrypt (streams c) then
    let '(msgs, s') := streams_payloadUnDecryptMessages (streams c) in
    let c := set_streams s' c in
    if nonempty msgs then exec (mkAction ChannelActionStreamPayloadDecrypt 0 msgs) c else c
  else c.

Definition readyPermissionCheck (c : channel) : channel :=
  if hasPermissionUnCheck c then
    let c := set_permissionCheckState (set_processing true (permissionCheckState c)) c in
    let msgs := sliceWithSize (msgQueue c)
                  (permissionCheckingIndex (msgQueue c) + 1)
                  (payloadDecryptingIndex (msgQueue c) + 1) 0 in
    if nonempty msgs then exec (mkAction ChannelActionPermissionCheck 0 msgs) c else c
  else c.

Definition readyStorage (c : channel) : channel :=
  if hasUnstorage c then
    let c := set_storageState (set_processing true (storageState c)) c in
    let msgs := sliceWithSize (msgQueue c)
                  (storagingIndex (msgQueue c) + 1)
                  (permissionCheckingIndex (msgQueue c) + 1) (storageMaxSize c) in
    if nonempty msgs then exec (mkAction ChannelActionStorage 0 msgs) c else c
  else c.

Definition readySendack (c : channel) : channel :=
  if hasSendack c then
    let c := set_sendackState (set_processing true (sendackState c)) c in
    let msgs := sliceWithSize (msgQueue c)
                  (sendackingIndex (msgQueue c) + 1)
                  (storagingIndex (msgQueue c) + 1) 0 in
    if nonempty msgs then exec (mkAction ChannelActionSendack 0 msgs) c else c
  else c.

Definition readyDeliver (c : channel) : channel :=
  if hasUnDeliver c then
    let c := set_deliveryState (set_processing true (deliveryState c)) c in
    let msgs := sliceWithSize (msgQueue c)
                  (deliveringIndex (msgQueue c) + 1)
                  (storagingIndex (msgQueue c) + 1) (deliverMaxSize c) in
    if nonempty msgs then exec (mkAction ChannelActionDeliver 0 msgs) c else c
  else c.

Definition readyStreamDeliver (c : channel) : channel :=
  if streams_hasUnDeliver (streams c) then
    let '(msgs, s') := streams_unDeliverMessages (streams c) in
    let c := set_streams s' c in
    if nonempty msgs then exec (mkAction ChannelActionStreamDeliver 0 msgs) c else c
  else c.

Definition readyForward (c : channel) : channel :=
  if hasUnforward c then
    let c := set_forwardState (set_processing true (forwardState c)) c in
    let msgs := sliceWithSize (msgQueue c)
                  (forwardingIndex (msgQueue c) + 1)
                  (payloadDecryptingIndex (msgQueue c) + 1) (deliverMaxSize c) in
    if nonempty msgs then exec (mkAction ChannelActionForward (leaderId c) msgs) c else c
  else c.

Definition readyStreamForward (c : channel) : channel :=
  if streams_hasUnforward (streams c) then
    let '(msgs, s') := streams_unforwardMessages (streams c) in
    let c := set_streams s' c in
    if nonempty msgs then exec (mkAction ChannelActionStreamForward (leaderId c) msgs) c else c
  else c.

(** The tail of [ready()]: hand out [c.actions] and clear it. *)
Definition takeActions (c : channel) : list ChannelAction * channel :=
  (actions c, set_actions [] c).

(** [ready()]: returns [ready{actions}] together with the channel it leaves
    behind. While the channel is initializing it returns an empty [ready]
    at once, without touching [c.actions]. *)
Definition ready (c : channel) : list ChannelAction * channel :=
  if negb (isInitialized c) then
    if bool_decide (status c = channelStatusInitializing) then ([], c)
    else
      let c := set_status channelStatusInitializing c in
      let c := set_initTick 0 c in
      takeActions (exec (mkAction ChannelActionInit 0 []) c)
  else
    let c := readyPayloadDecrypt c in
    let c := readyStreamPayloadDecrypt c in
    let c :=
      match role c with
      | channelRoleLeader =>
          let c := readyPermissionCheck c in
          let c := readyStorage c in
          let c := readySendack c in
          let c := readyDeliver c in
          readyStreamDeliver c
      | channelRoleProxy =>
          let c := readyForward c in
          readyStreamForward c
      | channelRoleUnknown => c
      end in
    takeActions c.

(** One of the six identical retry blocks of [tick()]. *)
Definition retryStateTick (retryTickCount : Z) (s : readyState) : readyState :=
  if willRetry s then
    let t := incr (retryTick s) in
    if t >=? retryTickCount then mkReadyState (processing s) false 0
    else mkReadyState (processing s) true t
  else s.

Definition tickLeader (c : channel) : channel :=
  let c := set_tagCheckTick (incr (tagCheckTick c)) c in
  if tagCheckTick c >=? TagCheckIntervalTick (opts c) then
    let c := set_tagCheckTick 0 c in
    if negb (bool_decide (receiverTagKey c = EmptyString))
    then exec (mkAction ChannelActionCheckTag 0 []) c
    else c
  else c.

Definition tickProxy (c : channel) : channel := c.

(** [tick()], in the order of the source: the tick counters and the idle
    deadline, the six retry blocks, the role's tick function, the streams. *)
Definition tickIdle (c : channel) : channel :=
  let c := set_initTick (incr (initTick c)) c in
  let c := set_forwardTick (incr (forwardTick c)) c in
  let c := set_idleTick (incr (idleTick c)) c in
  if idleTick c >=? DeadlineTick (opts c) then
    let c := set_idleTick 0 c in
    exec (mkAction ChannelActionClose 0 []) c
  else c.

Definition tickRetries (c : channel) : channel :=
  let c := set_payloadDecryptState (retryStateTick (retryTickCount c) (payloadDecryptState c)) c in
  let c := set_permissionCheckState (retryStateTick (retryTickCount c) (permissionCheckState c)) c in
  let c := set_storageState (retryStateTick (retryTickCount c) (storageState c)) c in
  let c := set_sendackState (retryStateTick (retryTickCount c) (sendackState c)) c in
  let c := set_deliveryState (retryStateTick (retryTickCount c) (deliveryState c)) c in
  set_forwardState (retryStateTick (retryTickCount c) (forwardState c)) c.

Definition tickRole (c : channel) : channel :=
  match tickFnc c with
  | tickNil => c
  | tickLeaderFn => tickLeader c
  | tickProxyFn => tickProxy c
  end.

Definition tick (c : channel) : channel :=
  let c := tickIdle c in
  let c := tickRetries c in
  let c := tickRole c in
  set_streams (streams_tick (streams c)) c.

(** [resetIndex()]. The call that releases the old receiver tag goes to the
    tag manager, outside the channel object; the channel forgets the key. *)
Definition resetIndex (c : channel) : channel :=
  let c := set_msgQueue (queue_resetIndex (msgQueue c)) c in
  let c :=
    if negb (bool_decide (receiverTagKey c = EmptyString))
    then set_receiverTagKey EmptyString c
    else c in
  let c := set_payloadDecryptState readyState_zero c in
  let c := set_permissionCheckState readyState_zero c in
  let c := set_storageState readyState_zero c in
  let c := set_sendackState readyState_zero c in
  let c := set_deliveryState readyState_zero c in
  let c := set_forwardState readyState_zero c in
  let c := set_idleTick 0 c in
  set_initTick 0 c.

Definition becomeLeader (c : channel) : channel :=
  let c := resetIndex c in
  let c := set_leaderId 0%N c in
  let c := set_role channelRoleLeader c in
  let c := set_stepFnc stepLeader c in
  set_tickFnc tickLeaderFn c.

Definition becomeProxy (leader : N) (c : channel) : channel :=
  let c := resetIndex c in
  let c := set_role channelRoleProxy c in
  let c := set_leaderId leader c in
  let c := set_stepFnc stepProxy c in
  set_tickFnc tickProxyFn c.

(** The [ChannelActionClose] actions among a list of actions. *)
Definition isClose (a : ChannelAction) : bool :=
  bool_decide (ActionType a = ChannelActionClose).

Definition closes (l : list ChannelAction) : list ChannelAction :=
  List.filter isClose l.

(** *** The pipeline stages and their cursors *)

Inductive stage :=
| PayloadDecrypt | PermissionCheck | Storage | Sendack | Deliver | Forward.

(** The flag of stage [X]. *)
Definition stateOf (X : stage) (c : channel) : readyState :=
  match X with
  | PayloadDecrypt => payloadDecryptState c
  | PermissionCheck => permissionCheckState c
  | Storage => storageState c
  | Sendack => sendackState c
  | Deliver => deliveryState c
  | Forward => forwardState c
  end.

Definition set_stateOf (X : stage) (s : readyState) (c : channel) : channel :=
  match X with
  | PayloadDecrypt => set_payloadDecryptState s c
  | PermissionCheck => set_permissionCheckState s c
  | Storage => set_storageState s c
  | Sendack => set_sendackState s c
  | Deliver => set_deliveryState s c
  | Forward => set_forwardState s c
  end.

(** The cursor stage [X] advances (downstream) and the cursor it drains
    towards (upstream), as [ready()] cuts the batch of each stage. *)
Definition cursorOf (X : stage) (q : channelMsgQueue) : N :=
  match X with
  | PayloadDecrypt => payloadDecryptingIndex q
  | PermissionCheck => permissionCheckingIndex q
  | Storage => storagingIndex q
  | Sendack => sendackingIndex q
  | Deliver => deliveringIndex q
  | Forward => forwardingIndex q
  end.

Definition upstreamOf (X : stage) (q : channelMsgQueue) : N :=
  match X with
  | PayloadDecrypt => lastIndex q
  | PermissionCheck => payloadDecryptingIndex q
  | Storage => permissionCheckingIndex q
  | Sendack => storagingIndex q
  | Deliver => storagingIndex q
  | Forward => payloadDecryptingIndex q
  end.

Definition set_cursorOf (X : stage) (i : N) (q : channelMsgQueue) : channelMsgQueue :=
  match X with
  | PayloadDecrypt => setq_payloadDecryptingIndex i q
  | PermissionCheck => setq_permissionCheckingIndex i q
  | Storage => setq_storagingIndex i q
  | Sendack => setq_sendackingIndex i q
  | Deliver => setq_deliveringIndex i q
  | Forward => setq_forwardingIndex i q
  end.

(** The gate [hasUnX()] of stage [X]. *)
Definition hasUn (X : stage) (c : channel) : bool :=
  match X with
  | PayloadDecrypt => hasPayloadUnDecrypt c
  | PermissionCheck => hasPermissionUnCheck c
  | Storage => hasUnstorage c
  | Sendack => hasSendack c
  | Deliver => hasUnDeliver c
  | Forward => hasUnforward c
  end.

(** *** What reaches the channel through [step] *)

(** Modelled from the spec: [channel.step] ([stepLeader], [stepProxy]) is not
    among the sources. The spec gives these effects: a send appends to the
    log; the completion of Init resolves the placement and the channel
    becomes leader or proxy; the completion callback of a stage clears
    [processing]; on failure it sets [willRetry] with [retryTick = 0]; on
    success the stage's cursor advances to the last position of the batch,
    which lies in [cursor+1 .. upstream] because every stage drains strictly
    forward the range [ready()] cut for it; any stage activity resets
    [idleTick]. *)
Definition stepSend (m : ReactorChannelMessage) (c : channel) : channel :=
  set_idleTick 0 (set_msgQueue (appendMessage m (msgQueue c)) c).

Definition stepInitResp (leader : N) (c : channel) : channel :=
  let c := set_status channelStatusInitialized c in
  if (leader =? NodeId (opts c))%N then becomeLeader c else becomeProxy leader c.

Definition stepStageResp (X : stage) (ok : bool) (index : N) (c : channel) : channel :=
  if processing (stateOf X c) then
    let c := set_idleTick 0 c in
    if ok then
      let c := set_stateOf X (set_processing false (stateOf X c)) c in
      if ((cursorOf X (msgQueue c) <? index) && (index <=? upstreamOf X (msgQueue c)))%N
      then set_msgQueue (set_cursorOf X index (msgQueue c)) c
      else c
    else set_stateOf X (mkReadyState false true 0) c
  else c.

(** The calls a reactor lane makes on a channel object. *)
Inductive event :=
| EvReady
| EvTick
| EvSend (m : ReactorChannelMessage)
| EvInitResp (leader : N)
| EvStageResp (X : stage) (ok : bool) (index : N).

Definition apply_event (e : event) (c : channel) : channel :=
  match e with
  | EvReady => snd (ready c)
  | EvTick => tick c
  | EvSend m => stepSend m c
  | EvInitResp leader => stepInitResp leader c
  | EvStageResp X ok index => stepStageResp X ok index c
  end.

(** The channel after a history of calls, oldest first. *)
Definition run (evs : list event) (c : channel) : channel :=
  fold_left (fun c e => apply_event e c) evs c.




End WithStreams.

Arguments channel : clear implicits.

(** *** Further notions used to state properties of the channel *)

(** The stages [ready()] runs for a role: payload decryption for every role,
    the four leader stages under [channelRoleLeader], forwarding under
    [channelRoleProxy]. *)
Definition dispatches (r : channelRole) (X : stage) : bool :=
  match X with
  | PayloadDecrypt => true
  | PermissionCheck | Storage | Sendack | Deliver =>
      match r with channelRoleLeader => true | _ => false end
  | Forward =>
      match r with channelRoleProxy => true | _ => false end
  end.

(** [n] calls of [tick()] in a row. *)
Definition ticks {S} `{StreamList S} (n : nat) (c : channel S) : channel S :=
  Nat.iter n tick c.

(** What [tickLeader] emits on this tick. *)
Definition tagCheckDue {S} (c : channel S) : bool :=
  match tickFnc c with
  | tickLeaderFn =>
      (incr (tagCheckTick c) >=? TagCheckIntervalTick (opts c))
      && negb (bool_decide (receiverTagKey c = EmptyString))
  | _ => false
  end.

(** *** Grouping subscribers by node ([makeReceiverTag]) *)

Record nodeUsers := mkNodeUsers {
  nu_nodeId : N;
  uids : list string
}.

(** The inner loop: append [uid] to the first group of [node], if there is
    one. *)
Fixpoint appendToNode (node : N) (uid : string) (l : list nodeUsers)
  : option (list nodeUsers) :=
  match l with
  | [] => None
  | g :: rest =>
      if (nu_nodeId g =? node)%N then Some (mkNodeUsers (nu_nodeId g) (uids g ++ [uid]) :: rest)
      else
        match appendToNode node uid rest with
        | Some rest' => Some (g :: rest')
        | None => None
        end
  end.

(** The outer loop of [makeReceiverTag] over the subscribers:
    [slotLeaderOf] is [cluster.SlotLeaderOfChannel(uid, ChannelTypePerson)],
    whose first error ends the loop. *)
Fixpoint groupByNode {E} (slotLeaderOf : string -> E + N) (subscribers : list string)
    (nodeUserList : list nodeUsers) : E + list nodeUsers :=
  match subscribers with
  | [] => inr nodeUserList
  | subscriber :: rest =>
      match slotLeaderOf subscriber with
      | inl err => inl err
      | inr leader =>
          match appendToNode leader subscriber nodeUserList with
          | Some l' => groupByNode slotLeaderOf rest l'
          | None =>
              groupByNode slotLeaderOf rest
                (nodeUserList ++ [mkNodeUsers leader [subscriber]])
          end
      end
  end.

(** Whether the slot leader of [uid] is [node]. *)
Definition ledBy {E} (slotLeaderOf : string -> E + N) (node : N) (uid : string) : bool :=
  match slotLeaderOf uid with
  | inr leader => (leader =? node)%N
  | inl _ => false
  end.

(** The group of [g] after [uid], led by [node], has been placed. *)
Definition extend (node : N) (uid : string) (g : nodeUsers) : nodeUsers :=
  if (nu_nodeId g =? node)%N then mkNodeUsers (nu_nodeId g) (uids g ++ [uid]) else g.

(** What holds of the groups once the subscribers [done] have been placed:
    one group per node, each holding, in order, exactly the subscribers led
    by its node, none empty, and every subscriber in the group of its
    leader. *)
Definition grouped {E} (slotLeaderOf : string -> E + N) (done : list string)
    (l : list nodeUsers) : Prop :=
  NoDup (nu_nodeId <$> l) /\
  Forall (fun g => uids g = List.filter (ledBy slotLeaderOf (nu_nodeId g)) done
                   /\ uids g <> []) l /\
  Forall (fun u => exists g, g ∈ l /\ ledBy slotLeaderOf (nu_nodeId g) u = true) done.

(** Concrete input: [u1] lives on node 1, [u2] and [u3] on node 2, anything
    else cannot be resolved. *)
Definition exampleLeaderOf (uid : string) : string + N :=
  if String.eqb uid "u1" then inr 1%N
  else if String.eqb uid "u2" then inr 2%N
  else if String.eqb uid "u3" then inr 2%N
  else inl "slot not found"%string.

End Channel.

(** ** package replica: the per-shard replica state machine *)

Module Replica.
Import GoInt.

Inductive Role := RoleUnknown | RoleFollower | RoleCandidate | RoleLeader | RoleLearner.

Inductive Status :=
| StatusUninitialized | StatusIniting | StatusLogCoflictCheck | StatusReady.

Inductive MsgType :=
| MsgUnknown | MsgInit | MsgLogConflictCheck | MsgStoreAppend | MsgApplyLogs
| MsgPropose | MsgSyncReq | MsgSyncResp | MsgSyncTimeout | MsgSyncGet
| MsgPing | MsgPong | MsgVoteReq | MsgVoteResp | MsgBeat | MsgHup
| MsgConfigReq | MsgConfigResp | MsgConfigChange
| MsgLearnerToFollower | MsgLearnerToLeader | MsgFollowerToLeader
| MsgSpeedLevelChange.

#[global] Instance Role_eq_dec : EqDecision Role.
Proof. solve_decision. Defined.
#[global] Instance Status_eq_dec : EqDecision Status.
Proof. solve_decision. Defined.
#[global] Instance MsgType_eq_dec : EqDecision MsgType.
Proof. solve_decision. Defined.

(** [uint64] increment. *)
Definition u64_incr (n : N) : N := ((n + 1) mod 2 ^ 64)%N.

Record Log := mkLog {
  Log_Index : N;
  Log_Term : Z;
  Log_Data : list Byte.byte
}.

(** The fields of [Message] that the embedded functions write. *)
Record Message := mkMessage {
  msgType : MsgType;
  From : N;
  To : N;
  Term : Z;
  Index : N;
  Logs : list Log;
  ApplyingIndex : N;
  AppliedIndex : N;
  CommittedIndex : N
}.

Record HardState := mkHardState {
  hs_LeaderId : N;
  hs_Term : Z;
  hs_ConfVersion : Z
}.

Definition HardState_zero : HardState := mkHardState 0 0 0.

Record Config := mkConfig {
  cfg_Version : Z;
  cfg_Replicas : list N;
  cfg_Learners : list N
}.

Record SyncInfo := mkSyncInfo {
  LastSyncIndex : N;
  SyncTick : Z
}.

(** The fields of [replicaLog] that [Replica] reads and writes directly. *)
Record replicaLogT := mkReplicaLog {
  lastLogIndex : N;
  storagedIndex : N;
  committedIndex : N;
  applyingIndex : N;
  appliedIndex : N;
  storaging : bool;
  applying : bool
}.

Definition set_storaging (b : bool) (l : replicaLogT) : replicaLogT :=
  mkReplicaLog (lastLogIndex l) (storagedIndex l) (committedIndex l)
    (applyingIndex l) (appliedIndex l) b (applying l).

Definition set_applying (b : bool) (l : replicaLogT) : replicaLogT :=
  mkReplicaLog (lastLogIndex l) (storagedIndex l) (committedIndex l)
    (applyingIndex l) (appliedIndex l) (storaging l) b.

Record Options := mkOptions {
  NodeId : N;
  ElectionOn : bool;
  RequestTimeoutTick : Z;
  LearnerToTimeoutTick : Z;
  ElectionIntervalTick : Z;
  HeartbeatIntervalTick : Z;
  SyncIntervalTick : Z
}.

(** [tickFnc] holds one of the replica's own tick methods, or nil. *)
Inductive tickFn := tickNil | tickElectionFn | tickHeartbeatFn.

Record Replica := mkReplica {
  msgs : list Message;
  nodeId : N;
  cfg : Config;
  replicaLog : replicaLogT;
  opts : Options;
  lastSyncInfoMap : gmap N SyncInfo;
  preHardState : HardState;
  syncTick : Z;
  syncIntervalTick : Z;
  isRoleTransitioning : bool;
  roleTransitioningTimeoutTick : Z;
  leader : N;
  role : Role;
  status : Status;
  term : Z;
  syncing : bool;
  logConflictCheckTick : Z;
  electionElapsed : Z;
  heartbeatElapsed : Z;
  randomizedElectionTimeout : Z;
  tickFnc : tickFn
}.

Definition set_msgs (v : list Message) (r : Replica) : Replica :=
  {| msgs := v; nodeId := nodeId r; cfg := cfg r; replicaLog := replicaLog r; opts := opts r; lastSyncInfoMap := lastSyncInfoMap r; preHardState := preHardState r; syncTick := syncTick r; syncIntervalTick := syncIntervalTick r; isRoleTransitioning := isRoleTransitioning r; roleTransitioningTimeoutTick := roleTransitioningTimeoutTick r; leader := leader r; role := role r; status := status r; term := term r; syncing := syncing r; logConflictCheckTick := logConflictCheckTick r; electionElapsed := electionElapsed r; heartbeatElapsed := heartbeatElapsed r; randomizedElectionTimeout := randomizedElectionTimeout r; tickFnc := tickFnc r |}.
Definition set_replicaLog (v : replicaLogT) (r : Replica) : Replica :=
  {| msgs := msgs r; nodeId := nodeId r; cfg := cfg r; replicaLog := v; opts := opts r; lastSyncInfoMap := lastSyncInfoMap r; preHardState := preHardState r; syncTick := syncTick r; syncIntervalTick := syncIntervalTick r; isRoleTransitioning := isRoleTransitioning r; roleTransitioningTimeoutTick := roleTransitioningTimeoutTick r; leader := leader r; role := role r; status := status r; term := term r; syncing := syncing r; logConflictCheckTick := logConflictCheckTick r; electionElapsed := electionElapsed r; heartbeatElapsed := heartbeatElapsed r; randomizedElectionTimeout := randomizedElectionTimeout r; tickFnc := tickFnc r |}.
Definition set_lastSyncInfoMap (v : gmap N SyncInfo) (r : Replica) : Replica :=
  {| msgs := msgs r; nodeId := nodeId r; cfg := cfg r; replicaLog := replicaLog r; opts := opts r; lastSyncInfoMap := v; preHardState := preHardState r; syncTick := syncTick r; syncIntervalTick := syncIntervalTick r; isRoleTransitioning := isRoleTransitioning r; roleTransitioningTimeoutTick := roleTransitioningTimeoutTick r; leader := leader r; role := role r; status := status r; term := term r; syncing := syncing r; logConflictCheckTick := logConflictCheckTick r; electionElapsed := electionElapsed r; heartbeatElapsed := heartbeatElapsed r; randomizedElectionTimeout := randomizedElectionTimeout r; tickFnc := tickFnc r |}.
Definition set_preHardState (v : HardState) (r : Replica) : Replica :=
  {| msgs := msgs r; nodeId := nodeId r; cfg := cfg r; replicaLog := replicaLog r; opts := opts r; lastSyncInfoMap := lastSyncInfoMap r; preHardState := v; syncTick := syncTick r; syncIntervalTick := syncIntervalTick r; isRoleTransitioning := isRoleTransitioning r; roleTransitioningTimeoutTick := roleTransitioningTimeoutTick r; leader := leader r; role := role r; status := status r; term := term r; syncing := syncing r; logConflictCheckTick := logConflictCheckTick r; electionElapsed := electionElapsed r; heartbeatElapsed := heartbeatElapsed r; randomizedElectionTimeout := randomizedElectionTimeout r; tickFnc := tickFnc r |}.
Definition set_syncTick (v : Z) (r : Replica) : Replica :=
  {| msgs := msgs r; nodeId := nodeId r; cfg := cfg r; replicaLog := replicaLog r; opts := opts r; lastSyncInfoMap := lastSyncInfoMap r; preHardState := preHardState r; syncTick := v; syncIntervalTick := syncIntervalTick r; isRoleTransitioning := isRoleTransitioning r; roleTransitioningTimeoutTick := roleTransitioningTimeoutTick r; leader := leader r; role := role r; status := status r; term := term r; syncing := syncing r; logConflictCheckTick := logConflictCheckTick r; electionElapsed := electionElapsed r; heartbeatElapsed := heartbeatElapsed r; randomizedElectionTimeout := randomizedElectionTimeout r; tickFnc := tickFnc r |}.
Definition set_isRoleTransitioning (v : bool) (r : Replica) : Replica :=
  {| msgs := msgs r; nodeId := nodeId r; cfg := cfg r; replicaLog := replicaLog r; opts := opts r; lastSyncInfoMap := lastSyncInfoMap r; preHardState := preHardState r; syncTick := syncTick r; syncIntervalTick := syncIntervalTick r; isRoleTransitioning := v; roleTransitioningTimeoutTick := roleTransitioningTimeoutTick r; leader := leader r; role := role r; status := status r; term := term r; syncing := syncing r; logConflictCheckTick := logConflictCheckTick r; electionElapsed := electionElapsed r; heartbeatElapsed := heartbeatElapsed r; randomizedElectionTimeout := randomizedElectionTimeout r; tickFnc := tickFnc r |}.
Definition set_roleTransitioningTimeoutTick (v : Z) (r : Replica) : Replica :=
  {| msgs := msgs r; nodeId := nodeId r; cfg := cfg r; replicaLog := replicaLog r; opts := opts r; lastSyncInfoMap := lastSyncInfoMap r; preHardState := preHardState r; syncTick := syncTick r; syncIntervalTick := syncIntervalTick r; isRoleTransitioning := isRoleTransitioning r; roleTransitioningTimeoutTick := v; leader := leader r; role := role r; status := status r; term := term r; syncing := syncing r; logConflictCheckTick := logConflictCheckTick r; electionElapsed := electionElapsed r; heartbeatElapsed := heartbeatElapsed r; randomizedElectionTimeout := randomizedElectionTimeout r; tickFnc := tickFnc r |}.
Definition set_status (v : Status) (r : Replica) : Replica :=
  {| msgs := msgs r; nodeId := nodeId r; cfg := cfg r; replicaLog := replicaLog r; opts := opts r; lastSyncInfoMap := lastSyncInfoMap r; preHardState := preHardState r; syncTick := syncTick r; syncIntervalTick := syncIntervalTick r; isRoleTransitioning := isRoleTransitioning r; roleTransitioningTimeoutTick := roleTransitioningTimeoutTick r; leader := leader r; role := role r; status := v; term := term r; syncing := syncing r; logConflictCheckTick := logConflictCheckTick r; electionElapsed := electionElapsed r; heartbeatElapsed := heartbeatElapsed r; randomizedElectionTimeout := randomizedElectionTimeout r; tickFnc := tickFnc r |}.
Definition set_syncing (v : bool) (r : Replica) : Replica :=
  {| msgs := msgs r; nodeId := nodeId r; cfg := cfg r; replicaLog := replicaLog r; opts := opts r; lastSyncInfoMap := lastSyncInfoMap r; preHardState := preHardState r; syncTick := syncTick r; syncIntervalTick := syncIntervalTick r; isRoleTransitioning := isRoleTransitioning r; roleTransitioningTimeoutTick := roleTransitioningTimeoutTick r; leader := leader r; role := role r; status := status r; term := term r; syncing := v; logConflictCheckTick := logConflictCheckTick r; electionElapsed := electionElapsed r; heartbeatElapsed := heartbeatElapsed r; randomizedElectionTimeout := randomizedElectionTimeout r; tickFnc := tickFnc r |}.
Definition set_logConflictCheckTick (v : Z) (r : Replica) : Replica :=
  {| msgs := msgs r; nodeId := nodeId r; cfg := cfg r; replicaLog := replicaLog r; opts := opts r; lastSyncInfoMap := lastSyncInfoMap r; preHardState := preHardState r; syncTick := syncTick r; syncIntervalTick := syncIntervalTick r; isRoleTransitioning := isRoleTransitioning r; roleTransitioningTimeoutTick := roleTransitioningTimeoutTick r; leader := leader r; role := role r; status := status r; term := term r; syncing := syncing r; logConflictCheckTick := v; electionElapsed := electionElapsed r; heartbeatElapsed := heartbeatElapsed r; randomizedElectionTimeout := randomizedElectionTimeout r; tickFnc := tickFnc r |}.
Definition set_electionElapsed (v : Z) (r : Replica) : Replica :=
  {| msgs := msgs r; nodeId := nodeId r; cfg := cfg r; replicaLog := replicaLog r; opts := opts r; lastSyncInfoMap := lastSyncInfoMap r; preHardState := preHardState r; syncTick := syncTick r; syncIntervalTick := syncIntervalTick r; isRoleTransitioning := isRoleTransitioning r; roleTransitioningTimeoutTick := roleTransitioningTimeoutTick r; leader := leader r; role := role r; status := status r; term := term r; syncing := syncing r; logConflictCheckTick := logConflictCheckTick r; electionElapsed := v; heartbeatElapsed := heartbeatElapsed r; randomizedElectionTimeout := randomizedElectionTimeout r; tickFnc := tickFnc r |}.
Definition set_heartbeatElapsed (v : Z) (r : Replica) : Replica :=
  {| msgs := msgs r; nodeId := nodeId r; cfg := cfg r; replicaLog := replicaLog r; opts := opts r; lastSyncInfoMap := lastSyncInfoMap r; preHardState := preHardState r; syncTick := syncTick r; syncIntervalTick := syncIntervalTick r; isRoleTransitioning := isRoleTransitioning r; roleTransitioningTimeoutTick := roleTransitioningTimeoutTick r; leader := leader r; role := role r; status := status r; term := term r; syncing := syncing r; logConflictCheckTick := logConflictCheckTick r; electionElapsed := electionElapsed r; heartbeatElapsed := v; randomizedElectionTimeout := randomizedElectionTimeout r; tickFnc := tickFnc r |}.

Definition nonempty_msgs (l : list Message) : bool :=
  match l with [] => false | _ => true end.

(** What the replica uses and the sources do not contain: [Step], the
    [replicaLog] methods, the broadcast address [All], and the order in which
    the Go runtime ranges over [lastSyncInfoMap]. *)
Class ReplicaEnv := {
  Step : Message -> Replica -> Replica * bool;
  hasStorage : replicaLogT -> bool;
  hasApply : replicaLogT -> bool;
  nextStorageLogs : replicaLogT -> list Log;
  All : N;
  rangeSyncInfo : gmap N SyncInfo -> list (N * SyncInfo)
}.

Section WithEnv.
Context `{ReplicaEnv}.

Definition send (m : Message) (r : Replica) : Replica :=
  set_msgs (msgs r ++ [m]) r.

Definition newMsgInit (r : Replica) : Message :=
  mkMessage MsgInit (nodeId r) (nodeId r) 0 0 [] 0 0 0.

Definition newMsgLogConflictCheck (r : Replica) : Message :=
  mkMessage MsgLogConflictCheck (nodeId r) (nodeId r) 0 0 [] 0 0 0.

Definition newSyncMsg (r : Replica) : Message :=
  mkMessage MsgSyncReq (nodeId r) (leader r) (term r)
    (u64_incr (lastLogIndex (replicaLog r))) [] 0 0 0.


Definition newMsgStoreAppend (logs : list Log) (r : Replica) : Message :=
  mkMessage MsgStoreAppend (nodeId r) (nodeId r) 0 0 logs 0 0 0.

Definition newApplyLogReqMsg (applyingIdx appliedIdx committedIdx : N) (r : Replica)
  : Message :=
  mkMessage MsgApplyLogs (nodeId r) (nodeId r) 0 0 [] applyingIdx appliedIdx committedIdx.

Definition isLeader (r : Replica) : bool := bool_decide (role r = RoleLeader).

Definition isFollowerOrLearner (r : Replica) : bool :=
  bool_decide (role r = RoleFollower) || bool_decide (role r = RoleLearner).

Definition hardStateChange (r : Replica) : bool :=
  negb (hs_LeaderId (preHardState r) =? leader r)%N
  || negb (hs_Term (preHardState r) =? term r)
  || negb (hs_ConfVersion (preHardState r) =? cfg_Version (cfg r)).

Definition HasReady (r : Replica) : bool :=
  let isFollower := isFollowerOrLearner r in
  if negb (bool_decide (status r = StatusReady)) then
    if bool_decide (status r = StatusUninitialized) then true
    else if bool_decide (status r = StatusLogCoflictCheck) && isFollower then
      negb (leader r =? 0)%N && (logConflictCheckTick r >=? RequestTimeoutTick (opts r))
    else false
  else if isFollower && negb (leader r =? 0)%N
          && (syncTick r >=? syncIntervalTick r) && negb (syncing r) then true
  else if hasStorage (replicaLog r) then true
  else if hasApply (replicaLog r) then true
  else if nonempty_msgs (msgs r) then true
  else hardStateChange r.

(** The value [Ready()] returns. *)
Record ReadyT := mkReady {
  rd_HardState : HardState;
  rd_Messages : list Message
}.

Definition Ready (r : Replica) : ReadyT * Replica :=
  if bool_decide (status r = StatusUninitialized) then
    let r := set_status StatusIniting r in
    let r := send (newMsgInit r) r in
    (mkReady HardState_zero (msgs r), set_msgs [] r)
  else
    let isFollower := isFollowerOrLearner r in
    let '(hs, r) :=
      if hardStateChange r then
        let h := mkHardState (leader r) (term r) (cfg_Version (cfg r)) in
        (h, set_preHardState h r)
      else (HardState_zero, r) in
    if bool_decide (status r = StatusLogCoflictCheck) && isFollower then
      if negb (leader r =? 0)%N && (logConflictCheckTick r >=? RequestTimeoutTick (opts r))
      then
        let r := set_logConflictCheckTick 0 r in
        let r := send (newMsgLogConflictCheck r) r in
        (mkReady hs (msgs r), set_msgs [] r)
      else (mkReady hs [], r)
    else
      (* start a sync *)
      let r :=
        if isFollower && negb (leader r =? 0)%N then
          if (syncTick r >=? syncIntervalTick r) && negb (syncing r) then
            let r := set_syncTick 0 r in
            let r := send (newSyncMsg r) r in
            set_syncing true r
          else r
        else r in
      (* store logs *)
      let r :=
        if hasStorage (replicaLog r) then
          let logs := nextStorageLogs (replicaLog r) in
          match logs with
          | [] => r
          | _ =>
              let r := send (newMsgStoreAppend logs r) r in
              set_replicaLog (set_storaging true (replicaLog r)) r
          end
        else r in
      (* apply logs *)
      let r :=
        if hasApply (replicaLog r) then
          let newCommittedIndex :=
            N.min (storagedIndex (replicaLog r)) (committedIndex (replicaLog r)) in
          let r := send (newApplyLogReqMsg (applyingIndex (replicaLog r))
                           (appliedIndex (replicaLog r)) newCommittedIndex r) r in
          set_replicaLog (set_applying true (replicaLog r)) r
        else r in
      (mkReady hs (msgs r), set_msgs [] r).

Definition pastElectionTimeout (r : Replica) : bool :=
  electionElapsed r >=? randomizedElectionTimeout r.

Definition tickElection (r : Replica) : Replica :=
  if negb (ElectionOn (opts r)) then r
  else
    let r := set_electionElapsed (incr (electionElapsed r)) r in
    if pastElectionTimeout r then
      let r := set_electionElapsed 0 r in
      fst (Step (mkMessage MsgHup 0 0 0 0 [] 0 0 0) r)
    else r.

(** [tickHeartbeat()]. The loop over [lastSyncInfoMap] visits the entries the
    map had when the loop started, in the runtime's order, and bumps each
    entry where the map holds it. *)
Definition tickHeartbeat (r : Replica) : Replica :=
  if negb (isLeader r) then r
  else
    let r :=
      if isRoleTransitioning r then
        let r := set_roleTransitioningTimeoutTick (incr (roleTransitioningTimeoutTick r)) r in
        if roleTransitioningTimeoutTick r >=? LearnerToTimeoutTick (opts r)
        then set_isRoleTransitioning false r
        else r
      else r in
    if ElectionOn (opts r) then
      let r := set_heartbeatElapsed (incr (heartbeatElapsed r)) r in
      let r := set_electionElapsed (incr (electionElapsed r)) r in
      let r :=
        if electionElapsed r >=? ElectionIntervalTick (opts r)
        then set_electionElapsed 0 r else r in
      if heartbeatElapsed r >=? HeartbeatIntervalTick (opts r) then
        let r := set_heartbeatElapsed 0 r in
        fst (Step (mkMessage MsgBeat (NodeId (opts r)) All 0 0 [] 0 0 0) r)
      else r
    else
      fold_left
        (fun r '(node, info) =>
           let t := incr (SyncTick info) in
           if t >=? syncIntervalTick r then
             let r := set_lastSyncInfoMap
                        (<[node := mkSyncInfo (LastSyncIndex info) 0]> (lastSyncInfoMap r)) r in
             fst (Step (mkMessage MsgBeat (NodeId (opts r)) node 0 0 [] 0 0 0) r)
           else
             set_lastSyncInfoMap
               (<[node := mkSyncInfo (LastSyncIndex info) t]> (lastSyncInfoMap r)) r)
        (rangeSyncInfo (lastSyncInfoMap r)) r.


Definition tickRole (r : Replica) : Replica :=
  match tickFnc r with
  | tickNil => r
  | tickElectionFn => tickElection r
  | tickHeartbeatFn => tickHeartbeat r
  end.



End WithEnv.

(** An environment for closed examples: [Step] ignores its message, the log
    has nothing to store or apply. *)
Definition idleEnv : ReplicaEnv := {|
  Step := fun _ r => (r, false);
  hasStorage := fun _ => false;
  hasApply := fun _ => false;
  nextStorageLogs := fun _ => [];
  All := 0%N;
  rangeSyncInfo := map_to_list
|}.

(** A follower of node 1 whose sync request has been unanswered for five
    sync intervals of two ticks. *)
Definition stalledFollower : Replica :=
  mkReplica [] 2 (mkConfig 1 [1; 2; 3]%N []) (mkReplicaLog 4 4 4 4 4 false false)
    (mkOptions 2 false 10 10 10 2 2) ∅ (mkHardState 1 1 1)
    10 2 false 0 1 RoleFollower StatusReady 1 true 0 0 0 15 tickElectionFn.

(** *** Further notions used to state properties of the replica *)

(** The sync requests among a list of messages. *)
Definition syncReqs (l : list Message) : list Message :=
  List.filter (fun m => bool_decide (msgType m = MsgSyncReq)) l.

(** A follower or learner in log-conflict check that has no check due: no
    leader known yet, or the last check younger than [RequestTimeoutTick]. *)
Definition conflictCheckWaiting (r : Replica) : bool :=
  bool_decide (status r = StatusLogCoflictCheck)
  && (bool_decide (role r = RoleFollower) || bool_decide (role r = RoleLearner))
  && negb (negb (leader r =? 0)%N && (logConflictCheckTick r >=? RequestTimeoutTick (opts r))).

(** *** Further concrete replicas for closed examples *)

(** A replica as [New] leaves it: not initialized, nothing queued. *)
Definition freshReplica : Replica :=
  mkReplica [] 2 (mkConfig 0 [] []) (mkReplicaLog 0 0 0 0 0 false false)
    (mkOptions 2 false 10 10 10 2 2) ∅ HardState_zero
    0 2 false 0 0 RoleFollower StatusUninitialized 0 false 0 0 0 15 tickNil.



End Replica.

(** ** package cluster: channel placement (channelGroupManager) *)

Module Placement.
Import GoInt.

Inductive error :=
| ErrSlotNotExist
| ErrNodeNotFound
| ErrNew (msg : string)        (* errors.New, fmt.Errorf *)
| ErrExternal (msg : string).  (* an error handed back by storage or transport *)

Inductive result (A : Type) :=
| Ok (a : A)
| Err (e : error).
Arguments Ok {A} a.
Arguments Err {A} e.

(** A call either returns or stops the goroutine with a nil-pointer
    dereference. *)
Inductive outcome (A : Type) :=
| Ret (a : A)
| Panic.
Arguments Ret {A} a.
Arguments Panic {A}.

Record ChannelClusterConfig := mkConfig {
  ChannelID : string;
  ChannelType : Z;
  ReplicaCount : N;
  Replicas : list N;
  LeaderId : N;
  Term : Z
}.

Record ChannelLastLogInfoResponse := mkLogInfo {
  LogIndex : N
}.

Record Slot := mkSlot { slot_Leader : N }.
Record Node := mkNode { node_Online : bool }.

Record Options := mkOptions {
  NodeID : N;
  ChannelMaxReplicaCount : N;
  IsSingleNode : bool
}.

(** What [channelGroupManager] reaches through [c.s]: the options, the
    cluster-config manager, the local message log, the node clients, and the
    order in which the Go runtime ranges over a map. None of these
    collaborators is among the sources; each is a parameter. *)
Record Server := mkServer {
  opts : Options;
  getChannelSlotId : string -> N;
  ChannelKey : string -> Z -> string;
  slot : N -> option Slot;
  node : N -> option Node;
  nodeIsOnline : N -> bool;
  LastIndex : string -> result N;
  nodeClient : N -> bool;
  requestChannelLastLogInfo : N -> result ChannelLastLogInfoResponse;
  mapRange : gmap N ChannelLastLogInfoResponse -> list (N * ChannelLastLogInfoResponse)
}.

(** [opts.ChannelClusterStorage]: a keyed store whose writes may fail. *)
Record Storage := mkStorage {
  configs : gmap (string * Z) ChannelClusterConfig;
  saveErr : option error;
  deleteErr : option error
}.

Definition Save (id : string) (ty : Z) (cfg : ChannelClusterConfig) (st : Storage)
  : option error * Storage :=
  match saveErr st with
  | Some e => (Some e, st)
  | None => (None, mkStorage (<[(id, ty) := cfg]> (configs st)) (saveErr st) (deleteErr st))
  end.


(** The cluster-side channel object: the placement it holds (by pointer) and
    its leader id. [setLeaderId] and [updateClusterConfig] are field writes. *)
Record channel := mkChannel {
  clusterConfig : option ChannelClusterConfig;
  leaderId : N
}.

Definition setLeaderId (l : N) (ch : channel) : channel :=
  mkChannel (clusterConfig ch) l.

Definition updateClusterConfig (cfg : ChannelClusterConfig) (ch : channel) : channel :=
  mkChannel (Some cfg) (leaderId ch).

Definition quorum (s : Server) : Z :=
  if IsSingleNode (opts s) then 1
  else Z.of_N (ChannelMaxReplicaCount (opts s) / 2) + 1.

Definition needElection (s : Server) (cfg : ChannelClusterConfig) : bool * option error :=
  match slot s (getChannelSlotId s (ChannelID cfg)) with
  | None => (false, Some ErrSlotNotExist)
  | Some sl =>
      if negb (slot_Leader sl =? NodeID (opts s))%N then (false, None)
      else if negb (LeaderId cfg =? 0)%N then
        match node s (LeaderId cfg) with
        | None => (false, Some (ErrNew "leader node is not found"))
        | Some n => if node_Online n then (false, None) else (true, None)
        end
      else (true, None)
  end.

Definition checkOnlineReplicaCount (s : Server) (cfg : ChannelClusterConfig) : bool :=
  let onlineReplicaCount :=
    fold_left
      (fun count replicaID =>
         if (replicaID =? NodeID (opts s))%N then count + 1
         else match node s replicaID with
              | Some n => if node_Online n then count + 1 else count
              | None => count
              end)
      (Replicas cfg) 0 in
  onlineReplicaCount >=? quorum s.

(** The loop of [channelLeaderIDByLogInfo] over the map, in the order [iter]
    in which the runtime yields the entries: the pair
    [(leaderID, leaderLogIndex)] after the loop. *)
Definition pickHighest (iter : list (N * ChannelLastLogInfoResponse)) : N * N :=
  fold_left
    (fun '(leaderID, leaderLogIndex) '(nodeID, resp) =>
       if (leaderLogIndex <? LogIndex resp)%N then (nodeID, LogIndex resp)
       else (leaderID, leaderLogIndex))
    iter (0%N, 0%N).

(** [channelLogInfoMap[c.s.opts.NodeID]] is nil when the key is absent, and
    [resp.LogIndex] on nil stops with a nil-pointer dereference. *)
Definition channelLeaderIDByLogInfo (s : Server)
    (channelLogInfoMap : gmap N ChannelLastLogInfoResponse) : outcome N :=
  let '(leaderID, leaderLogIndex) := pickHighest (mapRange s channelLogInfoMap) in
  if negb (leaderID =? NodeID (opts s))%N then
    match channelLogInfoMap !! NodeID (opts s) with
    | None => Panic
    | Some resp =>
        if (leaderLogIndex <=? LogIndex resp)%N then Ret (NodeID (opts s))
        else Ret leaderID
    end
  else Ret leaderID.

(** [requestChannelLastLogInfos]: the remote requests run in goroutines that
    write disjoint keys under a lock and are all joined before the map is
    returned, so the map does not depend on their interleaving; a failed
    local [LastIndex] returns at once. *)
Fixpoint lastLogInfos_loop (s : Server) (shardNo : string) (replicas : list N)
    (m : gmap N ChannelLastLogInfoResponse)
  : result (gmap N ChannelLastLogInfoResponse) :=
  match replicas with
  | [] => Ok m
  | replicaID :: rest =>
      if negb (nodeIsOnline s replicaID) then lastLogInfos_loop s shardNo rest m
      else if (replicaID =? NodeID (opts s))%N then
        match LastIndex s shardNo with
        | Err e => Err e
        | Ok lastLogIndex =>
            lastLogInfos_loop s shardNo rest (<[replicaID := mkLogInfo lastLogIndex]> m)
        end
      else if negb (nodeClient s replicaID) then lastLogInfos_loop s shardNo rest m
      else
        match requestChannelLastLogInfo s replicaID with
        | Err _ => lastLogInfos_loop s shardNo rest m
        | Ok resp => lastLogInfos_loop s shardNo rest (<[replicaID := resp]> m)
        end
  end.

Definition requestChannelLastLogInfos (s : Server) (clusterInfo : ChannelClusterConfig)
  : result (gmap N ChannelLastLogInfoResponse) :=
  lastLogInfos_loop s (ChannelKey s (ChannelID clusterInfo) (ChannelType clusterInfo))
    (Replicas clusterInfo) ∅.

Definition elected (newLeaderID : N) (cfg : ChannelClusterConfig) : ChannelClusterConfig :=
  mkConfig (ChannelID cfg) (ChannelType cfg) (ReplicaCount cfg) (Replicas cfg)
    newLeaderID (u32_incr (Term cfg)).

(** [electionIfNeed]: the returned error (nil is [None]), the channel and the
    placement store it leaves behind. [clusterConfig] is the very object the
    channel holds, so the new leader and term show in the channel before the
    save. *)
Definition electionIfNeed (s : Server) (st : Storage) (ch : channel)
  : outcome (option error * channel * Storage) :=
  match clusterConfig ch with
  | None => Ret (Some (ErrNew "channel clusterConfig is not found"), ch, st)
  | Some cfg =>
      match needElection s cfg with
      | (_, Some e) => Ret (Some e, ch, st)
      | (false, None) => Ret (None, ch, st)
      | (true, None) =>
          if negb (checkOnlineReplicaCount s cfg) then
            Ret (Some (ErrNew "1online replica count is not enough, checkOnlineReplicaCount failed"), ch, st)
          else
            match requestChannelLastLogInfos s cfg with
            | Err e => Ret (Some e, ch, st)
            | Ok channelLogInfoMap =>
                if Z.of_nat (size channelLogInfoMap) <? quorum s then
                  Ret (Some (ErrNew "online replica count is not enough"), ch, st)
                else
                  match channelLeaderIDByLogInfo s channelLogInfoMap with
                  | Panic => Panic
                  | Ret newLeaderID =>
                      if (newLeaderID =? 0)%N then
                        Ret (Some (ErrNew "new leader is not found"), ch, st)
                      else
                        let cfg' := elected newLeaderID cfg in
                        let ch := setLeaderId newLeaderID (mkChannel (Some cfg') (leaderId ch)) in
                        match Save (ChannelID cfg) (ChannelType cfg) cfg' st with
                        | (Some e, st) => Ret (Some e, ch, st)
                        | (None, st) => Ret (None, updateClusterConfig cfg' ch, st)
                        end
                  end
            end
      end
  end.

(** *** Proposing through the channel leader *)









(** *** Concrete inputs *)

(** A three-node cluster seen from node 1, the leader of every slot. Node 2
    holds the longest log. *)
Definition logOf (nodeID : N) : result ChannelLastLogInfoResponse :=
  if (nodeID =? 2)%N then Ok (mkLogInfo 9)
  else if (nodeID =? 3)%N then Ok (mkLogInfo 4)
  else Err (ErrExternal "unreachable").

Definition server1 (selfOnline : bool) : Server :=
  mkServer (mkOptions 1 3 false)
    (fun _ => 0%N) (fun id _ => id)
    (fun _ => Some (mkSlot 1))
    (fun _ => Some (mkNode true))
    (fun n => if (n =? 1)%N then selfOnline else true)
    (fun _ => Ok 7%N)
    (fun _ => true)
    logOf
    map_to_list.

Definition freshConfig : ChannelClusterConfig :=
  mkConfig "t" 2 3 [1; 2; 3]%N 0 5.

Definition emptyStore : Storage := mkStorage ∅ None None.

Definition responses3 : gmap N ChannelLastLogInfoResponse :=
  <[3%N := mkLogInfo 4]> (<[2%N := mkLogInfo 9]> (<[1%N := mkLogInfo 7]> ∅)).




(** *** Proposing one message *)


(** *** Loading and creating channels *)

(** The channels a [channelGroup] holds, by channel id and type. *)
Definition Group := gmap (string * Z) channel.

(** What a fetch hands back: a channel of this node, or a proxy for a
    channel this node holds no replica of. *)
Inductive ichan :=
| IChannel (ch : channel)
| IProxy (nodeId : N) (cfg : ChannelClusterConfig).

(** Further collaborators that are not among the sources: the local
    storage, the constructor of the cluster channel (nil is [None]), the
    ids of the nodes allowed to vote, the permutation [rand.Shuffle] makes,
    a failure of [ChannelClusterStorage.Get], and the slot leader's answer
    to a request for a placement (which may be nil). *)
Record GroupEnv := mkGroupEnv {
  getAppliedIndex : string -> result N;
  newChannel : ChannelClusterConfig -> N -> option channel;
  allowVoteNodes : list N;
  shuffle : list N -> list N;
  leaderLastTerm : string -> result Z;
  getErr : option error;
  requestChannelClusterConfig : N -> string -> Z -> result (option ChannelClusterConfig)
}.

Definition Get (env : GroupEnv) (st : Storage) (id : string) (ty : Z)
  : result (option ChannelClusterConfig) :=
  match getErr env with
  | Some e => Err e
  | None => Ok (configs st !! (id, ty))
  end.

(** The loop of [createChannelClusterInfo] over the shuffled vote nodes:
    the length is looked at only after an append. *)
Fixpoint pickReplicas (self : N) (maxCount : N) (nodes : list N) (replicaIDs : list N)
  : list N :=
  match nodes with
  | [] => replicaIDs
  | id :: rest =>
      if (id =? self)%N then pickReplicas self maxCount rest replicaIDs
      else
        let replicaIDs := replicaIDs ++ [id] in
        if Z.of_nat (length replicaIDs) >=? Z.of_N maxCount then replicaIDs
        else pickReplicas self maxCount rest replicaIDs
  end.

Definition createChannelClusterInfo (s : Server) (env : GroupEnv)
    (channelID : string) (channelType : Z) : result ChannelClusterConfig :=
  match leaderLastTerm env (ChannelKey s channelID channelType) with
  | Err e => Err e
  | Ok lastTerm =>
      let replicaIDs :=
        pickReplicas (NodeID (opts s)) (ChannelMaxReplicaCount (opts s))
          (shuffle env (allowVoteNodes env)) [NodeID (opts s)] in
      Ok (mkConfig channelID channelType (ChannelMaxReplicaCount (opts s))
            replicaIDs 0 lastTerm)
  end.

Definition newChannelByClusterInfo (s : Server) (env : GroupEnv)
    (channelClusterInfo : ChannelClusterConfig) : result (option channel) :=
  match getAppliedIndex env
          (ChannelKey s (ChannelID channelClusterInfo) (ChannelType channelClusterInfo)) with
  | Err e => Err e
  | Ok appliedIndex => Ok (newChannel env channelClusterInfo appliedIndex)
  end.

(** [getChannelForSlotLeader]: the result, the group and the placement
    store it leaves behind. *)
Definition getChannelForSlotLeader (s : Server) (env : GroupEnv)
    (channelID : string) (channelType : Z) (g : Group) (st : Storage)
  : outcome (result channel * Group * Storage) :=
  match g !! (channelID, channelType) with
  | Some ch => Ret (Ok ch, g, st)
  | None =>
      match Get env st channelID channelType with
      | Err e => Ret (Err e, g, st)
      | Ok stored =>
          match (match stored with
                 | None => createChannelClusterInfo s env channelID channelType
                 | Some cfg => Ok cfg
                 end) with
          | Err e => Ret (Err e, g, st)
          | Ok clusterconfig =>
              match newChannelByClusterInfo s env clusterconfig with
              | Err e => Ret (Err e, g, st)
              | Ok None => Ret (Err (ErrNew "new channel failed"), g, st)
              | Ok (Some ch) =>
                  match Save (ChannelID clusterconfig) (ChannelType clusterconfig)
                          clusterconfig st with
                  | (Some e, st) => Ret (Err e, g, st)
                  | (None, st) =>
                      let ch := updateClusterConfig clusterconfig ch in
                      match electionIfNeed s st ch with
                      | Panic => Panic
                      | Ret (Some e, _, st) => Ret (Err e, g, st)
                      | Ret (None, ch, st) =>
                          Ret (Ok ch, <[(channelID, channelType) := ch]> g, st)
                      end
                  end
              end
          end
      end
  end.

Definition requestChannelClusterConfigFromSlotLeader (s : Server) (env : GroupEnv)
    (channelId : string) (channelType : Z) : result (option ChannelClusterConfig) :=
  match slot s (getChannelSlotId s channelId) with
  | None => Err ErrSlotNotExist
  | Some sl =>
      if negb (nodeClient s (slot_Leader sl))
      then Err (ErrNew "not found slot leader node")
      else requestChannelClusterConfig env (slot_Leader sl) channelId channelType
  end.

(** [wkutil.ArrayContainsUint64] *)
Definition ArrayContainsUint64 (items : list N) (target : N) : bool :=
  existsb (fun element => (element =? target)%N) items.

(** [getChannelForOthers]. [clusterConfig.Replicas] on a nil placement, and
    [updateClusterConfig] on a nil channel, stop with a nil-pointer
    dereference. *)
Definition getChannelForOthers (s : Server) (env : GroupEnv)
    (channelID : string) (channelType : Z) (g : Group) (st : Storage)
  : outcome (result ichan * Group * Storage) :=
  match g !! (channelID, channelType) with
  | Some cacheChannel => Ret (Ok (IChannel cacheChannel), g, st)
  | None =>
      match Get env st channelID channelType with
      | Err e => Ret (Err e, g, st)
      | Ok stored =>
          let fetched : result (option ChannelClusterConfig) * Storage :=
            if match stored with
               | None => true
               | Some cfg => (LeaderId cfg =? 0)%N
               end
            then
              match requestChannelClusterConfigFromSlotLeader s env channelID channelType with
              | Err e => (Err e, st)
              | Ok None => (Ok None, st)
              | Ok (Some cfg) =>
                  match Save channelID channelType cfg st with
                  | (Some e, st) => (Err e, st)
                  | (None, st) => (Ok (Some cfg), st)
                  end
              end
            else (Ok stored, st) in
          match fetched with
          | (Err e, st) => Ret (Err e, g, st)
          | (Ok None, _) => Panic
          | (Ok (Some clusterConfig), st) =>
              if ArrayContainsUint64 (Replicas clusterConfig) (NodeID (opts s)) then
                match newChannelByClusterInfo s env clusterConfig with
                | Err e => Ret (Err e, g, st)
                | Ok None => Panic
                | Ok (Some ch) =>
                    let ch := updateClusterConfig clusterConfig ch in
                    Ret (Ok (IChannel ch), <[(channelID, channelType) := ch]> g, st)
                end
              else Ret (Ok (IProxy (NodeID (opts s)) clusterConfig), g, st)
          end
      end
  end.

(** [loadOrCreateChannel], which is all [fetchChannel] does. Both branches
    hand back a channel that is not nil when they hand back no error. *)
Definition loadOrCreateChannel (s : Server) (env : GroupEnv)
    (channelID : string) (channelType : Z) (g : Group) (st : Storage)
  : outcome (result ichan * Group * Storage) :=
  match slot s (getChannelSlotId s channelID) with
  | None => Ret (Err ErrSlotNotExist, g, st)
  | Some sl =>
      if (slot_Leader sl =? NodeID (opts s))%N then
        match getChannelForSlotLeader s env channelID channelType g st with
        | Panic => Panic
        | Ret (Err e, g, st) => Ret (Err e, g, st)
        | Ret (Ok ch, g, st) => Ret (Ok (IChannel ch), g, st)
        end
      else getChannelForOthers s env channelID channelType g st
  end.

(** [loadOnlyReadChannel], which is all [fetchChannelForRead] does: it
    never adds to the group. *)
Definition loadOnlyReadChannel (s : Server) (env : GroupEnv)
    (channelId : string) (channelType : Z) (g : Group) (st : Storage)
  : result ichan * Storage :=
  match g !! (channelId, channelType) with
  | Some cacheChannel => (Ok (IChannel cacheChannel), st)
  | None =>
      match slot s (getChannelSlotId s channelId) with
      | None => (Err ErrSlotNotExist, st)
      | Some sl =>
          match Get env st channelId channelType with
          | Err e => (Err e, st)
          | Ok stored =>
              let notFound := Err (ErrNew "channel cluster config is not found") in
              if (slot_Leader sl =? NodeID (opts s))%N then
                match stored with
                | None => (notFound, st)
                | Some clusterConfig => (Ok (IProxy (NodeID (opts s)) clusterConfig), st)
                end
              else
                match stored with
                | Some clusterConfig => (Ok (IProxy (NodeID (opts s)) clusterConfig), st)
                | None =>
                    match requestChannelClusterConfigFromSlotLeader s env
                            channelId channelType with
                    | Err e => (Err e, st)
                    | Ok None => (notFound, st)
                    | Ok (Some clusterConfig) =>
                        match Save channelId channelType clusterConfig st with
                        | (Some e, st) => (Err e, st)
                        | (None, st) => (Ok (IProxy (NodeID (opts s)) clusterConfig), st)
                        end
                    end
                end
          end
      end
  end.

(** The placement a fetched channel carries. *)
Definition placementOf (ch : ichan) : option ChannelClusterConfig :=
  match ch with
  | IChannel ch => clusterConfig ch
  | IProxy _ cfg => Some cfg
  end.

(** *** Further concrete inputs *)

(** Node 1 of three vote nodes; the shuffle turns the list round; the slot
    leader has no placement to hand out. *)
Definition groupEnv1 : GroupEnv :=
  mkGroupEnv (fun _ => Ok 0%N)
    (fun cfg _ => Some (mkChannel (Some cfg) (LeaderId cfg)))
    [1; 2; 3]%N (@rev N) (fun _ => Ok 5) None
    (fun _ _ _ => Ok None).

(** The same cluster seen from node 2, which leads no slot. *)
Definition server2 : Server :=
  mkServer (mkOptions 2 3 false)
    (fun _ => 0%N) (fun id _ => id)
    (fun _ => Some (mkSlot 1))
    (fun _ => Some (mkNode true))
    (fun _ => true)
    (fun _ => Ok 9%N)
    (fun _ => true)
    logOf
    map_to_list.

(** The slot leader hands out a placement led by node 1. *)
Definition ledConfig : ChannelClusterConfig :=
  mkConfig "t" 2 3 [1; 2; 3]%N 1 6.

Definition groupEnv2 : GroupEnv :=
  mkGroupEnv (fun _ => Ok 0%N)
    (fun cfg _ => Some (mkChannel (Some cfg) (LeaderId cfg)))
    [1; 2; 3]%N (@rev N) (fun _ => Ok 5) None
    (fun _ _ _ => Ok (Some ledConfig)).

(** What node 1 creates, and what the election makes of it. *)
Definition createdConfig : ChannelClusterConfig :=
  mkConfig "t" 2 3 [1; 3; 2]%N 0 5.

Definition electedConfig : ChannelClusterConfig :=
  mkConfig "t" 2 3 [1; 3; 2]%N 2 6.

Definition storeOf (cfg : ChannelClusterConfig) : Storage :=
  mkStorage (<[("t", 2) := cfg]> ∅) None None.


End Placement.

(** ** package clusterevent: the cluster configuration and its file *)

Module ClusterEvent.
Import GoInt.

Record Node := mkNode {
  Id : N;
  ClusterAddr : string;
  ApiAddr : string;
  Online : bool;
  AllowVote : bool;
  DataTerm : Z;
  OfflineCount : Z
}.

Record Slot := mkSlot {
  slot_Id : N;
  slot_Leader : N;
  slot_Replicas : list N;
  slot_Term : Z
}.

Record Cluster := mkCluster {
  Version : Z;
  Term : Z;
  SlotCount : Z;
  Nodes : list Node;
  Slots : list Slot
}.

(** The manager: the configuration in memory, the content of the
    configuration file, and the writes that reached the file, oldest first. *)
Record ClusterEventManager := mkManager {
  clusterconfig : Cluster;
  file : option Cluster;
  writes : list Cluster
}.

Definition set_clusterconfig (cfg : Cluster) (c : ClusterEventManager)
  : ClusterEventManager :=
  mkManager cfg (file c) (writes c).

(** [createAndInitClusterConfig]: version 0, the seed nodes online and
    voting, written to a fresh file. *)
Definition seedNode (idAddr : N * string) : Node :=
  mkNode (fst idAddr) (snd idAddr) EmptyString true true 1 0.

Definition createAndInitClusterConfig (slotCount : Z) (initNodes : list (N * string))
  : ClusterEventManager :=
  let cfg := mkCluster 0 0 slotCount (seedNode <$> initNodes) [] in
  mkManager cfg (Some cfg) [cfg].


(** [save()]: temp file, then rename. [fsOk] says whether the file system
    lets both succeed; otherwise the file keeps its content and the caller
    only logs a warning. *)
Definition save (fsOk : bool) (c : ClusterEventManager) : ClusterEventManager :=
  if fsOk
  then mkManager (clusterconfig c) (Some (clusterconfig c)) (writes c ++ [clusterconfig c])
  else c.

Definition saveAndVersionInc (fsOk : bool) (c : ClusterEventManager)
  : ClusterEventManager :=
  let cfg := clusterconfig c in
  let c := set_clusterconfig
             (mkCluster (u32_incr (Version cfg)) (Term cfg) (SlotCount cfg) (Nodes cfg) (Slots cfg)) c in
  save fsOk c.

Definition SaveAndVersionInc (fsOk : bool) (c : ClusterEventManager)
  : ClusterEventManager :=
  saveAndVersionInc fsOk c.

Definition SetTerm (term : Z) (fsOk : bool) (c : ClusterEventManager)
  : ClusterEventManager :=
  let cfg := clusterconfig c in
  let c := set_clusterconfig
             (mkCluster (Version cfg) term (SlotCount cfg) (Nodes cfg) (Slots cfg)) c in
  saveAndVersionInc fsOk c.

Definition UpdateClusterConfig (cfg : Cluster) (fsOk : bool) (c : ClusterEventManager)
  : ClusterEventManager :=
  save fsOk (set_clusterconfig cfg c).

(** The loops that change the first node with a given id. *)
Fixpoint updateFirst (id : N) (f : Node -> Node) (nodes : list Node) : list Node :=
  match nodes with
  | [] => []
  | n :: rest => if (Id n =? id)%N then f n :: rest else n :: updateFirst id f rest
  end.

Definition set_nodes (nodes : list Node) (c : ClusterEventManager) : ClusterEventManager :=
  let cfg := clusterconfig c in
  set_clusterconfig (mkCluster (Version cfg) (Term cfg) (SlotCount cfg) nodes (Slots cfg)) c.

(** [OfflineCount] is counted like [DataTerm], as a [uint32]. *)
Definition SetNodeOnlineNoSave (nodeID : N) (online : bool) (c : ClusterEventManager)
  : ClusterEventManager :=
  set_nodes
    (updateFirst nodeID
       (fun n =>
          if online
          then mkNode (Id n) (ClusterAddr n) (ApiAddr n) online (AllowVote n)
                 (DataTerm n) (OfflineCount n)
          else mkNode (Id n) (ClusterAddr n) (ApiAddr n) online (AllowVote n)
                 (u32_incr (DataTerm n)) (u32_incr (OfflineCount n)))
       (Nodes (clusterconfig c))) c.

Definition SetNodeOnline (nodeID : N) (online : bool) (fsOk : bool)
    (c : ClusterEventManager) : ClusterEventManager :=
  SaveAndVersionInc fsOk (SetNodeOnlineNoSave nodeID online c).

Definition UpdateNode (n : Node) (fsOk : bool) (c : ClusterEventManager)
  : ClusterEventManager :=
  let c :=
    set_nodes
      (updateFirst (Id n)
         (fun node => mkNode (Id node) (ClusterAddr node) (ApiAddr n) (Online node)
                        (AllowVote node) (DataTerm node) (OfflineCount node))
         (Nodes (clusterconfig c))) c in
  saveAndVersionInc fsOk c.

(** The writing operations of the manager. *)
Inductive op :=
| OpSetTerm (term : Z)
| OpSaveAndVersionInc
| OpUpdateClusterConfig (cfg : Cluster)
| OpUpdateNode (n : Node)
| OpSetNodeOnline (nodeID : N) (online : bool).

Definition apply_op (o : op) (fsOk : bool) (c : ClusterEventManager)
  : ClusterEventManager :=
  match o with
  | OpSetTerm term => SetTerm term fsOk c
  | OpSaveAndVersionInc => SaveAndVersionInc fsOk c
  | OpUpdateClusterConfig cfg => UpdateClusterConfig cfg fsOk c
  | OpUpdateNode n => UpdateNode n fsOk c
  | OpSetNodeOnline nodeID online => SetNodeOnline nodeID online fsOk c
  end.

(** A history: each call with the file system's verdict on its save. *)
Definition run (ops : list (op * bool)) (c : ClusterEventManager) : ClusterEventManager :=
  fold_left (fun c '(o, fsOk) => apply_op o fsOk c) ops c.

(** The versions of the writes that reached the file, oldest first. *)
Definition persistedVersions (c : ClusterEventManager) : list Z :=
  Version <$> writes c.

(** Each version is strictly greater than the one written before it. *)
Fixpoint strictlyIncreasing (l : list Z) : bool :=
  match l with
  | [] => true
  | x :: rest =>
      match rest with
      | [] => true
      | y :: _ => (x <? y) && strictlyIncreasing rest
      end
  end.

(** The operations that bump the version before they save. *)
Definition bumps (o : op) : bool :=
  match o with
  | OpUpdateClusterConfig _ => false
  | _ => true
  end.

(** What is on file is never ahead of the version in memory. *)
Definition persisted_behind (c : ClusterEventManager) : Prop :=
  Forall (fun v => v <= Version (clusterconfig c)) (persistedVersions c).

(** *** Concrete inputs *)

Definition seedManager : ClusterEventManager :=
  createAndInitClusterConfig 10 [(1%N, "10.0.0.1:11110"); (2%N, "10.0.0.2:11110")].

Definition someHistory : list (op * bool) :=
  [(OpSaveAndVersionInc, true); (OpSetTerm 3, false); (OpSetNodeOnline 2 false, true)].

(** *** Reading the configuration *)

Definition GetNode (nodeID : N) (c : ClusterEventManager) : option Node :=
  List.find (fun node => (Id node =? nodeID)%N) (Nodes (clusterconfig c)).

Definition NodeIsOnline (nodeID : N) (c : ClusterEventManager) : bool :=
  let nodes := Nodes (clusterconfig c) in
  if (length nodes =? 0)%nat then false
  else
    match List.find (fun node => (Id node =? nodeID)%N) nodes with
    | Some node => Online node
    | None => false
    end.

Definition GetDataTerm (nodeID : N) (c : ClusterEventManager) : Z :=
  match List.find (fun node => (Id node =? nodeID)%N) (Nodes (clusterconfig c)) with
  | Some node => DataTerm node
  | None => 0
  end.

Definition GetAllOnlineNode (c : ClusterEventManager) : list Node :=
  let nodes := Nodes (clusterconfig c) in
  if (length nodes =? 0)%nat then []
  else List.filter Online nodes.

Definition GetAllowVoteNodes (c : ClusterEventManager) : list Node :=
  let nodes := Nodes (clusterconfig c) in
  if (length nodes =? 0)%nat then []
  else List.filter AllowVote nodes.

Definition GetSlots (c : ClusterEventManager) : list Slot :=
  Slots (clusterconfig c).

Definition GetSlot (slotID : N) (c : ClusterEventManager) : option Slot :=
  List.find (fun slot => (slot_Id slot =? slotID)%N) (Slots (clusterconfig c)).

Definition getSlotReplicas (slotID : N) (c : ClusterEventManager) : list N :=
  match List.find (fun slot => (slot_Id slot =? slotID)%N) (Slots (clusterconfig c)) with
  | Some slot => slot_Replicas slot
  | None => []
  end.

Definition getSlotLeaderID (slotID : N) (c : ClusterEventManager) : N :=
  match List.find (fun slot => (slot_Id slot =? slotID)%N) (Slots (clusterconfig c)) with
  | Some slot => slot_Leader slot
  | None => 0%N
  end.

(** *** Writing the slots, without a save *)

Definition set_slots (slots : list Slot) (c : ClusterEventManager) : ClusterEventManager :=
  let cfg := clusterconfig c in
  set_clusterconfig (mkCluster (Version cfg) (Term cfg) (SlotCount cfg) (Nodes cfg) slots) c.

(** The loop that changes the first slot with a given id and breaks. *)
Fixpoint updateFirstSlot (id : N) (f : Slot -> Slot) (slots : list Slot) : list Slot :=
  match slots with
  | [] => []
  | sl :: rest =>
      if (slot_Id sl =? id)%N then f sl :: rest else sl :: updateFirstSlot id f rest
  end.

Definition UpdateSlotLeaderNoSave (slotID leaderID : N) (c : ClusterEventManager)
  : ClusterEventManager :=
  set_slots
    (updateFirstSlot slotID
       (fun slot => mkSlot (slot_Id slot) leaderID (slot_Replicas slot) (slot_Term slot))
       (Slots (clusterconfig c))) c.

(** The loop of [AddOrUpdateSlotNoSave] has no break: every slot with the
    id is replaced; [exist] is set when there was one. *)
Definition AddOrUpdateSlotNoSave (slot : Slot) (c : ClusterEventManager)
  : ClusterEventManager :=
  let slots := Slots (clusterconfig c) in
  let exist := existsb (fun st => (slot_Id st =? slot_Id slot)%N) slots in
  let slots := (fun st => if (slot_Id st =? slot_Id slot)%N then slot else st) <$> slots in
  if negb exist then set_slots (slots ++ [slot]) c
  else set_slots slots c.

(** The change [SetNodeOnlineNoSave] makes to the node it finds. *)
Definition setOnline (online : bool) (n : Node) : Node :=
  if online
  then mkNode (Id n) (ClusterAddr n) (ApiAddr n) online (AllowVote n)
         (DataTerm n) (OfflineCount n)
  else mkNode (Id n) (ClusterAddr n) (ApiAddr n) online (AllowVote n)
         (u32_incr (DataTerm n)) (u32_incr (OfflineCount n)).

(** *** Start-up *)






End ClusterEvent.

(** * Properties *)

(** ** The channel state machine *)

Section ChannelProps.
Import GoInt Channel.
Context {S : Type} `{StreamList S}.
Implicit Types (c : channel S) (X : stage) (q : channelMsgQueue).

Lemma incr_no_wrap z : int_min <= z < int_max -> incr z = z + 1.
Proof.
  unfold incr, wrap_int, int_min, int_max. intros Hz.
  rewrite Z.mod_small; lia.
Qed.

(** The gate of a stage, uniformly: closed while processing, else open
    exactly when the stage's cursor lags its upstream cursor. *)
Lemma hasUn_spec X c :
  hasUn X c = true <->
  processing (stateOf X c) = false /\
  (cursorOf X (msgQueue c) < upstreamOf X (msgQueue c))%N.
Proof.
  destruct X; simpl;
    unfold hasPayloadUnDecrypt, hasPermissionUnCheck, hasUnstorage, hasSendack,
      hasUnDeliver, hasUnforward;
    (destruct (processing _); [split; [discriminate | intros [? _]; discriminate] |]);
    rewrite N.ltb_lt; tauto.
Qed.

(** The gates read the flag [processing] and the queue, nothing else. *)
Lemma hasUn_ext X c c' :
  processing (stateOf X c') = processing (stateOf X c) ->
  msgQueue c' = msgQueue c ->
  hasUn X c' = hasUn X c.
Proof.
  intros Hp Hq. destruct X; simpl in *;
    unfold hasPayloadUnDecrypt, hasPermissionUnCheck, hasUnstorage, hasSendack,
      hasUnDeliver, hasUnforward; rewrite Hp, Hq; reflexivity.
Qed.

(** *** What the blocks of [tick] change *)

Ltac block := cbv zeta; repeat case_match; try reflexivity.








Lemma idleTick_set_streams v c : idleTick (set_streams v c) = idleTick c.
Proof. reflexivity. Qed.

Lemma actions_set_streams v c : actions (set_streams v c) = actions c.
Proof. reflexivity. Qed.

Lemma stateOf_set_streams X v c : stateOf X (set_streams v c) = stateOf X c.
Proof. destruct X; reflexivity. Qed.

Lemma retryTickCount_set_streams v c :
  retryTickCount (set_streams v c) = retryTickCount c.
Proof. reflexivity. Qed.

Lemma tickLeader_idleTick c : idleTick (tickLeader c) = idleTick c.
Proof. unfold tickLeader. block. Qed.

Lemma tickRole_idleTick c : idleTick (tickRole c) = idleTick c.
Proof.
  unfold tickRole, tickProxy. destruct (tickFnc c); try reflexivity.
  apply tickLeader_idleTick.
Qed.

Lemma tickRetries_idleTick c : idleTick (tickRetries c) = idleTick c.
Proof. reflexivity. Qed.

Lemma tickIdle_idleTick c :
  idleTick (tickIdle c) =
  if incr (idleTick c) >=? DeadlineTick (opts c) then 0 else incr (idleTick c).
Proof.
  destruct c. unfold tickIdle. cbn.
  destruct (incr _ >=? _); reflexivity.
Qed.

Lemma tick_idleTick c :
  idleTick (tick c) =
  if incr (idleTick c) >=? DeadlineTick (opts c) then 0 else incr (idleTick c).
Proof.
  unfold tick. cbv zeta.
  rewrite idleTick_set_streams, tickRole_idleTick, tickRetries_idleTick.
  apply tickIdle_idleTick.
Qed.

Lemma tickIdle_actions c :
  actions (tickIdle c) =
  actions c ++
    (if incr (idleTick c) >=? DeadlineTick (opts c)
     then [mkAction ChannelActionClose 0 []] else []).
Proof.
  destruct c. unfold tickIdle. cbn.
  destruct (incr _ >=? _); cbn; [reflexivity | symmetry; apply app_nil_r].
Qed.

Lemma tickRetries_actions c : actions (tickRetries c) = actions c.
Proof. reflexivity. Qed.

Lemma closes_app (l l' : list ChannelAction) : closes (l ++ l') = closes l ++ closes l'.
Proof. unfold closes. apply List.filter_app. Qed.

Lemma tickLeader_closes c : closes (actions (tickLeader c)) = closes (actions c).
Proof.
  destruct c. unfold tickLeader. cbn.
  repeat case_match; try reflexivity.
  cbn. rewrite closes_app. cbn. apply app_nil_r.
Qed.

Lemma tickRole_closes c : closes (actions (tickRole c)) = closes (actions c).
Proof.
  unfold tickRole, tickProxy. destruct (tickFnc c); try reflexivity.
  apply tickLeader_closes.
Qed.

Lemma tick_closes c :
  closes (actions (tick c)) =
  closes (actions c) ++
    (if incr (idleTick c) >=? DeadlineTick (opts c)
     then [mkAction ChannelActionClose 0 []] else []).
Proof.
  unfold tick. cbv zeta.
  rewrite actions_set_streams, tickRole_closes, tickRetries_actions, tickIdle_actions.
  rewrite closes_app. f_equal.
  destruct (incr (idleTick c) >=? DeadlineTick (opts c)); reflexivity.
Qed.



Lemma tickIdle_stateOf X c : stateOf X (tickIdle c) = stateOf X c.
Proof. destruct c, X; unfold tickIdle; cbn; destruct (incr _ >=? _); reflexivity. Qed.

Lemma tickIdle_retryTickCount c : retryTickCount (tickIdle c) = retryTickCount c.
Proof. destruct c; unfold tickIdle; cbn; destruct (incr _ >=? _); reflexivity. Qed.

Lemma tickRetries_stateOf X c :
  stateOf X (tickRetries c) = retryStateTick (retryTickCount c) (stateOf X c).
Proof. destruct c, X; reflexivity. Qed.

Lemma tickRetries_retryTickCount c : retryTickCount (tickRetries c) = retryTickCount c.
Proof. reflexivity. Qed.

Lemma tickLeader_stateOf X c : stateOf X (tickLeader c) = stateOf X c.
Proof.
  destruct c, X; unfold tickLeader; cbn; repeat case_match; reflexivity.
Qed.

Lemma tickLeader_retryTickCount c : retryTickCount (tickLeader c) = retryTickCount c.
Proof. destruct c; unfold tickLeader; cbn; repeat case_match; reflexivity. Qed.

Lemma tickRole_stateOf X c : stateOf X (tickRole c) = stateOf X c.
Proof.
  unfold tickRole, tickProxy. destruct (tickFnc c); try reflexivity.
  apply tickLeader_stateOf.
Qed.

Lemma tickRole_retryTickCount c : retryTickCount (tickRole c) = retryTickCount c.
Proof.
  unfold tickRole, tickProxy. destruct (tickFnc c); try reflexivity.
  apply tickLeader_retryTickCount.
Qed.

Lemma tick_stateOf X c :
  stateOf X (tick c) = retryStateTick (retryTickCount c) (stateOf X c).
Proof.
  unfold tick. cbv zeta.
  rewrite stateOf_set_streams, tickRole_stateOf, tickRetries_stateOf.
  rewrite tickIdle_stateOf, tickIdle_retryTickCount. reflexivity.
Qed.

Lemma tick_retryTickCount c : retryTickCount (tick c) = retryTickCount c.
Proof.
  unfold tick. cbv zeta.
  rewrite retryTickCount_set_streams, tickRole_retryTickCount,
    tickRetries_retryTickCount.
  apply tickIdle_retryTickCount.
Qed.

Lemma retryStateTick_processing n (s : readyState) :
  processing (retryStateTick n s) = processing s.
Proof. unfold retryStateTick. repeat case_match; reflexivity. Qed.

(** *** What the blocks of [ready] change: never the queue *)

Lemma readyPayloadDecrypt_msgQueue c : msgQueue (readyPayloadDecrypt c) = msgQueue c.
Proof. destruct c; unfold readyPayloadDecrypt; cbn; repeat case_match; reflexivity. Qed.

Lemma readyStreamPayloadDecrypt_msgQueue c :
  msgQueue (readyStreamPayloadDecrypt c) = msgQueue c.
Proof. destruct c; unfold readyStreamPayloadDecrypt; cbn; repeat case_match; reflexivity. Qed.

Lemma readyPermissionCheck_msgQueue c : msgQueue (readyPermissionCheck c) = msgQueue c.
Proof. destruct c; unfold readyPermissionCheck; cbn; repeat case_match; reflexivity. Qed.

Lemma readyStorage_msgQueue c : msgQueue (readyStorage c) = msgQueue c.
Proof. destruct c; unfold readyStorage; cbn; repeat case_match; reflexivity. Qed.

Lemma readySendack_msgQueue c : msgQueue (readySendack c) = msgQueue c.
Proof. destruct c; unfold readySendack; cbn; repeat case_match; reflexivity. Qed.

Lemma readyDeliver_msgQueue c : msgQueue (readyDeliver c) = msgQueue c.
Proof. destruct c; unfold readyDeliver; cbn; repeat case_match; reflexivity. Qed.

Lemma readyStreamDeliver_msgQueue c : msgQueue (readyStreamDeliver c) = msgQueue c.
Proof. destruct c; unfold readyStreamDeliver; cbn; repeat case_match; reflexivity. Qed.

Lemma readyForward_msgQueue c : msgQueue (readyForward c) = msgQueue c.
Proof. destruct c; unfold readyForward; cbn; repeat case_match; reflexivity. Qed.

Lemma readyStreamForward_msgQueue c : msgQueue (readyStreamForward c) = msgQueue c.
Proof. destruct c; unfold readyStreamForward; cbn; repeat case_match; reflexivity. Qed.



(** *** The cursor order under the calls of the reactor lane *)
















(** *** Main results for the channel *)

(** C4. For each of the six stages, the gate [hasUnX()] answers true exactly
    when the stage's [processing] flag is false and the stage's own cursor is
    strictly behind the cursor it drains towards: payload decryption against
    [lastIndex], permission check against [payloadDecryptingIndex], storage
    against [permissionCheckingIndex], send-ack and delivery against
    [storagingIndex], forwarding against [payloadDecryptingIndex]. *)
Theorem gate_iff_idle_and_lagging c :
  (hasPayloadUnDecrypt c = true <->
     processing (payloadDecryptState c) = false /\
     (payloadDecryptingIndex (msgQueue c) < lastIndex (msgQueue c))%N) /\
  (hasPermissionUnCheck c = true <->
     processing (permissionCheckState c) = false /\
     (permissionCheckingIndex (msgQueue c) < payloadDecryptingIndex (msgQueue c))%N) /\
  (hasUnstorage c = true <->
     processing (storageState c) = false /\
     (storagingIndex (msgQueue c) < permissionCheckingIndex (msgQueue c))%N) /\
  (hasSendack c = true <->
     processing (sendackState c) = false /\
     (sendackingIndex (msgQueue c) < storagingIndex (msgQueue c))%N) /\
  (hasUnDeliver c = true <->
     processing (deliveryState c) = false /\
     (deliveringIndex (msgQueue c) < storagingIndex (msgQueue c))%N) /\
  (hasUnforward c = true <->
     processing (forwardState c) = false /\
     (forwardingIndex (msgQueue c) < payloadDecryptingIndex (msgQueue c))%N).
Proof.
  split; [exact (hasUn_spec PayloadDecrypt c) |].
  split; [exact (hasUn_spec PermissionCheck c) |].
  split; [exact (hasUn_spec Storage c) |].
  split; [exact (hasUn_spec Sendack c) |].
  split; [exact (hasUn_spec Deliver c) | exact (hasUn_spec Forward c)].
Qed.




End ChannelProps.

(** *** Closed instances on a channel without streams *)

Section ChannelExamples.
Import GoInt Channel.


(** Just before that completion, [ready] hands out a Sendack and a Deliver
    action for the same message in one call. *)
Example ready_opens_sendack_and_deliver_together :
  let history :=
    [EvReady; EvInitResp 1; EvSend (mkMsg 7 0 10);
     EvReady; EvStageResp PayloadDecrypt true 1;
     EvReady; EvStageResp PermissionCheck true 1;
     EvReady; EvStageResp Storage true 1] in
  let c : channel unit := run history (newChannel (mkOptions 1 1 100 10) "t" 2) in
  fst (ready c) =
    [mkAction ChannelActionSendack 0 [mkMsg 7 1 10];
     mkAction ChannelActionDeliver 0 [mkMsg 7 1 10]].
Proof. vm_compute. reflexivity. Qed.

(** A stage with [willRetry] set and [retryTick] far from [retryTickCount]
    is dispatched by [ready] as soon as [processing] is clear. *)
Example gate_open_during_backoff :
  let c0 : channel unit :=
    becomeLeader (set_status channelStatusInitialized
                    (newChannel (mkOptions 1 1 100 10) "t" 2)) in
  let c := set_storageState (mkReadyState false true 0)
             (set_msgQueue (mkQueue [mkMsg 7 1 10] 1 1 1 0 0 0 0) c0) in
  hasUnstorage c = true /\
  fst (ready c) = [mkAction ChannelActionStorage 0 [mkMsg 7 1 10]].
Proof. cbv zeta. split; vm_compute; reflexivity. Qed.


End ChannelExamples.

(** ** The replica's sync clock *)

Section ReplicaProps.
Import GoInt Replica.
Context `{ReplicaEnv}.
Implicit Types (r : Replica).







End ReplicaProps.

Section ReplicaExamples.
Import GoInt Replica.


End ReplicaExamples.

(** ** Channel placement: election and forwarding *)

Section PlacementProps.
Import GoInt Placement.
Implicit Types (s : Server) (m : gmap N ChannelLastLogInfoResponse)
  (iter : list (N * ChannelLastLogInfoResponse)).

(** The loop keeps the highest log index seen so far together with a node
    that reported it. *)
Lemma pickHighest_acc iter (l0 i0 : N) :
  let '(l, i) :=
    fold_left
      (fun '(leaderID, leaderLogIndex) '(nodeID, resp) =>
         if (leaderLogIndex <? LogIndex resp)%N then (nodeID, LogIndex resp)
         else (leaderID, leaderLogIndex))
      iter (l0, i0) in
  (i0 <= i)%N /\
  (forall n r, In (n, r) iter -> (LogIndex r <= i)%N) /\
  ((l, i) = (l0, i0) \/ exists r, In (l, r) iter /\ LogIndex r = i /\ (i0 < i)%N).
Proof.
  revert l0 i0. induction iter as [| [n r] iter IH]; intros l0 i0; cbn.
  - split; [lia |]. split; [intros ? ? [] | left; reflexivity].
  - destruct (i0 <? LogIndex r)%N eqn:Hlt.
    + apply N.ltb_lt in Hlt. specialize (IH n (LogIndex r)).
      destruct (fold_left _ iter (n, LogIndex r)) as [l i].
      destruct IH as (Hle & Hall & Hwho).
      split; [lia |]. split.
      * intros n' r' [Heq | Hin]; [inversion Heq; subst; exact Hle | eauto].
      * right. destruct Hwho as [Heq | (r' & Hin & Hi & Hlt')].
        -- inversion Heq; subst. exists r. repeat split; [left; reflexivity | exact Hlt].
        -- exists r'. repeat split; [right; exact Hin | exact Hi | lia].
    + apply N.ltb_ge in Hlt. specialize (IH l0 i0).
      destruct (fold_left _ iter (l0, i0)) as [l i].
      destruct IH as (Hle & Hall & Hwho).
      split; [exact Hle |]. split.
      * intros n' r' [Heq | Hin]; [inversion Heq; subst; lia | eauto].
      * destruct Hwho as [Heq | (r' & Hin & Hi & Hlt')]; [left; exact Heq |].
        right. exists r'. repeat split; [right; exact Hin | exact Hi | exact Hlt'].
Qed.

Lemma pickHighest_spec iter :
  let '(l, i) := pickHighest iter in
  (forall n r, In (n, r) iter -> (LogIndex r <= i)%N) /\
  ((l, i) = (0%N, 0%N) \/ exists r, In (l, r) iter /\ LogIndex r = i /\ (0 < i)%N).
Proof.
  unfold pickHighest. pose proof (pickHighest_acc iter 0 0) as Hacc.
  destruct (fold_left _ iter (0%N, 0%N)) as [l i].
  destruct Hacc as (_ & Hall & Hwho). split; assumption.
Qed.

(** An entry is visited by the runtime's range exactly when the map holds it. *)
Lemma in_mapRange s m n r :
  mapRange s m ≡ₚ map_to_list m ->
  In (n, r) (mapRange s m) <-> m !! n = Some r.
Proof.
  intros Hperm. rewrite <- list_elem_of_In, Hperm. apply elem_of_map_to_list.
Qed.

(** The map never holds the current node when it is reported offline or is
    not among the replicas. *)
Lemma lastLogInfos_loop_self s shardNo replicas m m' :
  lastLogInfos_loop s shardNo replicas m = Ok m' ->
  m !! NodeID (opts s) = None ->
  nodeIsOnline s (NodeID (opts s)) = false \/ ~ In (NodeID (opts s)) replicas ->
  m' !! NodeID (opts s) = None.
Proof.
  revert m. induction replicas as [| rid rest IH]; intros m Hloop Hm Hwhy; cbn in Hloop.
  - inversion Hloop; subst. exact Hm.
  - assert (Hrest : nodeIsOnline s (NodeID (opts s)) = false \/ ~ In (NodeID (opts s)) rest).
    { destruct Hwhy as [Hoff | Hnin]; [left; exact Hoff | right].
      intros Hin. apply Hnin. right. exact Hin. }
    destruct (nodeIsOnline s rid) eqn:Hon; cbn in Hloop; [| eauto].
    destruct (rid =? NodeID (opts s))%N eqn:Hself.
    + apply N.eqb_eq in Hself. subst rid. exfalso.
      destruct Hwhy as [Hoff | Hnin]; [congruence | apply Hnin; left; reflexivity].
    + apply N.eqb_neq in Hself.
      destruct (nodeClient s rid); cbn in Hloop; [| eauto].
      destruct (requestChannelLastLogInfo s rid); [| eauto].
      eapply IH; [exact Hloop | | exact Hrest].
      rewrite lookup_insert_ne by exact Hself. exact Hm.
Qed.

Lemma u32_incr_no_wrap z : 0 <= z < u32_max -> u32_incr z = z + 1.
Proof.
  unfold u32_incr, wrap_u32, u32_max. intros Hz. rewrite Z.mod_small; lia.
Qed.

(** What [channelLeaderIDByLogInfo] returns when the current node has an
    entry. *)
Lemma channelLeaderIDByLogInfo_spec s m rself :
  mapRange s m ≡ₚ map_to_list m ->
  m !! NodeID (opts s) = Some rself ->
  exists leader rl,
    channelLeaderIDByLogInfo s m = Ret leader /\
    m !! leader = Some rl /\
    (forall n r, m !! n = Some r -> (LogIndex r <= LogIndex rl)%N) /\
    ((LogIndex rl <= LogIndex rself)%N -> leader = NodeID (opts s)).
Proof.
  intros Hperm Hself. unfold channelLeaderIDByLogInfo.
  pose proof (pickHighest_spec (mapRange s m)) as Hpick.
  destruct (pickHighest (mapRange s m)) as [l i].
  destruct Hpick as (Hall & Hwho).
  assert (Hall' : forall n r, m !! n = Some r -> (LogIndex r <= i)%N).
  { intros n r Hnr. apply (Hall n r). apply in_mapRange; assumption. }
  destruct (l =? NodeID (opts s))%N eqn:Hl; cbn.
  - apply N.eqb_eq in Hl. subst l. exists (NodeID (opts s)), rself.
    split; [reflexivity |]. split; [exact Hself |]. split; [| reflexivity].
    intros n r Hnr. specialize (Hall' n r Hnr).
    destruct Hwho as [Heq | (r' & Hin & Hi & _)].
    + inversion Heq; subst. lia.
    + apply in_mapRange in Hin; [| exact Hperm].
      rewrite Hself in Hin. inversion Hin; subst. exact Hall'.
  - rewrite Hself. destruct (i <=? LogIndex rself)%N eqn:Hle.
    + apply N.leb_le in Hle. exists (NodeID (opts s)), rself.
      split; [reflexivity |]. split; [exact Hself |]. split; [| reflexivity].
      intros n r Hnr. specialize (Hall' n r Hnr). lia.
    + apply N.leb_gt in Hle.
      destruct Hwho as [Heq | (r' & Hin & Hi & _)]; [inversion Heq; subst; lia |].
      apply in_mapRange in Hin; [| exact Hperm].
      exists l, r'. split; [reflexivity |]. split; [exact Hin |]. split.
      * intros n r Hnr. specialize (Hall' n r Hnr). lia.
      * intros Hcontra. lia.
Qed.

(** C2. When the slot leader runs an election (it is needed, and enough
    replicas are online): the quorum is 1 on a single node and
    [ChannelMaxReplicaCount / 2 + 1] otherwise; with fewer last-log-index
    responses than the quorum the election fails and changes nothing; with a
    quorum, and the current node among the responses, the elected node is
    one of the responders with the highest [LogIndex], it is the current
    node whenever the current node's [LogIndex] is at least that high, and
    the placement that is saved (and that the channel holds even if the save
    fails) carries the new leader and the old term plus one in [uint32]
    arithmetic. *)
Theorem election_by_highest_log_index s st ch cfg m :
  mapRange s m ≡ₚ map_to_list m ->
  clusterConfig ch = Some cfg ->
  needElection s cfg = (true, None) ->
  checkOnlineReplicaCount s cfg = true ->
  requestChannelLastLogInfos s cfg = Ok m ->
  quorum s =
    (if IsSingleNode (opts s) then 1
     else Z.of_N (ChannelMaxReplicaCount (opts s) / 2) + 1) /\
  (if (0 <=? Term cfg) && (Term cfg <? u32_max)
   then u32_incr (Term cfg) = Term cfg + 1 else True) /\
  (if Z.of_nat (size m) <? quorum s then
     electionIfNeed s st ch =
     Ret (Some (ErrNew "online replica count is not enough"), ch, st)
   else
     match m !! NodeID (opts s) with
     | None => True
     | Some rself =>
         exists leader rl,
           channelLeaderIDByLogInfo s m = Ret leader /\
           m !! leader = Some rl /\
           (forall n r, m !! n = Some r -> (LogIndex r <= LogIndex rl)%N) /\
           ((LogIndex rl <= LogIndex rself)%N -> leader = NodeID (opts s)) /\
           electionIfNeed s st ch =
             (if (leader =? 0)%N then
                Ret (Some (ErrNew "new leader is not found"), ch, st)
              else
                let cfg' :=
                  mkConfig (ChannelID cfg) (ChannelType cfg) (ReplicaCount cfg)
                    (Replicas cfg) leader (u32_incr (Term cfg)) in
                match saveErr st with
                | Some e => Ret (Some e, mkChannel (Some cfg') leader, st)
                | None =>
                    Ret (None, mkChannel (Some cfg') leader,
                         mkStorage
                           (<[(ChannelID cfg, ChannelType cfg) := cfg']> (configs st))
                           None (deleteErr st))
                end)
     end).
Proof.
  intros Hperm Hcfg Hneed Honline Hreq.
  split; [reflexivity |].
  split.
  { destruct ((0 <=? Term cfg) && (Term cfg <? u32_max)) eqn:Hr; [| exact I].
    apply andb_prop in Hr as [Hlo Hhi]. apply Z.leb_le in Hlo. apply Z.ltb_lt in Hhi.
    apply u32_incr_no_wrap. lia. }
  unfold electionIfNeed. rewrite Hcfg, Hneed, Honline. cbn. rewrite Hreq.
  destruct (Z.of_nat (size m) <? quorum s); [reflexivity |].
  destruct (m !! NodeID (opts s)) as [rself |] eqn:Hself; [| exact I].
  destruct (channelLeaderIDByLogInfo_spec s m rself Hperm Hself)
    as (leader & rl & Hret & Hrl & Hmax & Htie).
  exists leader, rl. rewrite Hret.
  split; [reflexivity |]. split; [exact Hrl |]. split; [exact Hmax |].
  split; [exact Htie |].
  destruct (leader =? 0)%N; [reflexivity |].
  unfold Save, elected. cbn. destruct (saveErr st) eqn:Hsave; reflexivity.
Qed.

(** C10. [channelLeaderIDByLogInfo] stops with a nil-pointer dereference on
    every map that has no entry for the current node while the loop's pick
    is another node (which, without that entry, is the case for every node
    id other than 0). [requestChannelLastLogInfos] returns such a map
    whenever the current node is reported offline or is not among the
    channel's replicas. *)
Theorem leader_by_log_info_needs_own_entry s cfg m :
  requestChannelLastLogInfos s cfg = Ok m ->
  nodeIsOnline s (NodeID (opts s)) = false \/ ~ In (NodeID (opts s)) (Replicas cfg) ->
  m !! NodeID (opts s) = None /\
  (forall m0,
     m0 !! NodeID (opts s) = None ->
     fst (pickHighest (mapRange s m0)) <> NodeID (opts s) ->
     channelLeaderIDByLogInfo s m0 = Panic) /\
  (forall m0,
     mapRange s m0 ≡ₚ map_to_list m0 ->
     m0 !! NodeID (opts s) = None ->
     NodeID (opts s) <> 0%N ->
     fst (pickHighest (mapRange s m0)) <> NodeID (opts s)).
Proof.
  intros Hreq Hwhy. split; [| split].
  - unfold requestChannelLastLogInfos in Hreq.
    eapply lastLogInfos_loop_self; [exact Hreq | apply lookup_empty | exact Hwhy].
  - intros m0 Hnone Hpick. unfold channelLeaderIDByLogInfo.
    destruct (pickHighest (mapRange s m0)) as [l i]. cbn in Hpick.
    apply N.eqb_neq in Hpick. rewrite Hpick. cbn. rewrite Hnone. reflexivity.
  - intros m0 Hperm Hnone Hnz.
    pose proof (pickHighest_spec (mapRange s m0)) as Hspec.
    destruct (pickHighest (mapRange s m0)) as [l i]. cbn.
    destruct Hspec as (_ & [Heq | (r & Hin & _)]).
    + inversion Heq; subst. intros Hcontra. apply Hnz. symmetry. exact Hcontra.
    + apply in_mapRange in Hin; [| exact Hperm].
      intros Hcontra. subst l. rewrite Hnone in Hin. discriminate.
Qed.


End PlacementProps.

Section PlacementExamples.
Import GoInt Placement.

Lemma election_by_highest_log_index_witness :
  mapRange (server1 true) responses3 ≡ₚ map_to_list responses3 /\
  clusterConfig (mkChannel (Some freshConfig) 0) = Some freshConfig /\
  needElection (server1 true) freshConfig = (true, None) /\
  checkOnlineReplicaCount (server1 true) freshConfig = true /\
  requestChannelLastLogInfos (server1 true) freshConfig = Ok responses3 /\
  quorum (server1 true) = 2.
Proof.
  assert (H1 : mapRange (server1 true) responses3 ≡ₚ map_to_list responses3)
    by reflexivity.
  assert (H3 : needElection (server1 true) freshConfig = (true, None))
    by reflexivity.
  assert (H4 : checkOnlineReplicaCount (server1 true) freshConfig = true)
    by reflexivity.
  assert (H5 : requestChannelLastLogInfos (server1 true) freshConfig = Ok responses3)
    by reflexivity.
  repeat (split; [assumption || reflexivity |]).
  pose proof (election_by_highest_log_index (server1 true) emptyStore
                (mkChannel (Some freshConfig) 0) freshConfig responses3
                H1 eq_refl H3 H4 H5) as P.
  destruct P as (P & _). rewrite P. reflexivity.
Defined.

(** On that input the election makes node 2 leader at term 6 and saves it. *)
Example election_elects_node2 :
  electionIfNeed (server1 true) emptyStore (mkChannel (Some freshConfig) 0) =
  Ret (None,
       mkChannel (Some (mkConfig "t" 2 3 [1; 2; 3]%N 2 6)) 2,
       mkStorage (<[("t", 2) := mkConfig "t" 2 3 [1; 2; 3]%N 2 6]> ∅) None None).
Proof. vm_compute. reflexivity. Qed.

Lemma leader_by_log_info_needs_own_entry_witness :
  requestChannelLastLogInfos (server1 false) freshConfig
    = Ok (<[3%N := mkLogInfo 4]> (<[2%N := mkLogInfo 9]> ∅)) /\
  (nodeIsOnline (server1 false) (NodeID (opts (server1 false))) = false \/
   ~ In (NodeID (opts (server1 false))) (Replicas freshConfig)) /\
  (<[3%N := mkLogInfo 4]> (<[2%N := mkLogInfo 9]> ∅) : gmap N ChannelLastLogInfoResponse)
    !! NodeID (opts (server1 false)) = None.
Proof.
  assert (H1 : requestChannelLastLogInfos (server1 false) freshConfig
               = Ok (<[3%N := mkLogInfo 4]> (<[2%N := mkLogInfo 9]> ∅)))
    by reflexivity.
  assert (H2 : nodeIsOnline (server1 false) (NodeID (opts (server1 false))) = false \/
               ~ In (NodeID (opts (server1 false))) (Replicas freshConfig))
    by (left; reflexivity).
  split; [exact H1 |]. split; [exact H2 |].
  exact (proj1 (leader_by_log_info_needs_own_entry (server1 false) freshConfig _ H1 H2)).
Defined.

(** With node 1 reported offline the two remote responses still make a
    quorum, and the election stops in the nil dereference. *)
Example election_faults_without_own_entry :
  electionIfNeed (server1 false) emptyStore (mkChannel (Some freshConfig) 0) = Panic.
Proof. vm_compute. reflexivity. Qed.



End PlacementExamples.

(** ** The cluster configuration file *)

Section ClusterEventProps.
Import GoInt ClusterEvent.
Implicit Types (c : ClusterEventManager) (l : list Z).

Lemma strictlyIncreasing_cons a b l :
  strictlyIncreasing (a :: b :: l) = (a <? b) && strictlyIncreasing (b :: l).
Proof. reflexivity. Qed.

Lemma strictlyIncreasing_snoc l x :
  strictlyIncreasing l = true ->
  Forall (fun v => v < x) l ->
  strictlyIncreasing (l ++ [x]) = true.
Proof.
  induction l as [| a l IH]; intros Hs Hall; [reflexivity |].
  apply Forall_cons in Hall as [Ha Hall].
  destruct l as [| b l].
  - cbn. apply Z.ltb_lt in Ha. rewrite Ha. reflexivity.
  - rewrite strictlyIncreasing_cons in Hs. apply andb_prop in Hs as [Hab Hs].
    rewrite <- !app_comm_cons. rewrite strictlyIncreasing_cons, Hab.
    rewrite !app_comm_cons. apply IH; assumption.
Qed.

Lemma saveAndVersionInc_spec fsOk c :
  0 <= Version (clusterconfig c) < u32_max ->
  strictlyIncreasing (persistedVersions c) = true ->
  persisted_behind c ->
  Version (clusterconfig (saveAndVersionInc fsOk c)) = Version (clusterconfig c) + 1 /\
  strictlyIncreasing (persistedVersions (saveAndVersionInc fsOk c)) = true /\
  persisted_behind (saveAndVersionInc fsOk c).
Proof.
  intros Hv Hs Hb. unfold saveAndVersionInc, save, persisted_behind, persistedVersions in *.
  destruct c as [cfg f ws]. cbn in *.
  assert (Hincr : u32_incr (Version cfg) = Version cfg + 1).
  { unfold u32_incr, wrap_u32, u32_max in *. rewrite Z.mod_small; lia. }
  destruct fsOk; cbn; rewrite Hincr.
  - split; [reflexivity |]. rewrite fmap_app. cbn. split.
    + apply strictlyIncreasing_snoc; [exact Hs |].
      eapply Forall_impl; [exact Hb |]. cbn. intros; lia.
    + apply Forall_app. split.
      * eapply Forall_impl; [exact Hb |]. cbn. intros; lia.
      * apply Forall_cons. split; [lia | apply Forall_nil; exact I].
  - split; [reflexivity |]. split; [exact Hs |].
    eapply Forall_impl; [exact Hb |]. cbn. intros; lia.
Qed.

Lemma apply_bumping_op o fsOk c :
  bumps o = true ->
  0 <= Version (clusterconfig c) < u32_max ->
  strictlyIncreasing (persistedVersions c) = true ->
  persisted_behind c ->
  Version (clusterconfig (apply_op o fsOk c)) = Version (clusterconfig c) + 1 /\
  strictlyIncreasing (persistedVersions (apply_op o fsOk c)) = true /\
  persisted_behind (apply_op o fsOk c).
Proof.
  intros Hb Hv Hs Hp. destruct o; try discriminate; cbn.
  - exact (saveAndVersionInc_spec fsOk
             (set_clusterconfig
                (mkCluster (Version (clusterconfig c)) term (SlotCount (clusterconfig c))
                   (Nodes (clusterconfig c)) (Slots (clusterconfig c))) c) Hv Hs Hp).
  - exact (saveAndVersionInc_spec fsOk c Hv Hs Hp).
  - exact (saveAndVersionInc_spec fsOk
             (set_nodes
                (updateFirst (Id n)
                   (fun node => mkNode (Id node) (ClusterAddr node) (ApiAddr n) (Online node)
                                  (AllowVote node) (DataTerm node) (OfflineCount node))
                   (Nodes (clusterconfig c))) c) Hv Hs Hp).
  - exact (saveAndVersionInc_spec fsOk (SetNodeOnlineNoSave nodeID online c) Hv Hs Hp).
Qed.

Lemma run_bumping ops c :
  forallb (fun p => bumps (fst p)) ops = true ->
  0 <= Version (clusterconfig c) ->
  Version (clusterconfig c) + Z.of_nat (length ops) <= u32_max ->
  strictlyIncreasing (persistedVersions c) = true ->
  persisted_behind c ->
  Version (clusterconfig (run ops c)) = Version (clusterconfig c) + Z.of_nat (length ops) /\
  strictlyIncreasing (persistedVersions (run ops c)) = true /\
  persisted_behind (run ops c).
Proof.
  revert c. induction ops as [| [o fsOk] ops IH]; intros c Hb Hlo Hhi Hs Hp.
  - cbn. split; [lia |]. split; assumption.
  - cbn [forallb fst] in Hb. apply andb_prop in Hb as [Hbo Hb].
    cbn [length] in Hhi.
    destruct (apply_bumping_op o fsOk c Hbo) as (Hv1 & Hs1 & Hp1); [lia | assumption.. |].
    change (run ((o, fsOk) :: ops) c) with (run ops (apply_op o fsOk c)).
    destruct (IH (apply_op o fsOk c) Hb) as (Hv2 & Hs2 & Hp2);
      [lia | lia | assumption.. |].
    split; [| split; assumption].
    rewrite Hv2, Hv1. cbn [length]. lia.
Qed.

(** C7, as the code has it. Over every history of [SetTerm],
    [SaveAndVersionInc], [UpdateNode] and [SetNodeOnline] calls, whichever of
    their saves succeed, each write that reaches the file carries a version
    strictly greater than the write before it, as long as the [uint32]
    counter does not wrap; each call adds exactly one to the version in
    memory. [UpdateClusterConfig] installs the configuration it is given and
    writes it with that configuration's own version. *)
Theorem persisted_versions_increase ops c cfg :
  forallb (fun p => bumps (fst p)) ops = true ->
  0 <= Version (clusterconfig c) ->
  Version (clusterconfig c) + Z.of_nat (length ops) <= u32_max ->
  strictlyIncreasing (persistedVersions c) = true ->
  Forall (fun v => v <= Version (clusterconfig c)) (persistedVersions c) ->
  strictlyIncreasing (persistedVersions (run ops c)) = true /\
  Version (clusterconfig (run ops c)) = Version (clusterconfig c) + Z.of_nat (length ops) /\
  persistedVersions (UpdateClusterConfig cfg true c) = persistedVersions c ++ [Version cfg] /\
  persistedVersions (UpdateClusterConfig cfg false c) = persistedVersions c.
Proof.
  intros Hb Hlo Hhi Hs Hp.
  destruct (run_bumping ops c Hb Hlo Hhi Hs Hp) as (Hv & Hs' & _).
  split; [exact Hs' |]. split; [exact Hv |]. split.
  - unfold UpdateClusterConfig, save, persistedVersions. cbn. rewrite fmap_app. reflexivity.
  - reflexivity.
Qed.

End ClusterEventProps.

Section ClusterEventExamples.
Import GoInt ClusterEvent.

Lemma persisted_versions_increase_witness :
  forallb (fun p => bumps (fst p)) someHistory = true /\
  0 <= Version (clusterconfig seedManager) /\
  Version (clusterconfig seedManager) + Z.of_nat (length someHistory) <= u32_max /\
  strictlyIncreasing (persistedVersions seedManager) = true /\
  Forall (fun v => v <= Version (clusterconfig seedManager)) (persistedVersions seedManager) /\
  strictlyIncreasing (persistedVersions (run someHistory seedManager)) = true.
Proof.
  assert (H1 : forallb (fun p => bumps (fst p)) someHistory = true) by reflexivity.
  assert (H2 : 0 <= Version (clusterconfig seedManager)) by (cbn; lia).
  assert (H3 : Version (clusterconfig seedManager) + Z.of_nat (length someHistory)
               <= u32_max) by (cbn; unfold u32_max; lia).
  assert (H4 : strictlyIncreasing (persistedVersions seedManager) = true) by reflexivity.
  assert (H5 : Forall (fun v => v <= Version (clusterconfig seedManager))
                 (persistedVersions seedManager)).
  { apply Forall_cons. split; [cbn; lia | apply Forall_nil; exact I]. }
  repeat (split; [assumption |]).
  exact (proj1 (persisted_versions_increase someHistory seedManager
                  (clusterconfig seedManager) H1 H2 H3 H4 H5)).
Defined.

(** The file written by that history: versions 0, 1 and 3 (the save of
    version 2 failed). *)
Example someHistory_versions :
  persistedVersions (run someHistory seedManager) = [0; 1; 3].
Proof. vm_compute. reflexivity. Qed.

(** C7: after one bump has been written, the node installs a configuration
    that still carries version 0 (as a peer that never bumped would send
    it). The file sees versions 0, 1, 0. *)
Lemma update_cluster_config_writes_older_version :
  let stale := mkCluster 0 0 10 [] [] in
  let c := run [(OpSaveAndVersionInc, true); (OpUpdateClusterConfig stale, true)]
             seedManager in
  persistedVersions c = [0; 1; 0] /\
  strictlyIncreasing (persistedVersions c) = false.
Proof. cbv zeta. split; vm_compute; reflexivity. Qed.

End ClusterEventExamples.

(** * Further properties *)

(** ** The channel: dispatch discipline of [ready] and the clocks of [tick] *)

Section ChannelMore.
Import GoInt Channel.
Context {S : Type} `{StreamList S}.
Implicit Types (c : channel S) (X Y : stage).

Ltac blk := cbn; repeat (case_match; cbn in *); try reflexivity; try discriminate; try congruence.

(** Each block of [ready] closes its own gate, leaves the other stages'
    flags, the role and the status alone, and only appends to the action
    queue. *)
Lemma readyPayloadDecrypt_closes c : hasUn PayloadDecrypt (readyPayloadDecrypt c) = false.
Proof. destruct c; unfold readyPayloadDecrypt, hasUn, hasPayloadUnDecrypt, exec; blk. Qed.
Lemma readyPermissionCheck_closes c : hasUn PermissionCheck (readyPermissionCheck c) = false.
Proof. destruct c; unfold readyPermissionCheck, hasUn, hasPermissionUnCheck, exec; blk. Qed.
Lemma readyStorage_closes c : hasUn Storage (readyStorage c) = false.
Proof. destruct c; unfold readyStorage, hasUn, hasUnstorage, exec; blk. Qed.
Lemma readySendack_closes c : hasUn Sendack (readySendack c) = false.
Proof. destruct c; unfold readySendack, hasUn, hasSendack, exec; blk. Qed.
Lemma readyDeliver_closes c : hasUn Deliver (readyDeliver c) = false.
Proof. destruct c; unfold readyDeliver, hasUn, hasUnDeliver, exec; blk. Qed.
Lemma readyForward_closes c : hasUn Forward (readyForward c) = false.
Proof. destruct c; unfold readyForward, hasUn, hasUnforward, exec; blk. Qed.

Lemma readyPayloadDecrypt_keeps Y c :
  Y <> PayloadDecrypt -> stateOf Y (readyPayloadDecrypt c) = stateOf Y c.
Proof. intros HY. destruct c, Y; unfold readyPayloadDecrypt, exec; blk. Qed.
Lemma readyPermissionCheck_keeps Y c :
  Y <> PermissionCheck -> stateOf Y (readyPermissionCheck c) = stateOf Y c.
Proof. intros HY. destruct c, Y; unfold readyPermissionCheck, exec; blk. Qed.
Lemma readyStorage_keeps Y c :
  Y <> Storage -> stateOf Y (readyStorage c) = stateOf Y c.
Proof. intros HY. destruct c, Y; unfold readyStorage, exec; blk. Qed.
Lemma readySendack_keeps Y c :
  Y <> Sendack -> stateOf Y (readySendack c) = stateOf Y c.
Proof. intros HY. destruct c, Y; unfold readySendack, exec; blk. Qed.
Lemma readyDeliver_keeps Y c :
  Y <> Deliver -> stateOf Y (readyDeliver c) = stateOf Y c.
Proof. intros HY. destruct c, Y; unfold readyDeliver, exec; blk. Qed.
Lemma readyForward_keeps Y c :
  Y <> Forward -> stateOf Y (readyForward c) = stateOf Y c.
Proof. intros HY. destruct c, Y; unfold readyForward, exec; blk. Qed.
Lemma readyStreamPayloadDecrypt_keeps Y c :
  stateOf Y (readyStreamPayloadDecrypt c) = stateOf Y c.
Proof. destruct c, Y; unfold readyStreamPayloadDecrypt, exec; blk. Qed.
Lemma readyStreamDeliver_keeps Y c : stateOf Y (readyStreamDeliver c) = stateOf Y c.
Proof. destruct c, Y; unfold readyStreamDeliver, exec; blk. Qed.
Lemma readyStreamForward_keeps Y c : stateOf Y (readyStreamForward c) = stateOf Y c.
Proof. destruct c, Y; unfold readyStreamForward, exec; blk. Qed.

Lemma readyPayloadDecrypt_role c : role (readyPayloadDecrypt c) = role c.
Proof. destruct c; unfold readyPayloadDecrypt, exec; blk. Qed.
Lemma readyStreamPayloadDecrypt_role c : role (readyStreamPayloadDecrypt c) = role c.
Proof. destruct c; unfold readyStreamPayloadDecrypt, exec; blk. Qed.


Lemma hasUn_set_actions X l c : hasUn X (set_actions l c) = hasUn X c.
Proof. apply hasUn_ext; destruct X; reflexivity. Qed.

Lemma stateOf_set_actions X l c : stateOf X (set_actions l c) = stateOf X c.
Proof. destruct X; reflexivity. Qed.

(** A block that keeps the flag of [Y] and the queue keeps the gate of [Y]. *)
Lemma gate_kept Y c c' :
  stateOf Y c' = stateOf Y c -> msgQueue c' = msgQueue c -> hasUn Y c' = hasUn Y c.
Proof. intros Hs Hq. apply hasUn_ext; [rewrite Hs; reflexivity | exact Hq]. Qed.

Ltac keep_gate :=
  repeat first
    [ rewrite (gate_kept _ _ (readyStreamDeliver _))
        by (first [apply readyStreamDeliver_keeps | apply readyStreamDeliver_msgQueue])
    | rewrite (gate_kept _ _ (readyStreamForward _))
        by (first [apply readyStreamForward_keeps | apply readyStreamForward_msgQueue])
    | rewrite (gate_kept _ _ (readyStreamPayloadDecrypt _))
        by (first [apply readyStreamPayloadDecrypt_keeps
                  | apply readyStreamPayloadDecrypt_msgQueue])
    | rewrite (gate_kept _ _ (readyDeliver _))
        by (first [apply readyDeliver_keeps; discriminate | apply readyDeliver_msgQueue])
    | rewrite (gate_kept _ _ (readySendack _))
        by (first [apply readySendack_keeps; discriminate | apply readySendack_msgQueue])
    | rewrite (gate_kept _ _ (readyStorage _))
        by (first [apply readyStorage_keeps; discriminate | apply readyStorage_msgQueue])
    | rewrite (gate_kept _ _ (readyPermissionCheck _))
        by (first [apply readyPermissionCheck_keeps; discriminate
                  | apply readyPermissionCheck_msgQueue])
    | rewrite (gate_kept _ _ (readyForward _))
        by (first [apply readyForward_keeps; discriminate | apply readyForward_msgQueue])
    | rewrite (gate_kept _ _ (readyPayloadDecrypt _))
        by (first [apply readyPayloadDecrypt_keeps; discriminate
                  | apply readyPayloadDecrypt_msgQueue]) ].

Ltac keep_state :=
  repeat first
    [ rewrite readyStreamDeliver_keeps
    | rewrite readyStreamForward_keeps
    | rewrite readyStreamPayloadDecrypt_keeps
    | rewrite readyDeliver_keeps by discriminate
    | rewrite readySendack_keeps by discriminate
    | rewrite readyStorage_keeps by discriminate
    | rewrite readyPermissionCheck_keeps by discriminate
    | rewrite readyForward_keeps by discriminate
    | rewrite readyPayloadDecrypt_keeps by discriminate ].

Lemma ready_initialized c :
  isInitialized c = true ->
  snd (ready c) =
  set_actions []
    (match role (readyStreamPayloadDecrypt (readyPayloadDecrypt c)) with
     | channelRoleUnknown => readyStreamPayloadDecrypt (readyPayloadDecrypt c)
     | channelRoleLeader =>
         readyStreamDeliver (readyDeliver (readySendack (readyStorage
           (readyPermissionCheck (readyStreamPayloadDecrypt (readyPayloadDecrypt c))))))
     | channelRoleProxy =>
         readyStreamForward (readyForward
           (readyStreamPayloadDecrypt (readyPayloadDecrypt c)))
     end).
Proof.
  intros Hi. unfold ready. rewrite Hi. cbn [negb]. cbv zeta. unfold takeActions. cbn [snd].
  destruct (role (readyStreamPayloadDecrypt (readyPayloadDecrypt c))); reflexivity.
Qed.

(** X1. On an initialized channel, [ready()] leaves closed the gate of every
    stage it runs for the channel's role, and does not touch the flag of any
    other stage: a second [ready()] cannot dispatch a stage again, and a
    proxy never opens a leader stage (nor a leader the forward stage). *)
Theorem ready_closes_the_gates_it_runs c X :
  isInitialized c = true ->
  if dispatches (role c) X
  then hasUn X (snd (ready c)) = false
  else stateOf X (snd (ready c)) = stateOf X c.
Proof.
  intros Hi. rewrite (ready_initialized c Hi).
  rewrite readyStreamPayloadDecrypt_role, readyPayloadDecrypt_role.
  destruct (role c), X; cbn [dispatches];
    rewrite ?hasUn_set_actions, ?stateOf_set_actions;
    first
      [ keep_state; reflexivity
      | keep_gate;
        first [ apply readyPayloadDecrypt_closes | apply readyPermissionCheck_closes
              | apply readyStorage_closes | apply readySendack_closes
              | apply readyDeliver_closes | apply readyForward_closes ] ].
Qed.

(** *** [ready] and the action queue *)

Ltac grows :=
  cbn; repeat (case_match; cbn in *);
  first [reflexivity | apply prefix_app_r; reflexivity].

Lemma readyPayloadDecrypt_grows c : actions c `prefix_of` actions (readyPayloadDecrypt c).
Proof. destruct c; unfold readyPayloadDecrypt, exec; grows. Qed.
Lemma readyStreamPayloadDecrypt_grows c :
  actions c `prefix_of` actions (readyStreamPayloadDecrypt c).
Proof. destruct c; unfold readyStreamPayloadDecrypt, exec; grows. Qed.
Lemma readyPermissionCheck_grows c : actions c `prefix_of` actions (readyPermissionCheck c).
Proof. destruct c; unfold readyPermissionCheck, exec; grows. Qed.
Lemma readyStorage_grows c : actions c `prefix_of` actions (readyStorage c).
Proof. destruct c; unfold readyStorage, exec; grows. Qed.
Lemma readySendack_grows c : actions c `prefix_of` actions (readySendack c).
Proof. destruct c; unfold readySendack, exec; grows. Qed.
Lemma readyDeliver_grows c : actions c `prefix_of` actions (readyDeliver c).
Proof. destruct c; unfold readyDeliver, exec; grows. Qed.
Lemma readyStreamDeliver_grows c : actions c `prefix_of` actions (readyStreamDeliver c).
Proof. destruct c; unfold readyStreamDeliver, exec; grows. Qed.
Lemma readyForward_grows c : actions c `prefix_of` actions (readyForward c).
Proof. destruct c; unfold readyForward, exec; grows. Qed.
Lemma readyStreamForward_grows c : actions c `prefix_of` actions (readyStreamForward c).
Proof. destruct c; unfold readyStreamForward, exec; grows. Qed.

(** X2. [ready()] hands out every action that was queued before the call
    (for instance a Close queued by [tick]), in order and ahead of the
    actions it adds, and leaves the queue empty. The one exception is a
    channel whose Init is in flight: it gets an empty [ready] and the queue
    is kept as it is. *)
Theorem ready_hands_out_queued_actions c :
  if bool_decide (status c = channelStatusInitializing)
  then fst (ready c) = [] /\ snd (ready c) = c
  else actions c `prefix_of` fst (ready c) /\ actions (snd (ready c)) = [].
Proof.
  unfold ready, isInitialized.
  destruct (bool_decide (status c = channelStatusInitializing)) eqn:Hing.
  - apply bool_decide_eq_true in Hing. rewrite Hing. cbn. split; reflexivity.
  - destruct (bool_decide (status c = channelStatusInitialized)) eqn:Hed; cbn [negb].
    + cbv zeta. unfold takeActions. cbn [fst snd]. split; [| reflexivity].
      etransitivity; [apply readyPayloadDecrypt_grows |].
      etransitivity; [apply readyStreamPayloadDecrypt_grows |].
      destruct (role (readyStreamPayloadDecrypt (readyPayloadDecrypt c))).
      * reflexivity.
      * etransitivity; [apply readyPermissionCheck_grows |].
        etransitivity; [apply readyStorage_grows |].
        etransitivity; [apply readySendack_grows |].
        etransitivity; [apply readyDeliver_grows |].
        apply readyStreamDeliver_grows.
      * etransitivity; [apply readyForward_grows |]. apply readyStreamForward_grows.
    + cbv zeta. unfold takeActions, exec. cbn [fst snd]. split; [| reflexivity].
      destruct c. cbn. apply prefix_app_r. reflexivity.
Qed.

(** *** The clocks of [tick] *)

Lemma tickLeader_frame c :
  status (tickLeader c) = status c /\ opts (tickLeader c) = opts c /\
  tickFnc (tickLeader c) = tickFnc c /\ receiverTagKey (tickLeader c) = receiverTagKey c.
Proof.
  destruct c; unfold tickLeader, exec; cbn; repeat (case_match; cbn in *);
    repeat split; reflexivity.
Qed.

Lemma tickRole_frame c :
  status (tickRole c) = status c /\ opts (tickRole c) = opts c /\
  tickFnc (tickRole c) = tickFnc c /\ receiverTagKey (tickRole c) = receiverTagKey c.
Proof.
  unfold tickRole, tickProxy. destruct (tickFnc c) eqn:Hf; cbv iota beta;
    try (repeat split; first [reflexivity | exact Hf]).
  destruct (tickLeader_frame c) as (H1 & H2 & H3 & H4).
  rewrite H1, H2, H3, H4. repeat split. exact Hf.
Qed.

Lemma tickIdle_frame c :
  status (tickIdle c) = status c /\ opts (tickIdle c) = opts c /\
  tickFnc (tickIdle c) = tickFnc c /\ receiverTagKey (tickIdle c) = receiverTagKey c /\
  tagCheckTick (tickIdle c) = tagCheckTick c.
Proof.
  destruct c; unfold tickIdle, exec; cbn; repeat (case_match; cbn in *);
    repeat split; reflexivity.
Qed.

Lemma set_streams_frame v c :
  status (set_streams v c) = status c /\ opts (set_streams v c) = opts c.
Proof. split; reflexivity. Qed.

Lemma tickRetries_frame c :
  status (tickRetries c) = status c /\ opts (tickRetries c) = opts c.
Proof. split; reflexivity. Qed.

Lemma tick_status c : status (tick c) = status c.
Proof.
  unfold tick. cbv zeta.
  rewrite (proj1 (set_streams_frame _ _)), (proj1 (tickRole_frame _)),
    (proj1 (tickRetries_frame _)).
  apply tickIdle_frame.
Qed.

Lemma tick_opts c : opts (tick c) = opts c.
Proof.
  unfold tick. cbv zeta.
  rewrite (proj2 (set_streams_frame _ _)), (proj1 (proj2 (tickRole_frame _))),
    (proj2 (tickRetries_frame _)).
  apply tickIdle_frame.
Qed.

Lemma ticks_S n c : ticks (Datatypes.S n) c = tick (ticks n c).
Proof. reflexivity. Qed.

Lemma ticks_status n c : status (ticks n c) = status c.
Proof.
  induction n as [| n IH]; [reflexivity |]. rewrite ticks_S, tick_status. exact IH.
Qed.

Lemma ticks_opts n c : opts (ticks n c) = opts c.
Proof.
  induction n as [| n IH]; [reflexivity |]. rewrite ticks_S, tick_opts. exact IH.
Qed.

Lemma ticks_retryTickCount n c : retryTickCount (ticks n c) = retryTickCount c.
Proof.
  induction n as [| n IH]; [reflexivity |]. rewrite ticks_S, tick_retryTickCount. exact IH.
Qed.

Lemma tickLeader_actions c :
  tickFnc c = tickLeaderFn ->
  actions (tickLeader c) =
  actions c ++ (if tagCheckDue c then [mkAction ChannelActionCheckTag 0 []] else []).
Proof.
  intros Hf. destruct c; unfold tickLeader, tagCheckDue, exec in *; cbn in *. subst.
  destruct (incr _ >=? _); cbn; [| symmetry; apply app_nil_r].
  destruct (bool_decide _); cbn; [symmetry; apply app_nil_r | reflexivity].
Qed.

Lemma tickRole_actions c :
  actions (tickRole c) =
  actions c ++ (if tagCheckDue c then [mkAction ChannelActionCheckTag 0 []] else []).
Proof.
  unfold tickRole, tickProxy. destruct (tickFnc c) eqn:Hf; cbv iota beta.
  - unfold tagCheckDue. rewrite Hf. symmetry. apply app_nil_r.
  - apply tickLeader_actions, Hf.
  - unfold tagCheckDue. rewrite Hf. symmetry. apply app_nil_r.
Qed.

Lemma tagCheckDue_tickRetries c : tagCheckDue (tickRetries c) = tagCheckDue c.
Proof. reflexivity. Qed.

Lemma tagCheckDue_tickRetries_tickIdle c :
  tagCheckDue (tickRetries (tickIdle c)) = tagCheckDue c.
Proof.
  rewrite tagCheckDue_tickRetries.
  destruct (tickIdle_frame c) as (_ & Ho & Hf & Hk & Ht).
  unfold tagCheckDue. rewrite Ho, Hf, Hk, Ht. reflexivity.
Qed.

(** X3. A tick appends to the action queue a [ChannelActionClose] when the
    idle clock reaches [DeadlineTick], then a [ChannelActionCheckTag] when
    the channel ticks as leader, its tag-check clock reaches
    [TagCheckIntervalTick] and it holds a receiver tag; it appends nothing
    else and removes nothing. *)
Theorem tick_emits_only_close_and_check_tag c :
  actions (tick c) =
  actions c
  ++ (if incr (idleTick c) >=? DeadlineTick (opts c)
      then [mkAction ChannelActionClose 0 []] else [])
  ++ (if tagCheckDue c then [mkAction ChannelActionCheckTag 0 []] else []).
Proof.
  unfold tick. cbv zeta. rewrite actions_set_streams, tickRole_actions.
  rewrite tagCheckDue_tickRetries_tickIdle, tickRetries_actions, tickIdle_actions.
  symmetry. apply app_assoc.
Qed.

(** X4. Starting from an idle clock at 0, the first [DeadlineTick - 1] ticks
    emit no Close and count the clock up; the tick number [DeadlineTick]
    emits exactly one Close and puts the clock back to 0. *)
Theorem close_after_deadline_ticks c k :
  idleTick c = 0 ->
  0 < DeadlineTick (opts c) <= int_max ->
  Z.of_nat k < DeadlineTick (opts c) ->
  idleTick (ticks k c) = Z.of_nat k /\
  closes (actions (ticks k c)) = closes (actions c) /\
  idleTick (ticks (Z.to_nat (DeadlineTick (opts c))) c) = 0 /\
  closes (actions (ticks (Z.to_nat (DeadlineTick (opts c))) c)) =
    closes (actions c) ++ [mkAction ChannelActionClose 0 []].
Proof.
  intros H0 HD Hk.
  assert (Hbelow : forall n, Z.of_nat n < DeadlineTick (opts c) ->
            idleTick (ticks n c) = Z.of_nat n /\
            closes (actions (ticks n c)) = closes (actions c)).
  { induction n as [| n IH]; intros Hn; [split; [exact H0 | reflexivity] |].
    destruct IH as (Hi & Hc); [lia |].
    rewrite ticks_S, tick_idleTick, tick_closes, ticks_opts, Hi, Hc.
    rewrite incr_no_wrap by (unfold int_min, int_max in *; lia).
    destruct (Z.of_nat n + 1 >=? DeadlineTick (opts c)) eqn:Hge.
    - apply Z.geb_le in Hge. lia.
    - split; [lia | apply app_nil_r]. }
  split; [apply Hbelow, Hk |]. split; [apply Hbelow, Hk |].
  destruct (Z.to_nat (DeadlineTick (opts c))) as [| d] eqn:Hd; [lia |].
  destruct (Hbelow d) as (Hi & Hc); [lia |].
  rewrite ticks_S, tick_idleTick, tick_closes, ticks_opts, Hi, Hc.
  rewrite incr_no_wrap by (unfold int_min, int_max in *; lia).
  destruct (Z.of_nat d + 1 >=? DeadlineTick (opts c)) eqn:Hge.
  - split; reflexivity.
  - rewrite Z.geb_leb in Hge. apply Z.leb_gt in Hge. lia.
Qed.

Lemma ticks_stateOf_processing X n c :
  processing (stateOf X (ticks n c)) = processing (stateOf X c).
Proof.
  induction n as [| n IH]; [reflexivity |].
  rewrite ticks_S, tick_stateOf, retryStateTick_processing. exact IH.
Qed.

(** X5. A stage put in back-off ([willRetry] set, [retryTick] 0) stays in
    back-off for the first [retryTickCount - 1] ticks, its [retryTick]
    counting them; the tick number [retryTickCount] clears [willRetry] and
    puts [retryTick] back to 0. [processing] is as it was throughout. *)
Theorem backoff_lasts_retryTickCount_ticks X c k :
  willRetry (stateOf X c) = true ->
  retryTick (stateOf X c) = 0 ->
  0 < retryTickCount c <= int_max ->
  Z.of_nat k < retryTickCount c ->
  stateOf X (ticks k c) = mkReadyState (processing (stateOf X c)) true (Z.of_nat k) /\
  stateOf X (ticks (Z.to_nat (retryTickCount c)) c) =
    mkReadyState (processing (stateOf X c)) false 0.
Proof.
  intros Hw H0 HR Hk.
  assert (Hbelow : forall n, Z.of_nat n < retryTickCount c ->
            stateOf X (ticks n c) =
            mkReadyState (processing (stateOf X c)) true (Z.of_nat n)).
  { induction n as [| n IH]; intros Hn.
    - change (ticks 0 c) with c. revert Hw H0.
      destruct (stateOf X c) as [p w t]. cbn. intros -> ->. reflexivity.
    - rewrite ticks_S, tick_stateOf, ticks_retryTickCount, IH by lia.
      unfold retryStateTick. cbn.
      rewrite incr_no_wrap by (unfold int_min, int_max in *; lia).
      destruct (Z.of_nat n + 1 >=? retryTickCount c) eqn:Hge.
      + apply Z.geb_le in Hge. lia.
      + f_equal. lia. }
  split; [apply Hbelow, Hk |].
  destruct (Z.to_nat (retryTickCount c)) as [| d] eqn:Hd; [lia |].
  rewrite ticks_S, tick_stateOf, ticks_retryTickCount, Hbelow by lia.
  unfold retryStateTick. cbn.
  rewrite incr_no_wrap by (unfold int_min, int_max in *; lia).
  destruct (Z.of_nat d + 1 >=? retryTickCount c) eqn:Hge; [reflexivity |].
  rewrite Z.geb_leb in Hge. apply Z.leb_gt in Hge. lia.
Qed.

(** X6. [ready()] on a channel that was never initialized emits one Init
    action after the queued ones and marks the channel Initializing. From
    then on, however many ticks pass, [hasReady] is false and [ready()]
    returns nothing and changes nothing, until the status changes: no second
    Init, and also no Close, leaves a channel whose Init is in flight. *)
Theorem init_is_dispatched_once c n :
  status c = channelStatusUninitialized ->
  fst (ready c) = actions c ++ [mkAction ChannelActionInit 0 []] /\
  status (snd (ready c)) = channelStatusInitializing /\
  hasReady (ticks n (snd (ready c))) = false /\
  fst (ready (ticks n (snd (ready c)))) = [] /\
  snd (ready (ticks n (snd (ready c)))) = ticks n (snd (ready c)).
Proof.
  intros Hs.
  assert (Hr : fst (ready c) = actions c ++ [mkAction ChannelActionInit 0 []] /\
               status (snd (ready c)) = channelStatusInitializing).
  { destruct c. cbn in Hs. subst. split; reflexivity. }
  destruct Hr as (Hr1 & Hr2). split; [exact Hr1 |]. split; [exact Hr2 |].
  assert (Hing : status (ticks n (snd (ready c))) = channelStatusInitializing)
    by (rewrite ticks_status; exact Hr2).
  generalize dependent (ticks n (snd (ready c))). intros c' Hing.
  unfold hasReady, ready, isInitialized. rewrite Hing. cbn.
  split; [| split; reflexivity].
  destruct (initTick c' <? ProcessIntervalTick (opts c')); reflexivity.
Qed.

End ChannelMore.

(** ** Grouping the subscribers of a channel by node *)

Section Grouping.
Import Channel.
Context {E : Type} (slotLeaderOf : string -> E + N).
Implicit Types (l groups : list nodeUsers) (subs done : list string).

Lemma extend_id node uid g : nu_nodeId (extend node uid g) = nu_nodeId g.
Proof. unfold extend. destruct (_ =? _)%N; reflexivity. Qed.

Lemma appendToNode_None node uid l :
  appendToNode node uid l = None -> Forall (fun g => nu_nodeId g <> node) l.
Proof.
  induction l as [| g l IH]; intros Hn; [constructor |].
  cbn in Hn. destruct (nu_nodeId g =? node)%N eqn:Hg; [discriminate |].
  destruct (appendToNode node uid l); [discriminate |].
  constructor; [apply N.eqb_neq, Hg | apply IH; reflexivity].
Qed.

Lemma extend_absent node uid l :
  Forall (fun g => nu_nodeId g <> node) l -> extend node uid <$> l = l.
Proof.
  induction 1 as [| g l Hg _ IH]; [reflexivity |].
  cbn. rewrite IH. unfold extend. apply N.eqb_neq in Hg. rewrite Hg. reflexivity.
Qed.

Lemma appendToNode_Some node uid l l' :
  NoDup (nu_nodeId <$> l) ->
  appendToNode node uid l = Some l' ->
  l' = extend node uid <$> l /\ exists g, g ∈ l /\ nu_nodeId g = node.
Proof.
  revert l'. induction l as [| g l IH]; intros l' Hnd Hs; [discriminate |].
  cbn in Hs. cbn in Hnd. apply NoDup_cons in Hnd as [Hnotin Hnd].
  destruct (nu_nodeId g =? node)%N eqn:Hg.
  - inversion Hs; subst l'. apply N.eqb_eq in Hg. split.
    + cbn. unfold extend at 1. rewrite (proj2 (N.eqb_eq _ _) Hg). f_equal.
      symmetry. apply extend_absent. apply Forall_forall. intros g' Hin Heq.
      apply Hnotin. rewrite Hg, <- Heq. apply list_elem_of_fmap. exists g'.
      split; [reflexivity | exact Hin].
    + exists g. split; [left | exact Hg].
  - destruct (appendToNode node uid l) as [rest' |] eqn:Hrest; [| discriminate].
    inversion Hs; subst l'. destruct (IH rest' Hnd eq_refl) as (Heq & g' & Hin & Hid).
    split.
    + cbn. unfold extend at 1. rewrite Hg. f_equal. exact Heq.
    + exists g'. split; [right; exact Hin | exact Hid].
Qed.

Lemma ledBy_unique a b uid :
  ledBy slotLeaderOf a uid = true -> ledBy slotLeaderOf b uid = true -> a = b.
Proof.
  unfold ledBy. destruct (slotLeaderOf uid) as [e | n]; [discriminate |].
  intros Ha Hb. apply N.eqb_eq in Ha, Hb. congruence.
Qed.

Lemma filter_none {A} (f : A -> bool) (xs : list A) :
  Forall (fun x => f x = false) xs -> List.filter f xs = [].
Proof.
  induction 1 as [| x xs Hx _ IH]; [reflexivity |]. cbn. rewrite Hx. exact IH.
Qed.

Lemma grouped_step done l uid leader :
  grouped slotLeaderOf done l ->
  slotLeaderOf uid = inr leader ->
  grouped slotLeaderOf (done ++ [uid])
    (match appendToNode leader uid l with
     | Some l' => l'
     | None => l ++ [mkNodeUsers leader [uid]]
     end).
Proof.
  intros (Hnd & Hg & Hd) Hl.
  assert (Hself : ledBy slotLeaderOf leader uid = true)
    by (unfold ledBy; rewrite Hl; apply N.eqb_refl).
  assert (Hother : forall n, n <> leader -> ledBy slotLeaderOf n uid = false).
  { intros n Hn. unfold ledBy. rewrite Hl. apply N.eqb_neq. congruence. }
  destruct (appendToNode leader uid l) as [l' |] eqn:Happ.
  - destruct (appendToNode_Some leader uid l l' Hnd Happ) as (-> & g0 & Hin0 & Hid0).
    split; [| split].
    + rewrite <- list_fmap_compose.
      erewrite list_fmap_ext; [exact Hnd |]. intros i g _. apply extend_id.
    + apply Forall_fmap. eapply Forall_impl; [exact Hg |].
      intros g (Hu & Hne). cbn. rewrite extend_id. rewrite List.filter_app. cbn.
      unfold extend. destruct (nu_nodeId g =? leader)%N eqn:Hgl.
      * apply N.eqb_eq in Hgl. rewrite Hgl, Hself. cbn. rewrite <- Hgl, Hu.
        split; [reflexivity |]. intros Hnil. apply app_eq_nil in Hnil as [_ Hnil].
        discriminate.
      * apply N.eqb_neq in Hgl. rewrite (Hother _ Hgl), app_nil_r.
        split; assumption.
    + apply Forall_app. split.
      * eapply Forall_impl; [exact Hd |]. intros u (g & Hin & Hled). cbn.
        exists (extend leader uid g). split.
        -- apply list_elem_of_fmap. exists g. split; [reflexivity | exact Hin].
        -- rewrite extend_id. exact Hled.
      * constructor; [| constructor]. exists (extend leader uid g0). split.
        -- apply list_elem_of_fmap. exists g0. split; [reflexivity | exact Hin0].
        -- rewrite extend_id, Hid0. exact Hself.
  - pose proof (appendToNode_None leader uid l Happ) as Habs.
    split; [| split].
    + rewrite fmap_app. apply NoDup_app. split; [exact Hnd |]. split.
      * intros n Hin Hin'. apply list_elem_of_fmap in Hin as (g & -> & Hg').
        cbn in Hin'. apply list_elem_of_singleton in Hin'.
        rewrite Forall_forall in Habs. exact (Habs g Hg' Hin').
      * cbn. apply NoDup_singleton.
    + apply Forall_app. split.
      * rewrite Forall_forall in Habs.
        apply Forall_forall. intros g Hin. rewrite Forall_forall in Hg.
        destruct (Hg g Hin) as (Hu & Hne). rewrite List.filter_app. cbn.
        rewrite (Hother _ (Habs g Hin)), app_nil_r. split; assumption.
      * constructor; [| constructor]. cbn. rewrite List.filter_app. cbn.
        rewrite Hself. split; [| discriminate].
        assert (Hnone : List.filter (ledBy slotLeaderOf leader) done = []).
        { apply filter_none. eapply Forall_impl; [exact Hd |].
          intros u (g & Hin & Hled). cbn. rewrite Forall_forall in Habs.
          destruct (ledBy slotLeaderOf leader u) eqn:Hlu; [| reflexivity].
          exfalso. apply (Habs g Hin). exact (ledBy_unique _ _ _ Hled Hlu). }
        rewrite Hnone. reflexivity.
    + apply Forall_app. split.
      * eapply Forall_impl; [exact Hd |]. intros u (g & Hin & Hled). cbn.
        exists g. split; [apply elem_of_app; left; exact Hin | exact Hled].
      * constructor; [| constructor]. exists (mkNodeUsers leader [uid]). split.
        -- apply elem_of_app. right. apply list_elem_of_singleton. reflexivity.
        -- exact Hself.
Qed.

Lemma groupByNode_grouped subs : forall done l groups,
  grouped slotLeaderOf done l ->
  groupByNode slotLeaderOf subs l = inr groups ->
  grouped slotLeaderOf (done ++ subs) groups.
Proof.
  induction subs as [| uid subs IH]; intros done l groups Hinv Hrun.
  - cbn in Hrun. inversion Hrun; subst. rewrite app_nil_r. exact Hinv.
  - cbn in Hrun. destruct (slotLeaderOf uid) as [e | leader] eqn:Hl; [discriminate |].
    pose proof (grouped_step done l uid leader Hinv Hl) as Hstep.
    replace (done ++ uid :: subs) with ((done ++ [uid]) ++ subs)
      by (rewrite <- app_assoc; reflexivity).
    destruct (appendToNode leader uid l) as [l' |]; eapply IH; eauto.
Qed.

(** X7. When [makeReceiverTag] has grouped the subscribers, there is exactly
    one group per node; each group lists, in their original order, exactly
    the subscribers whose slot leader is that node, and is not empty; and
    every subscriber is in the group of its slot leader. *)
Theorem subscribers_grouped_by_slot_leader subs groups :
  groupByNode slotLeaderOf subs [] = inr groups ->
  NoDup (nu_nodeId <$> groups) /\
  Forall (fun g => uids g = List.filter (ledBy slotLeaderOf (nu_nodeId g)) subs
                   /\ uids g <> []) groups /\
  Forall (fun u => exists g, g ∈ groups /\ ledBy slotLeaderOf (nu_nodeId g) u = true) subs.
Proof.
  intros Hrun.
  apply (groupByNode_grouped subs [] [] groups); [| exact Hrun].
  split; [constructor |]. split; constructor.
Qed.

Lemma groupByNode_total subs : forall l,
  Forall (fun u => exists n, slotLeaderOf u = inr n) subs ->
  exists groups, groupByNode slotLeaderOf subs l = inr groups.
Proof.
  induction subs as [| uid subs IH]; intros l Hok; [eexists; reflexivity |].
  apply Forall_cons in Hok as [(n & Hn) Hok]. cbn. rewrite Hn.
  destruct (appendToNode n uid l); apply IH, Hok.
Qed.

(** X8. The grouping fails exactly when a slot-leader lookup fails: it
    returns the error of the first subscriber whose lookup fails, whatever
    follows it, and it returns groups when every lookup succeeds. *)
Theorem grouping_fails_on_first_lookup_error pre uid post err l :
  Forall (fun u => exists n, slotLeaderOf u = inr n) pre ->
  slotLeaderOf uid = inl err ->
  groupByNode slotLeaderOf (pre ++ uid :: post) l = inl err /\
  exists groups, groupByNode slotLeaderOf pre l = inr groups.
Proof.
  intros Hok Herr. split; [| apply groupByNode_total, Hok].
  revert l. induction pre as [| u pre IH]; intros l.
  - cbn. rewrite Herr. reflexivity.
  - apply Forall_cons in Hok as [(n & Hn) Hok]. cbn. rewrite Hn.
    destruct (appendToNode n u l); apply IH, Hok.
Qed.

End Grouping.

Section ChannelMoreExamples.
Import GoInt Channel.

Lemma ready_closes_the_gates_it_runs_witness :
  let c : channel unit :=
    set_msgQueue (mkQueue [mkMsg 7 1 10] 1 0 0 0 0 0 0)
      (becomeLeader (set_status channelStatusInitialized
                       (newChannel (mkOptions 1 1 100 10) "t" 2))) in
  isInitialized c = true /\
  hasUn PayloadDecrypt c = true /\
  hasUn PayloadDecrypt (snd (ready c)) = false /\
  stateOf Forward (snd (ready c)) = stateOf Forward c.
Proof.
  cbv zeta.
  set (c := set_msgQueue (mkQueue [mkMsg 7 1 10] 1 0 0 0 0 0 0)
              (becomeLeader (set_status channelStatusInitialized
                               (newChannel (mkOptions 1 1 100 10) "t" 2 : channel unit)))).
  assert (Hi : isInitialized c = true) by reflexivity.
  split; [exact Hi |]. split; [reflexivity |]. split.
  - exact (ready_closes_the_gates_it_runs c PayloadDecrypt Hi).
  - exact (ready_closes_the_gates_it_runs c Forward Hi).
Defined.

Lemma close_after_deadline_ticks_witness :
  let c : channel unit := newChannel (mkOptions 1 1 3 10) "t" 2 in
  idleTick c = 0 /\
  0 < DeadlineTick (opts c) <= int_max /\
  Z.of_nat 2 < DeadlineTick (opts c) /\
  closes (actions (ticks 2 c)) = [] /\
  closes (actions (ticks 3 c)) = [mkAction ChannelActionClose 0 []].
Proof.
  cbv zeta.
  assert (H2 : 0 < DeadlineTick (opts (newChannel (mkOptions 1 1 3 10) "t" 2 : channel unit))
               <= int_max) by (cbn; unfold int_max; lia).
  assert (H3 : Z.of_nat 2 < DeadlineTick (opts (newChannel (mkOptions 1 1 3 10) "t" 2
                                                : channel unit))) by (cbn; lia).
  split; [reflexivity |]. split; [exact H2 |]. split; [exact H3 |].
  destruct (close_after_deadline_ticks
              (newChannel (mkOptions 1 1 3 10) "t" 2 : channel unit) 2 eq_refl H2 H3)
    as (_ & Hc & _ & Hd).
  split; [exact Hc | exact Hd].
Defined.

Lemma backoff_lasts_retryTickCount_ticks_witness :
  let c : channel unit :=
    set_storageState (mkReadyState true true 0)
      (newChannel (mkOptions 1 1 100 10) "t" 2) in
  willRetry (stateOf Storage c) = true /\
  retryTick (stateOf Storage c) = 0 /\
  0 < retryTickCount c <= int_max /\
  Z.of_nat 19 < retryTickCount c /\
  stateOf Storage (ticks 19 c) = mkReadyState true true 19 /\
  stateOf Storage (ticks 20 c) = mkReadyState true false 0.
Proof.
  cbv zeta.
  set (c := set_storageState (mkReadyState true true 0)
              (newChannel (mkOptions 1 1 100 10) "t" 2 : channel unit)).
  assert (H3 : 0 < retryTickCount c <= int_max) by (cbn; unfold int_max; lia).
  assert (H4 : Z.of_nat 19 < retryTickCount c) by (cbn; lia).
  split; [reflexivity |]. split; [reflexivity |]. split; [exact H3 |]. split; [exact H4 |].
  exact (backoff_lasts_retryTickCount_ticks Storage c 19 eq_refl eq_refl H3 H4).
Defined.

Lemma init_is_dispatched_once_witness :
  let c : channel unit := newChannel (mkOptions 1 1 100 10) "t" 2 in
  status c = channelStatusUninitialized /\
  fst (ready (ticks 5 (snd (ready c)))) = [].
Proof.
  cbv zeta. split; [reflexivity |].
  exact (proj1 (proj2 (proj2 (proj2
           (init_is_dispatched_once
              (newChannel (mkOptions 1 1 100 10) "t" 2 : channel unit) 5 eq_refl))))).
Defined.

(** Three subscribers on two nodes make two groups. *)
Lemma subscribers_grouped_by_slot_leader_witness :
  groupByNode exampleLeaderOf ["u1"; "u2"; "u3"]%string []
    = inr [mkNodeUsers 1 ["u1"%string]; mkNodeUsers 2 ["u2"; "u3"]%string] /\
  NoDup (nu_nodeId <$> [mkNodeUsers 1 ["u1"%string]; mkNodeUsers 2 ["u2"; "u3"]%string]).
Proof.
  split; [reflexivity |].
  exact (proj1 (subscribers_grouped_by_slot_leader exampleLeaderOf
                  ["u1"; "u2"; "u3"]%string _ eq_refl)).
Defined.

Lemma grouping_fails_on_first_lookup_error_witness :
  Forall (fun u => exists n, exampleLeaderOf u = inr n) ["u1"; "u2"]%string /\
  exampleLeaderOf "ghost" = inl "slot not found"%string /\
  groupByNode exampleLeaderOf (app ["u1"; "u2"] ("ghost" :: ["u3"]))%string []
    = inl "slot not found"%string.
Proof.
  assert (H1 : Forall (fun u => exists n, exampleLeaderOf u = inr n) ["u1"; "u2"]%string).
  { repeat constructor; eexists; reflexivity. }
  split; [exact H1 |]. split; [reflexivity |].
  exact (proj1 (grouping_fails_on_first_lookup_error exampleLeaderOf
                  ["u1"; "u2"]%string "ghost"%string ["u3"%string]
                  "slot not found"%string [] H1 eq_refl)).
Defined.

End ChannelMoreExamples.

(** ** The replica: what [Ready] hands out *)

Section ReplicaMore.
Import GoInt Replica.
Context `{ReplicaEnv}.
Implicit Types (r : Replica).

Ltac rdy :=
  cbn; repeat (case_match; cbn in *; try discriminate);
  try reflexivity; try congruence.


(** X9. [Ready()] hands out every message that was queued before the call,
    in order and ahead of the ones it adds, and leaves the outbox empty.
    The one exception is a follower or learner waiting in log-conflict
    check: it gets no messages and its outbox is kept as it is. *)
Theorem Ready_hands_out_queued_messages r :
  if conflictCheckWaiting r
  then rd_Messages (fst (Ready r)) = [] /\ msgs (snd (Ready r)) = msgs r
  else msgs r `prefix_of` rd_Messages (fst (Ready r)) /\ msgs (snd (Ready r)) = [].
Proof.
  destruct r.
  unfold conflictCheckWaiting, Ready, isFollowerOrLearner, send. cbn.
  destruct status0; cbn;
    [ split; [apply prefix_app_r; reflexivity | reflexivity] | ..];
    destruct (hardStateChange _); cbn;
    repeat (case_match; cbn in *; try discriminate);
    (split; [| reflexivity]);
    first [ reflexivity
          | apply prefix_app_r; reflexivity
          | etransitivity; [| apply prefix_app_r; reflexivity];
            first [ reflexivity | apply prefix_app_r; reflexivity
                  | etransitivity; [| apply prefix_app_r; reflexivity];
                    first [reflexivity | apply prefix_app_r; reflexivity] ] ].
Qed.

(** X10. With the replica in Ready status, [HasReady] and [Ready] agree:
    when [HasReady] is false, [Ready] returns no hard state and no message
    and leaves the replica exactly as it was. *)
Theorem Ready_does_nothing_without_HasReady r :
  status r = StatusReady ->
  HasReady r = false ->
  Ready r = (mkReady HardState_zero [], r).
Proof.
  intros Hs Hh. destruct r. cbn in Hs. subst.
  unfold HasReady, isFollowerOrLearner in Hh. cbn in Hh.
  unfold Ready, isFollowerOrLearner, send. cbn.
  change (bool_decide (StatusReady = StatusReady)) with true in *.
  change (bool_decide (StatusReady = StatusUninitialized)) with false in *.
  cbn in *.
  destruct (hardStateChange _) eqn:Hc; cbn in *;
    change (bool_decide (StatusReady = StatusLogCoflictCheck)) with false in *;
    cbn in *;
    destruct (bool_decide (role0 = RoleFollower) || bool_decide (role0 = RoleLearner));
    destruct (leader0 =? 0)%N; destruct (syncTick0 >=? syncIntervalTick0);
    destruct syncing0; cbn in *; try discriminate;
    (destruct (hasStorage replicaLog0); [discriminate |]); cbn in *;
    (destruct (hasApply replicaLog0); [discriminate |]); cbn in *;
    (destruct msgs0; [| discriminate]); cbn in *; try discriminate;
    reflexivity.
Qed.

Lemma syncReqs_app (l l' : list Message) : syncReqs (l ++ l') = syncReqs l ++ syncReqs l'.
Proof. apply List.filter_app. Qed.


(** X12. [Ready()] on an uninitialized replica hands out the queued messages
    followed by one [MsgInit] addressed to the replica itself, reports no
    hard state, and moves the replica to Initing, where [HasReady] is false:
    Init is asked for once. *)
Theorem Init_is_requested_once r :
  status r = StatusUninitialized ->
  rd_Messages (fst (Ready r)) = msgs r ++ [newMsgInit r] /\
  rd_HardState (fst (Ready r)) = HardState_zero /\
  status (snd (Ready r)) = StatusIniting /\
  msgs (snd (Ready r)) = [] /\
  HasReady (snd (Ready r)) = false.
Proof.
  intros Hs. destruct r. cbn in Hs. subst. repeat split.
Qed.



End ReplicaMore.

Section ReplicaMoreExamples.
Import GoInt Replica.

Lemma Ready_does_nothing_without_HasReady_witness :
  status stalledFollower = StatusReady /\
  @HasReady idleEnv stalledFollower = false /\
  @Ready idleEnv stalledFollower = (mkReady HardState_zero [], stalledFollower).
Proof.
  split; [reflexivity |]. split; [reflexivity |].
  apply (@Ready_does_nothing_without_HasReady idleEnv stalledFollower); reflexivity.
Defined.


Lemma Init_is_requested_once_witness :
  status freshReplica = StatusUninitialized /\
  rd_Messages (fst (@Ready idleEnv freshReplica)) = [@newMsgInit freshReplica] /\
  status (snd (@Ready idleEnv freshReplica)) = StatusIniting /\
  @HasReady idleEnv (snd (@Ready idleEnv freshReplica)) = false.
Proof.
  split; [reflexivity |].
  destruct (@Init_is_requested_once idleEnv freshReplica eq_refl)
    as (P1 & _ & P3 & _ & P5).
  split; [exact P1 |]. split; [exact P3 | exact P5].
Defined.


End ReplicaMoreExamples.

(** ** Channel placement: creating, fetching and proposing *)

Section PlacementMore.
Import GoInt Placement.
Implicit Types (s : Server) (env : GroupEnv) (g : Group) (st : Storage)
  (cfg : ChannelClusterConfig).

Lemma pickReplicas_spec self maxCount nodes acc :
  pickReplicas self maxCount nodes acc =
  acc ++ take (Nat.max 1 (N.to_nat maxCount - length acc))
           (List.filter (fun id => negb (id =? self)%N) nodes).
Proof.
  revert acc. induction nodes as [| id rest IH]; intros acc; cbn [pickReplicas List.filter].
  - rewrite take_nil, app_nil_r. reflexivity.
  - destruct (id =? self)%N; cbn [negb]; [apply IH |].
    rewrite length_app. cbn [length].
    destruct (Z.of_nat (length acc + 1) >=? Z.of_N maxCount) eqn:Hge.
    + rewrite Z.geb_leb in Hge. apply Z.leb_le in Hge.
      replace (Nat.max 1 (N.to_nat maxCount - length acc)) with 1%nat by lia.
      reflexivity.
    + rewrite Z.geb_leb in Hge. apply Z.leb_gt in Hge.
      rewrite IH, length_app. cbn [length].
      replace (Nat.max 1 (N.to_nat maxCount - length acc))
        with (Datatypes.S (Nat.max 1 (N.to_nat maxCount - (length acc + 1)))) by lia.
      cbn [take]. rewrite <- app_assoc. reflexivity.
Qed.

(** X14. The placement [createChannelClusterInfo] makes: the current node
    first, then the first vote nodes of the shuffled list that are not the
    current node, [ChannelMaxReplicaCount - 1] of them and at least one. It
    names no leader, and carries the last term of the local storage. *)
Theorem created_placement_replicas s env id ty cfg :
  createChannelClusterInfo s env id ty = Ok cfg ->
  Replicas cfg =
    NodeID (opts s)
    :: take (Nat.max 1 (N.to_nat (ChannelMaxReplicaCount (opts s)) - 1))
         (List.filter (fun n => negb (n =? NodeID (opts s))%N)
            (shuffle env (allowVoteNodes env))) /\
  LeaderId cfg = 0%N /\
  ReplicaCount cfg = ChannelMaxReplicaCount (opts s) /\
  leaderLastTerm env (ChannelKey s id ty) = Ok (Term cfg) /\
  ChannelID cfg = id /\ ChannelType cfg = ty.
Proof.
  unfold createChannelClusterInfo. intros Hc.
  destruct (leaderLastTerm env (ChannelKey s id ty)) as [lastTerm | e]; [| discriminate].
  inversion Hc; subst; clear Hc. cbn.
  rewrite pickReplicas_spec. repeat split.
Qed.

Lemma NoDup_filter_take (p : N -> bool) n (l : list N) :
  NoDup l -> NoDup (take n (List.filter p l)).
Proof.
  intros Hnd. eapply sublist_NoDup; [| apply sublist_take].
  induction Hnd as [| x l Hx Hnd IH]; cbn; [constructor |].
  destruct (p x); [| exact IH]. constructor; [| exact IH].
  intros Hin. apply Hx. apply list_elem_of_In in Hin.
  apply List.filter_In in Hin as [Hin _]. apply list_elem_of_In. exact Hin.
Qed.

(** X15. With vote nodes that are distinct and a shuffle that permutes
    them, the placement [createChannelClusterInfo] makes has no replica
    twice, every replica is the current node or a vote node, and there are
    at most [ChannelMaxReplicaCount] of them, or two when
    [ChannelMaxReplicaCount] is below two. *)
Theorem created_placement_wellformed s env id ty cfg :
  NoDup (allowVoteNodes env) ->
  shuffle env (allowVoteNodes env) ≡ₚ allowVoteNodes env ->
  createChannelClusterInfo s env id ty = Ok cfg ->
  NoDup (Replicas cfg) /\
  (forall r, r ∈ Replicas cfg -> r = NodeID (opts s) \/ r ∈ allowVoteNodes env) /\
  (length (Replicas cfg) <= Nat.max 2 (N.to_nat (ChannelMaxReplicaCount (opts s))))%nat.
Proof.
  intros Hnd Hperm Hc. unfold createChannelClusterInfo in Hc.
  destruct (leaderLastTerm env (ChannelKey s id ty)) as [lastTerm | e]; [| discriminate].
  inversion Hc; subst; clear Hc. cbn. rewrite pickReplicas_spec. cbn.
  set (others := List.filter _ _).
  assert (Hin : forall r, r ∈ others -> r <> NodeID (opts s) /\ r ∈ allowVoteNodes env).
  { intros r Hr. apply list_elem_of_In in Hr. apply List.filter_In in Hr as [Hr Hne].
    split.
    - intros ->. rewrite N.eqb_refl in Hne. discriminate.
    - rewrite <- Hperm. apply list_elem_of_In. exact Hr. }
  split; [| split].
  - constructor.
    + intros Hr. apply elem_of_take in Hr as (i & Hr & _).
      apply list_elem_of_lookup_2 in Hr. apply Hin in Hr as [Hr _]. apply Hr. reflexivity.
    + apply NoDup_filter_take. rewrite Hperm. exact Hnd.
  - intros r Hr. apply elem_of_cons in Hr as [-> | Hr]; [left; reflexivity | right].
    apply elem_of_take in Hr as (i & Hr & _).
    apply list_elem_of_lookup_2 in Hr. apply Hin in Hr as [_ Hr]. exact Hr.
  - rewrite length_take. lia.
Qed.

Lemma lastLogInfos_loop_inv s shardNo replicas m m' k v :
  lastLogInfos_loop s shardNo replicas m = Ok m' ->
  m' !! k = Some v ->
  m !! k = Some v \/
  (In k replicas /\ nodeIsOnline s k = true /\
   (if (k =? NodeID (opts s))%N
    then LastIndex s shardNo = Ok (LogIndex v)
    else nodeClient s k = true /\ requestChannelLastLogInfo s k = Ok v)).
Proof.
  revert m. induction replicas as [| rid rest IH]; intros m Hloop Hk; cbn in Hloop.
  - inversion Hloop; subst. left. exact Hk.
  - assert (Hrest : forall m0, lastLogInfos_loop s shardNo rest m0 = Ok m' ->
              m0 !! k = Some v \/
              (In k (rid :: rest) /\ nodeIsOnline s k = true /\
               (if (k =? NodeID (opts s))%N
                then LastIndex s shardNo = Ok (LogIndex v)
                else nodeClient s k = true /\ requestChannelLastLogInfo s k = Ok v))).
    { intros m0 H0. destruct (IH m0 H0 Hk) as [H1 | (H1 & H2)]; [left; exact H1 |].
      right. split; [right; exact H1 | exact H2]. }
    destruct (nodeIsOnline s rid) eqn:Hon; cbn in Hloop; [| exact (Hrest m Hloop)].
    destruct (rid =? NodeID (opts s))%N eqn:Hself.
    + destruct (LastIndex s shardNo) as [idx | e] eqn:Hidx; [| discriminate].
      destruct (Hrest _ Hloop) as [H1 | H1]; [| right; exact H1].
      destruct (N.eq_dec k rid) as [-> | Hne].
      * rewrite lookup_insert_eq in H1. inversion H1; subst.
        right. split; [left; reflexivity |]. split; [exact Hon |].
        rewrite Hself. reflexivity.
      * rewrite lookup_insert_ne in H1 by congruence. left. exact H1.
    + destruct (nodeClient s rid) eqn:Hcl; cbn in Hloop; [| exact (Hrest m Hloop)].
      destruct (requestChannelLastLogInfo s rid) as [resp | e] eqn:Hresp;
        [| exact (Hrest m Hloop)].
      destruct (Hrest _ Hloop) as [H1 | H1]; [| right; exact H1].
      destruct (N.eq_dec k rid) as [-> | Hne].
      * rewrite lookup_insert_eq in H1. inversion H1; subst.
        right. split; [left; reflexivity |]. split; [exact Hon |].
        rewrite Hself. split; [exact Hcl | exact Hresp].
      * rewrite lookup_insert_ne in H1 by congruence. left. exact H1.
Qed.

(** X16. Every entry of the map [requestChannelLastLogInfos] returns
    belongs to a replica of the placement that is reported online. The
    entry of the current node holds the last index of the local log; the
    entry of any other node is what that node answered. *)
Theorem last_log_infos_come_from_online_replicas s cfg m k v :
  requestChannelLastLogInfos s cfg = Ok m ->
  m !! k = Some v ->
  In k (Replicas cfg) /\
  nodeIsOnline s k = true /\
  (if (k =? NodeID (opts s))%N
   then LastIndex s (ChannelKey s (ChannelID cfg) (ChannelType cfg)) = Ok (LogIndex v)
   else nodeClient s k = true /\ requestChannelLastLogInfo s k = Ok v).
Proof.
  unfold requestChannelLastLogInfos. intros Hreq Hk.
  destruct (lastLogInfos_loop_inv _ _ _ _ _ _ _ Hreq Hk) as [H0 | H1]; [| exact H1].
  rewrite lookup_empty in H0. discriminate.
Qed.

Lemma Save_spec id ty cfg st e st' :
  Save id ty cfg st = (e, st') ->
  match e with
  | Some _ => st' = st
  | None => configs st' = <[(id, ty) := cfg]> (configs st) /\
            saveErr st' = saveErr st /\ deleteErr st' = deleteErr st
  end.
Proof.
  unfold Save. destruct (saveErr st) eqn:Hs; intros Heq; inversion Heq; subst; cbn; auto.
Qed.

Lemma needElection_false s cfg sl :
  slot s (getChannelSlotId s (ChannelID cfg)) = Some sl ->
  slot_Leader sl = NodeID (opts s) ->
  needElection s cfg = (false, None) ->
  LeaderId cfg <> 0%N.
Proof.
  unfold needElection. intros -> -> Hn. rewrite N.eqb_refl in Hn. cbn in Hn.
  destruct (LeaderId cfg =? 0)%N eqn:E; cbn in Hn; [discriminate |].
  apply N.eqb_neq. exact E.
Qed.

(** What [electionIfNeed] has done when it reports no error. *)
Lemma electionIfNeed_ok s st ch ch' st' :
  electionIfNeed s st ch = Ret (None, ch', st') ->
  exists cfg cfg',
    clusterConfig ch = Some cfg /\ clusterConfig ch' = Some cfg' /\
    ChannelID cfg' = ChannelID cfg /\ ChannelType cfg' = ChannelType cfg /\
    Replicas cfg' = Replicas cfg /\
    ((needElection s cfg = (false, None) /\ ch' = ch /\ st' = st /\ cfg' = cfg) \/
     (needElection s cfg = (true, None) /\ LeaderId cfg' <> 0%N /\
      leaderId ch' = LeaderId cfg' /\
      Term cfg' = u32_incr (Term cfg) /\
      configs st' = <[(ChannelID cfg, ChannelType cfg) := cfg']> (configs st))).
Proof.
  unfold electionIfNeed. intros He.
  destruct (clusterConfig ch) as [cfg |] eqn:Hcfg; [| discriminate].
  destruct (needElection s cfg) as [[|] [e |]] eqn:Hn; try discriminate.
  - destruct (checkOnlineReplicaCount s cfg); cbn in He; [| discriminate].
    destruct (requestChannelLastLogInfos s cfg) as [m | e]; [| discriminate].
    destruct (Z.of_nat (size m) <? quorum s); [discriminate |].
    destruct (channelLeaderIDByLogInfo s m) as [l |]; [| discriminate].
    destruct (l =? 0)%N eqn:El; [discriminate |].
    cbv zeta in He.
    destruct (Save _ _ _ st) as [[e |] st1] eqn:Hsave; [discriminate |].
    apply Save_spec in Hsave as (Hc & _ & _).
    inversion He; subst; clear He.
    exists cfg, (elected l cfg). cbn. repeat split; try reflexivity.
    right. split; [exact Hn |]. split; [apply N.eqb_neq; exact El |].
    split; [reflexivity |]. split; [reflexivity | exact Hc].
  - inversion He; subst; clear He. exists cfg, cfg.
    split; [reflexivity |]. split; [exact Hcfg |].
    split; [reflexivity |]. split; [reflexivity |]. split; [reflexivity |].
    left. split; [exact Hn |]. repeat split.
Qed.

(** X17. [electionIfNeed] writes the placement store only when it reports
    no error: with an error, and with a nil-pointer stop excluded, the
    store is exactly as it was. Without an error the store is as it was, or
    the placement with a leader that is not 0 and the next term has been
    saved under the channel's key. *)
Theorem election_writes_store_only_on_success s st ch err ch' st' :
  electionIfNeed s st ch = Ret (err, ch', st') ->
  match err with
  | Some _ => st' = st
  | None =>
      st' = st \/
      exists cfg cfg',
        clusterConfig ch = Some cfg /\ clusterConfig ch' = Some cfg' /\
        LeaderId cfg' <> 0%N /\ Term cfg' = u32_incr (Term cfg) /\
        configs st' = <[(ChannelID cfg, ChannelType cfg) := cfg']> (configs st)
  end.
Proof.
  intros He. destruct err as [e |].
  - unfold electionIfNeed in He.
    destruct (clusterConfig ch) as [cfg |]; [| inversion He; reflexivity].
    destruct (needElection s cfg) as [[|] [e' |]]; try (inversion He; reflexivity).
    destruct (checkOnlineReplicaCount s cfg); cbn in He; [| inversion He; reflexivity].
    destruct (requestChannelLastLogInfos s cfg) as [m | e']; [| inversion He; reflexivity].
    destruct (Z.of_nat (size m) <? quorum s); [inversion He; reflexivity |].
    destruct (channelLeaderIDByLogInfo s m) as [l |]; [| discriminate].
    destruct (l =? 0)%N; [inversion He; reflexivity |].
    cbv zeta in He.
    destruct (Save _ _ _ st) as [[e' |] st1] eqn:Hsave; [| discriminate].
    apply Save_spec in Hsave. inversion He; subst. reflexivity.
  - apply electionIfNeed_ok in He
      as (cfg & cfg' & Hc & Hc' & _ & _ & _ & [(_ & _ & Hst & _) | (_ & Hl & _ & Ht & Hs)]).
    + left. exact Hst.
    + right. exists cfg, cfg'. repeat split; assumption.
Qed.



Lemma created_under_own_key s env id ty cfg :
  createChannelClusterInfo s env id ty = Ok cfg ->
  ChannelID cfg = id /\ ChannelType cfg = ty.
Proof.
  unfold createChannelClusterInfo.
  destruct (leaderLastTerm env (ChannelKey s id ty)); [| discriminate].
  intros Hc. inversion Hc; subst. split; reflexivity.
Qed.

(** X19. On the node that leads the channel's slot, with every placement
    stored under its own id and type: a fetch that finds the channel not in
    the group and reports no error adds the channel it returns to the
    group, the placement of that channel is the one the store holds, and it
    names a leader. *)
Theorem slot_leader_fetch_agrees_with_store s env id ty g st sl ch g' st' :
  slot s (getChannelSlotId s id) = Some sl ->
  slot_Leader sl = NodeID (opts s) ->
  g !! (id, ty) = None ->
  (forall cfg, configs st !! (id, ty) = Some cfg ->
               ChannelID cfg = id /\ ChannelType cfg = ty) ->
  loadOrCreateChannel s env id ty g st = Ret (Ok ch, g', st') ->
  exists c cfg,
    ch = IChannel c /\ g' = <[(id, ty) := c]> g /\
    clusterConfig c = Some cfg /\ configs st' !! (id, ty) = Some cfg /\
    LeaderId cfg <> 0%N.
Proof.
  intros Hslot Hlead Hg Hkey Hload.
  unfold loadOrCreateChannel in Hload. rewrite Hslot, Hlead, N.eqb_refl in Hload.
  destruct (getChannelForSlotLeader s env id ty g st) as [[[[c | e] g1] st1] |] eqn:Hget;
    try discriminate.
  inversion Hload; subst; clear Hload.
  unfold getChannelForSlotLeader in Hget. rewrite Hg in Hget.
  unfold Get in Hget. destruct (getErr env); [discriminate |].
  remember (match configs st !! (id, ty) with
            | Some cfg => Ok cfg
            | None => createChannelClusterInfo s env id ty
            end) as made eqn:Hmade.
  destruct made as [cc | e]; [| discriminate].
  assert (Hcc : ChannelID cc = id /\ ChannelType cc = ty).
  { destruct (configs st !! (id, ty)) as [cfg0 |] eqn:Hst.
    - inversion Hmade; subst. apply Hkey. reflexivity.
    - symmetry in Hmade. exact (created_under_own_key _ _ _ _ _ Hmade). }
  destruct Hcc as [Hid Hty]. clear Hmade.
  unfold newChannelByClusterInfo in Hget.
  destruct (getAppliedIndex env _) as [a | e]; [| discriminate].
  destruct (newChannel env cc a) as [c0 |]; [| discriminate].
  destruct (Save _ _ cc st) as [[e |] st1] eqn:Hsave; [discriminate |].
  apply Save_spec in Hsave as (Hc1 & _ & _).
  cbv zeta in Hget.
  destruct (electionIfNeed s st1 (updateClusterConfig cc c0))
    as [[[[e |] c1] st2] |] eqn:Hel; try discriminate.
  inversion Hget; subst c1 g' st2; clear Hget.
  apply electionIfNeed_ok in Hel as (cfg & cfg' & Hcfg & Hcfg' & Hi & Ht & _ & Hcase).
  cbn in Hcfg. inversion Hcfg; subst cfg; clear Hcfg.
  exists c, cfg'. split; [reflexivity |]. split; [reflexivity |]. split; [exact Hcfg' |].
  destruct Hcase as [(Hn & _ & Hst & Hcc) | (Hn & Hl & _ & _ & Hc2)].
  - subst st' cfg'. split.
    + rewrite Hc1, Hid, Hty, lookup_insert_eq. reflexivity.
    + eapply needElection_false; [rewrite Hid; exact Hslot | exact Hlead | exact Hn].
  - split; [| exact Hl]. rewrite Hc2, Hid, Hty, lookup_insert_eq. reflexivity.
Qed.

(** X20. On a node that does not lead the slot: when the channel is not in
    the group, the store has no placement for it or one without a leader,
    and the slot leader answers with no placement and no error,
    [getChannelForOthers] stops with a nil-pointer dereference. *)
Theorem others_fetch_without_placement_stops s env id ty g st :
  g !! (id, ty) = None ->
  getErr env = None ->
  match configs st !! (id, ty) with
  | None => True
  | Some cfg => LeaderId cfg = 0%N
  end ->
  requestChannelClusterConfigFromSlotLeader s env id ty = Ok None ->
  getChannelForOthers s env id ty g st = Panic.
Proof.
  intros Hg Hge Hst Hreq. unfold getChannelForOthers, Get. rewrite Hg, Hge.
  destruct (configs st !! (id, ty)) as [cfg |];
    [rewrite Hst, N.eqb_refl |]; rewrite Hreq; reflexivity.
Qed.

(** X21. A fetch through [getChannelForOthers] that finds the channel not
    in the group and reports no error returns the placement the store
    holds for the channel afterwards: the stored one, which names a leader,
    with the store untouched, or the slot leader's answer, saved. The
    current node gets a channel, added to the group, when it is among the
    replicas of that placement, and a proxy, with the group as it was, when
    it is not. *)
Theorem others_fetch_agrees_with_store s env id ty g st ch g' st' :
  g !! (id, ty) = None ->
  getChannelForOthers s env id ty g st = Ret (Ok ch, g', st') ->
  exists cfg,
    placementOf ch = Some cfg /\
    configs st' !! (id, ty) = Some cfg /\
    (st' = st /\ LeaderId cfg <> 0%N \/
     requestChannelClusterConfigFromSlotLeader s env id ty = Ok (Some cfg) /\
     configs st' = <[(id, ty) := cfg]> (configs st)) /\
    match ch with
    | IChannel c =>
        ArrayContainsUint64 (Replicas cfg) (NodeID (opts s)) = true /\
        g' = <[(id, ty) := c]> g
    | IProxy n _ =>
        n = NodeID (opts s) /\
        ArrayContainsUint64 (Replicas cfg) (NodeID (opts s)) = false /\
        g' = g
    end.
Proof.
  intros Hg Hget. unfold getChannelForOthers in Hget. rewrite Hg in Hget.
  unfold Get in Hget. destruct (getErr env); [discriminate |].
  cbv zeta in Hget.
  assert (Hfin : forall cfg st1,
            match
              (if ArrayContainsUint64 (Replicas cfg) (NodeID (opts s))
               then
                 match newChannelByClusterInfo s env cfg with
                 | Ok (Some ch0) =>
                     Ret (Ok (IChannel (updateClusterConfig cfg ch0)),
                          <[(id, ty) := updateClusterConfig cfg ch0]> g, st1)
                 | Ok None => Panic
                 | Err e => Ret (Err e, g, st1)
                 end
               else Ret (Ok (IProxy (NodeID (opts s)) cfg), g, st1))
            with
            | Ret (Ok ch1, g1, st2) =>
                st2 = st1 /\ placementOf ch1 = Some cfg /\
                match ch1 with
                | IChannel c =>
                    ArrayContainsUint64 (Replicas cfg) (NodeID (opts s)) = true /\
                    g1 = <[(id, ty) := c]> g
                | IProxy n _ =>
                    n = NodeID (opts s) /\
                    ArrayContainsUint64 (Replicas cfg) (NodeID (opts s)) = false /\
                    g1 = g
                end
            | _ => True
            end).
  { intros cfg st1.
    destruct (ArrayContainsUint64 (Replicas cfg) (NodeID (opts s))) eqn:Hin.
    - destruct (newChannelByClusterInfo s env cfg) as [[ch0 |] | e]; try exact I.
      repeat split.
    - repeat split. }
  destruct (configs st !! (id, ty)) as [cfg0 |] eqn:Hst.
  - destruct (LeaderId cfg0 =? 0)%N eqn:Hl.
    + destruct (requestChannelClusterConfigFromSlotLeader s env id ty)
        as [[cfg |] | e] eqn:Hreq; try discriminate.
      destruct (Save id ty cfg st) as [[e |] st1] eqn:Hsave; [discriminate |].
      apply Save_spec in Hsave as (Hc1 & _ & _).
      specialize (Hfin cfg st1). rewrite Hget in Hfin.
      destruct Hfin as (-> & Hp & Hm).
      exists cfg. split; [exact Hp |].
      split; [rewrite Hc1, lookup_insert_eq; reflexivity |].
      split; [right; split; [reflexivity | exact Hc1] | exact Hm].
    + specialize (Hfin cfg0 st). rewrite Hget in Hfin.
      destruct Hfin as (-> & Hp & Hm).
      exists cfg0. split; [exact Hp |]. split; [exact Hst |].
      split; [left; split; [reflexivity | apply N.eqb_neq; exact Hl] | exact Hm].
  - destruct (requestChannelClusterConfigFromSlotLeader s env id ty)
      as [[cfg |] | e] eqn:Hreq; try discriminate.
    destruct (Save id ty cfg st) as [[e |] st1] eqn:Hsave; [discriminate |].
    apply Save_spec in Hsave as (Hc1 & _ & _).
    specialize (Hfin cfg st1). rewrite Hget in Hfin.
    destruct Hfin as (-> & Hp & Hm).
    exists cfg. split; [exact Hp |].
    split; [rewrite Hc1, lookup_insert_eq; reflexivity |].
    split; [right; split; [reflexivity | exact Hc1] | exact Hm].
Qed.

(** X22. [loadOnlyReadChannel], for a channel that is not in the group and
    with no error reported, returns a proxy of the current node that
    carries the placement the store holds for the channel afterwards. The
    store is written only on a node that does not lead the slot, and then
    with the slot leader's answer. *)
Theorem read_only_load_agrees_with_store s env id ty g st ch st' :
  g !! (id, ty) = None ->
  loadOnlyReadChannel s env id ty g st = (Ok ch, st') ->
  exists cfg,
    ch = IProxy (NodeID (opts s)) cfg /\
    configs st' !! (id, ty) = Some cfg /\
    (st' = st \/
     (exists sl, slot s (getChannelSlotId s id) = Some sl /\
                 slot_Leader sl <> NodeID (opts s)) /\
     requestChannelClusterConfigFromSlotLeader s env id ty = Ok (Some cfg) /\
     configs st' = <[(id, ty) := cfg]> (configs st)).
Proof.
  intros Hg Hload. unfold loadOnlyReadChannel in Hload. rewrite Hg in Hload.
  destruct (slot s (getChannelSlotId s id)) as [sl |] eqn:Hslot; [| discriminate].
  unfold Get in Hload. destruct (getErr env); [discriminate |].
  cbv zeta in Hload.
  destruct (slot_Leader sl =? NodeID (opts s))%N eqn:Hlead.
  - destruct (configs st !! (id, ty)) as [cfg |] eqn:Hst; [| discriminate].
    inversion Hload; subst. exists cfg.
    split; [reflexivity |]. split; [exact Hst | left; reflexivity].
  - destruct (configs st !! (id, ty)) as [cfg |] eqn:Hst.
    + inversion Hload; subst. exists cfg.
      split; [reflexivity |]. split; [exact Hst | left; reflexivity].
    + destruct (requestChannelClusterConfigFromSlotLeader s env id ty)
        as [[cfg |] | e] eqn:Hreq; try discriminate.
      destruct (Save id ty cfg st) as [[e |] st1] eqn:Hsave; [discriminate |].
      apply Save_spec in Hsave as (Hc1 & _ & _).
      inversion Hload; subst. exists cfg.
      split; [reflexivity |].
      split; [rewrite Hc1, lookup_insert_eq; reflexivity |].
      right. split; [| split; [reflexivity | exact Hc1]].
      exists sl. split; [reflexivity | apply N.eqb_neq; exact Hlead].
Qed.

End PlacementMore.

Section PlacementMoreExamples.
Import GoInt Placement.

Lemma created_placement_replicas_witness :
  createChannelClusterInfo (server1 true) groupEnv1 "t" 2 = Ok createdConfig /\
  Replicas createdConfig = [1; 3; 2]%N /\
  LeaderId createdConfig = 0%N.
Proof.
  assert (E : createChannelClusterInfo (server1 true) groupEnv1 "t" 2 = Ok createdConfig)
    by reflexivity.
  split; [exact E |].
  destruct (created_placement_replicas _ _ _ _ _ E) as (H1 & H2 & _).
  split; [exact H1 | exact H2].
Defined.

Lemma created_placement_wellformed_witness :
  NoDup (allowVoteNodes groupEnv1) /\
  shuffle groupEnv1 (allowVoteNodes groupEnv1) ≡ₚ allowVoteNodes groupEnv1 /\
  NoDup (Replicas createdConfig) /\
  (length (Replicas createdConfig) <= 3)%nat.
Proof.
  assert (Hnd : NoDup (allowVoteNodes groupEnv1)).
  { apply (bool_decide_unpack _). vm_compute. exact I. }
  assert (Hperm : shuffle groupEnv1 (allowVoteNodes groupEnv1) ≡ₚ allowVoteNodes groupEnv1).
  { symmetry. apply Permutation_rev. }
  assert (E : createChannelClusterInfo (server1 true) groupEnv1 "t" 2 = Ok createdConfig)
    by reflexivity.
  split; [exact Hnd |]. split; [exact Hperm |].
  destruct (created_placement_wellformed _ _ _ _ _ Hnd Hperm E) as (H1 & _ & H3).
  split; [exact H1 | exact H3].
Defined.

Lemma last_log_infos_come_from_online_replicas_witness :
  requestChannelLastLogInfos (server1 true) freshConfig = Ok responses3 /\
  responses3 !! 2%N = Some (mkLogInfo 9) /\
  In 2%N (Replicas freshConfig) /\
  requestChannelLastLogInfo (server1 true) 2 = Ok (mkLogInfo 9).
Proof.
  assert (E : requestChannelLastLogInfos (server1 true) freshConfig = Ok responses3)
    by (vm_compute; reflexivity).
  assert (E2 : responses3 !! 2%N = Some (mkLogInfo 9)) by (vm_compute; reflexivity).
  split; [exact E |]. split; [exact E2 |].
  destruct (last_log_infos_come_from_online_replicas _ _ _ _ _ E E2) as (H1 & _ & H3).
  split; [exact H1 |]. exact (proj2 H3).
Defined.

Lemma election_writes_store_only_on_success_witness :
  electionIfNeed (server1 true) (storeOf createdConfig) (mkChannel (Some createdConfig) 0)
    = Ret (None, mkChannel (Some electedConfig) 2, storeOf electedConfig) /\
  (storeOf electedConfig = storeOf createdConfig \/
   exists cfg cfg',
     Some createdConfig = Some cfg /\ Some electedConfig = Some cfg' /\
     LeaderId cfg' <> 0%N /\ Term cfg' = u32_incr (Term cfg) /\
     configs (storeOf electedConfig)
       = <[(ChannelID cfg, ChannelType cfg) := cfg']> (configs (storeOf createdConfig))).
Proof.
  assert (E : electionIfNeed (server1 true) (storeOf createdConfig)
                (mkChannel (Some createdConfig) 0)
              = Ret (None, mkChannel (Some electedConfig) 2, storeOf electedConfig))
    by (vm_compute; reflexivity).
  split; [exact E |].
  exact (election_writes_store_only_on_success _ _ _ _ _ _ E).
Defined.


Lemma slot_leader_fetch_agrees_with_store_witness :
  loadOrCreateChannel (server1 true) groupEnv1 "t" 2 ∅ emptyStore
    = Ret (Ok (IChannel (mkChannel (Some electedConfig) 2)),
           <[("t", 2) := mkChannel (Some electedConfig) 2]> ∅,
           storeOf electedConfig) /\
  exists c cfg,
    IChannel (mkChannel (Some electedConfig) 2) = IChannel c /\
    clusterConfig c = Some cfg /\
    configs (storeOf electedConfig) !! ("t", 2) = Some cfg /\
    LeaderId cfg <> 0%N.
Proof.
  assert (E : loadOrCreateChannel (server1 true) groupEnv1 "t" 2 ∅ emptyStore
              = Ret (Ok (IChannel (mkChannel (Some electedConfig) 2)),
                     <[("t", 2) := mkChannel (Some electedConfig) 2]> ∅,
                     storeOf electedConfig))
    by (vm_compute; reflexivity).
  split; [exact E |].
  assert (Hkey : forall cfg, configs emptyStore !! ("t", 2) = Some cfg ->
                             ChannelID cfg = "t" /\ ChannelType cfg = 2).
  { intros cfg Hc. unfold emptyStore in Hc. cbn [configs] in Hc.
    rewrite lookup_empty in Hc. discriminate Hc. }
  destruct (slot_leader_fetch_agrees_with_store (server1 true) groupEnv1 "t" 2 ∅
              emptyStore (mkSlot 1) _ _ _ eq_refl eq_refl (lookup_empty _) Hkey E)
    as (c & cfg & H1 & _ & H3 & H4 & H5).
  exists c, cfg. repeat split; assumption.
Defined.

Lemma others_fetch_without_placement_stops_witness :
  requestChannelClusterConfigFromSlotLeader server2 groupEnv1 "t" 2 = Ok None /\
  getChannelForOthers server2 groupEnv1 "t" 2 ∅ emptyStore = Panic.
Proof.
  split; [reflexivity |].
  apply (others_fetch_without_placement_stops server2 groupEnv1 "t" 2 ∅ emptyStore).
  - apply lookup_empty.
  - reflexivity.
  - unfold emptyStore. cbn [configs]. rewrite lookup_empty. exact I.
  - reflexivity.
Defined.

Lemma others_fetch_agrees_with_store_witness :
  getChannelForOthers server2 groupEnv2 "t" 2 ∅ emptyStore
    = Ret (Ok (IChannel (mkChannel (Some ledConfig) 1)),
           <[("t", 2) := mkChannel (Some ledConfig) 1]> ∅,
           storeOf ledConfig) /\
  exists cfg,
    placementOf (IChannel (mkChannel (Some ledConfig) 1)) = Some cfg /\
    configs (storeOf ledConfig) !! ("t", 2) = Some cfg.
Proof.
  assert (E : getChannelForOthers server2 groupEnv2 "t" 2 ∅ emptyStore
              = Ret (Ok (IChannel (mkChannel (Some ledConfig) 1)),
                     <[("t", 2) := mkChannel (Some ledConfig) 1]> ∅,
                     storeOf ledConfig))
    by (vm_compute; reflexivity).
  split; [exact E |].
  destruct (others_fetch_agrees_with_store server2 groupEnv2 "t" 2 ∅ emptyStore
              _ _ _ (lookup_empty _) E) as (cfg & H1 & H2 & _).
  exists cfg. split; assumption.
Defined.

Lemma read_only_load_agrees_with_store_witness :
  loadOnlyReadChannel server2 groupEnv2 "t" 2 ∅ emptyStore
    = (Ok (IProxy 2 ledConfig), storeOf ledConfig) /\
  exists cfg,
    IProxy 2 ledConfig = IProxy (NodeID (opts server2)) cfg /\
    configs (storeOf ledConfig) !! ("t", 2) = Some cfg.
Proof.
  assert (E : loadOnlyReadChannel server2 groupEnv2 "t" 2 ∅ emptyStore
              = (Ok (IProxy 2 ledConfig), storeOf ledConfig))
    by (vm_compute; reflexivity).
  split; [exact E |].
  destruct (read_only_load_agrees_with_store server2 groupEnv2 "t" 2 ∅ emptyStore
              _ _ (lookup_empty _) E) as (cfg & H1 & H2 & _).
  exists cfg. split; assumption.
Defined.

End PlacementMoreExamples.

(** ** The cluster configuration: look-ups, slots and start-up *)

Section ClusterEventMore.
Import GoInt ClusterEvent.
Implicit Types (c : ClusterEventManager) (nodes : list Node) (slots : list Slot).

Lemma find_updateFirst id id' (f : Node -> Node) nodes :
  (forall n, Id (f n) = Id n) ->
  List.find (fun node => (Id node =? id')%N) (updateFirst id f nodes) =
  if (id' =? id)%N
  then f <$> List.find (fun node => (Id node =? id)%N) nodes
  else List.find (fun node => (Id node =? id')%N) nodes.
Proof.
  intros Hf. induction nodes as [| n rest IH]; cbn.
  - destruct (id' =? id)%N; reflexivity.
  - destruct (N.eqb_spec (Id n) id) as [E | E]; cbn.
    + rewrite Hf. destruct (N.eqb_spec id' id) as [E' | E'].
      * rewrite E, E', N.eqb_refl. reflexivity.
      * destruct (N.eqb_spec (Id n) id') as [E2 | E2]; [| reflexivity].
        exfalso. apply E'. rewrite <- E2. exact E.
    + destruct (N.eqb_spec (Id n) id') as [E2 | E2]; [| exact IH].
      destruct (N.eqb_spec id' id) as [E' | E']; [| reflexivity].
      exfalso. apply E. rewrite E2. exact E'.
Qed.

Lemma updateFirst_length id (f : Node -> Node) nodes :
  length (updateFirst id f nodes) = length nodes.
Proof.
  induction nodes as [| n rest IH]; cbn; [reflexivity |].
  destruct (Id n =? id)%N; cbn; congruence.
Qed.

Lemma updateFirst_ids id (f : Node -> Node) nodes :
  (forall n, Id (f n) = Id n) ->
  Id <$> updateFirst id f nodes = Id <$> nodes.
Proof.
  intros Hf. induction nodes as [| n rest IH]; cbn; [reflexivity |].
  destruct (Id n =? id)%N; cbn; [rewrite Hf | rewrite IH]; reflexivity.
Qed.

(** X23. [SetNodeOnlineNoSave] followed by [NodeIsOnline]: the node asked
    about has the new state when it is the node that was set and the
    configuration knows it; every other answer is as before, and so is the
    answer for a node the configuration does not know (false). *)
Theorem NodeIsOnline_after_SetNodeOnlineNoSave nodeID online id' c :
  NodeIsOnline id' (SetNodeOnlineNoSave nodeID online c) =
  if (id' =? nodeID)%N
  then match GetNode nodeID c with Some _ => online | None => false end
  else NodeIsOnline id' c.
Proof.
  unfold NodeIsOnline, SetNodeOnlineNoSave, GetNode, set_nodes, set_clusterconfig. cbn.
  rewrite updateFirst_length.
  destruct (Nodes (clusterconfig c)) as [| n rest] eqn:En.
  - cbn. destruct (id' =? nodeID)%N; reflexivity.
  - change (length (n :: rest) =? 0)%nat with false. cbv iota.
    rewrite find_updateFirst by (intros n0; destruct online; reflexivity).
    destruct (id' =? nodeID)%N; [| reflexivity].
    destruct (List.find _ (n :: rest)) as [n1 |]; [| reflexivity].
    cbn. destruct online; reflexivity.
Qed.

(** X24. Setting a known node offline adds one to its [DataTerm] (counted
    as a [uint32]); setting it online leaves the [DataTerm] alone; the
    [DataTerm] of every other node is as before. Neither touches the
    version, the file or the slots. *)
Theorem DataTerm_counts_offline_transitions nodeID online id' c :
  GetDataTerm id' (SetNodeOnlineNoSave nodeID online c) =
    (if (id' =? nodeID)%N && negb online
     then match GetNode nodeID c with
          | Some n => u32_incr (DataTerm n)
          | None => 0
          end
     else GetDataTerm id' c) /\
  Version (clusterconfig (SetNodeOnlineNoSave nodeID online c)) = Version (clusterconfig c) /\
  Slots (clusterconfig (SetNodeOnlineNoSave nodeID online c)) = Slots (clusterconfig c) /\
  file (SetNodeOnlineNoSave nodeID online c) = file c /\
  writes (SetNodeOnlineNoSave nodeID online c) = writes c.
Proof.
  split; [| repeat split].
  unfold GetDataTerm, SetNodeOnlineNoSave, GetNode, set_nodes, set_clusterconfig. cbn.
  rewrite find_updateFirst by (intros n0; destruct online; reflexivity).
  destruct (id' =? nodeID)%N eqn:E; cbn; [| reflexivity].
  apply N.eqb_eq in E. subst id'.
  destruct (List.find _ (Nodes (clusterconfig c))) as [n1 |]; cbn;
    destruct online; reflexivity.
Qed.

Lemma filter_Online_updateFirst_offline id nodes :
  NoDup (Id <$> nodes) ->
  id ∉ Id <$> List.filter Online (updateFirst id (setOnline false) nodes).
Proof.
  induction nodes as [| n rest IH]; cbn; intros Hnd.
  - apply not_elem_of_nil.
  - apply NoDup_cons in Hnd as [Hn Hnd].
    destruct (Id n =? id)%N eqn:E; cbn.
    + apply N.eqb_eq in E. subst id. intros Hin. apply Hn.
      apply list_elem_of_fmap in Hin as (m & -> & Hm).
      apply list_elem_of_fmap. exists m. split; [reflexivity |].
      apply list_elem_of_In in Hm. apply List.filter_In in Hm as [Hm _].
      apply list_elem_of_In. exact Hm.
    + destruct (Online n); cbn; [| exact (IH Hnd)].
      apply not_elem_of_cons. split; [| exact (IH Hnd)].
      intros ->. rewrite N.eqb_refl in E. discriminate.
Qed.

(** X25. With node ids that are unique, a node that was set offline is not
    among the nodes [GetAllOnlineNode] returns. *)
Theorem offline_node_is_not_listed_online nodeID c :
  NoDup (Id <$> Nodes (clusterconfig c)) ->
  nodeID ∉ Id <$> GetAllOnlineNode (SetNodeOnlineNoSave nodeID false c).
Proof.
  intros Hnd.
  unfold GetAllOnlineNode, SetNodeOnlineNoSave, set_nodes, set_clusterconfig. cbn.
  destruct (length _ =? 0)%nat; [apply not_elem_of_nil |].
  apply (filter_Online_updateFirst_offline nodeID _ Hnd).
Qed.

Lemma find_replaceAll (slot : Slot) id' slots :
  List.find (fun s => (slot_Id s =? id')%N)
    ((fun st => if (slot_Id st =? slot_Id slot)%N then slot else st) <$> slots) =
  if (id' =? slot_Id slot)%N
  then (if existsb (fun st => (slot_Id st =? slot_Id slot)%N) slots
        then Some slot else None)
  else List.find (fun s => (slot_Id s =? id')%N) slots.
Proof.
  induction slots as [| st rest IH]; cbn.
  - destruct (id' =? slot_Id slot)%N; reflexivity.
  - destruct (N.eqb_spec (slot_Id st) (slot_Id slot)) as [E | E]; cbn.
    + destruct (N.eqb_spec id' (slot_Id slot)) as [E' | E'].
      * rewrite E', N.eqb_refl. reflexivity.
      * destruct (N.eqb_spec (slot_Id slot) id') as [E2 | E2];
          [exfalso; apply E'; symmetry; exact E2 |].
        destruct (N.eqb_spec (slot_Id st) id') as [E3 | E3];
          [exfalso; apply E'; rewrite <- E3; exact E |].
        exact IH.
    + destruct (N.eqb_spec (slot_Id st) id') as [E2 | E2]; [| exact IH].
      destruct (N.eqb_spec id' (slot_Id slot)) as [E' | E']; [| reflexivity].
      exfalso. apply E. rewrite E2. exact E'.
Qed.

Lemma find_app_Slot (p : Slot -> bool) slots slots' :
  List.find p (slots ++ slots') =
  match List.find p slots with Some s => Some s | None => List.find p slots' end.
Proof.
  induction slots as [| st rest IH]; cbn; [reflexivity |].
  destruct (p st); [reflexivity | exact IH].
Qed.

(** X26. [AddOrUpdateSlotNoSave] followed by [GetSlot]: the slot's id now
    yields the slot that was passed in, every other id what it yielded
    before. The number of slots grows by one exactly when the id was new,
    and nodes, version and file are as before. *)
Theorem GetSlot_after_AddOrUpdateSlotNoSave slot id' c :
  GetSlot id' (AddOrUpdateSlotNoSave slot c) =
    (if (id' =? slot_Id slot)%N then Some slot else GetSlot id' c) /\
  length (GetSlots (AddOrUpdateSlotNoSave slot c)) =
    (match GetSlot (slot_Id slot) c with
     | Some _ => length (GetSlots c)
     | None => Datatypes.S (length (GetSlots c))
     end) /\
  Nodes (clusterconfig (AddOrUpdateSlotNoSave slot c)) = Nodes (clusterconfig c) /\
  Version (clusterconfig (AddOrUpdateSlotNoSave slot c)) = Version (clusterconfig c) /\
  file (AddOrUpdateSlotNoSave slot c) = file c.
Proof.
  unfold GetSlot, GetSlots, AddOrUpdateSlotNoSave, set_slots, set_clusterconfig.
  set (slots := Slots (clusterconfig c)).
  assert (Hex : existsb (fun st => (slot_Id st =? slot_Id slot)%N) slots =
                match List.find (fun s => (slot_Id s =? slot_Id slot)%N) slots with
                | Some _ => true | None => false end).
  { clear. induction slots as [| st rest IH]; cbn; [reflexivity |].
    destruct (slot_Id st =? slot_Id slot)%N; [reflexivity | exact IH]. }
  destruct (existsb _ slots) eqn:Ee; cbn.
  - rewrite find_replaceAll, Ee, length_fmap.
    destruct (List.find _ slots); [| discriminate].
    repeat split.
  - rewrite find_app_Slot, find_replaceAll, Ee, length_app, length_fmap. cbn.
    destruct (List.find (fun s => (slot_Id s =? slot_Id slot)%N) slots); [discriminate |].
    split; [| repeat split; lia].
    destruct (id' =? slot_Id slot)%N eqn:E.
    + rewrite N.eqb_sym, E. reflexivity.
    + rewrite N.eqb_sym, E. destruct (List.find _ slots); reflexivity.
Qed.

Lemma find_updateFirstSlot id id' (f : Slot -> Slot) slots :
  (forall s, slot_Id (f s) = slot_Id s) ->
  List.find (fun s => (slot_Id s =? id')%N) (updateFirstSlot id f slots) =
  if (id' =? id)%N
  then f <$> List.find (fun s => (slot_Id s =? id)%N) slots
  else List.find (fun s => (slot_Id s =? id')%N) slots.
Proof.
  intros Hf. induction slots as [| n rest IH]; cbn.
  - destruct (id' =? id)%N; reflexivity.
  - destruct (N.eqb_spec (slot_Id n) id) as [E | E]; cbn.
    + rewrite Hf. destruct (N.eqb_spec id' id) as [E' | E'].
      * rewrite E, E', N.eqb_refl. reflexivity.
      * destruct (N.eqb_spec (slot_Id n) id') as [E2 | E2]; [| reflexivity].
        exfalso. apply E'. rewrite <- E2. exact E.
    + destruct (N.eqb_spec (slot_Id n) id') as [E2 | E2]; [| exact IH].
      destruct (N.eqb_spec id' id) as [E' | E']; [| reflexivity].
      exfalso. apply E. rewrite E2. exact E'.
Qed.

(** X27. [UpdateSlotLeaderNoSave] followed by [getSlotLeaderID]: a known
    slot has the new leader, an unknown one still has none (0), every other
    slot the leader it had; the replicas of every slot are as before. *)
Theorem getSlotLeaderID_after_UpdateSlotLeaderNoSave slotID leaderID id' c :
  getSlotLeaderID id' (UpdateSlotLeaderNoSave slotID leaderID c) =
    (if (id' =? slotID)%N
     then match GetSlot slotID c with Some _ => leaderID | None => 0%N end
     else getSlotLeaderID id' c) /\
  getSlotReplicas id' (UpdateSlotLeaderNoSave slotID leaderID c) = getSlotReplicas id' c.
Proof.
  unfold getSlotLeaderID, getSlotReplicas, GetSlot, UpdateSlotLeaderNoSave, set_slots,
    set_clusterconfig. cbn.
  rewrite find_updateFirstSlot by reflexivity.
  destruct (id' =? slotID)%N eqn:E; [| split; reflexivity].
  apply N.eqb_eq in E. subst id'.
  destruct (List.find _ (Slots (clusterconfig c))); split; reflexivity.
Qed.

(** X28. [UpdateNode] takes over the [ApiAddr] of the node passed in and
    nothing else of it: ids, online flags and data terms are as before.
    The version goes up by one (as a [uint32]) whether or not the
    configuration knows the node. *)
Theorem UpdateNode_takes_ApiAddr_only n fsOk id' c :
  GetNode id' (UpdateNode n fsOk c) =
    (if (id' =? Id n)%N
     then (fun node => mkNode (Id node) (ClusterAddr node) (ApiAddr n) (Online node)
                         (AllowVote node) (DataTerm node) (OfflineCount node))
            <$> GetNode (Id n) c
     else GetNode id' c) /\
  NodeIsOnline id' (UpdateNode n fsOk c) = NodeIsOnline id' c /\
  GetDataTerm id' (UpdateNode n fsOk c) = GetDataTerm id' c /\
  Version (clusterconfig (UpdateNode n fsOk c)) = u32_incr (Version (clusterconfig c)).
Proof.
  assert (Hn : Nodes (clusterconfig (UpdateNode n fsOk c)) =
               updateFirst (Id n)
                 (fun node => mkNode (Id node) (ClusterAddr node) (ApiAddr n) (Online node)
                                (AllowVote node) (DataTerm node) (OfflineCount node))
                 (Nodes (clusterconfig c))).
  { unfold UpdateNode, saveAndVersionInc, save, set_nodes, set_clusterconfig.
    destruct fsOk; reflexivity. }
  unfold GetNode, NodeIsOnline, GetDataTerm. rewrite Hn, updateFirst_length.
  rewrite find_updateFirst by reflexivity.
  split; [reflexivity |].
  split; [| split].
  - destruct (length _ =? 0)%nat; [reflexivity |].
    destruct (id' =? Id n)%N eqn:E; [| reflexivity].
    apply N.eqb_eq in E. subst id'.
    destruct (List.find _ (Nodes (clusterconfig c))); reflexivity.
  - destruct (id' =? Id n)%N eqn:E; [| reflexivity].
    apply N.eqb_eq in E. subst id'.
    destruct (List.find _ (Nodes (clusterconfig c))); reflexivity.
  - unfold UpdateNode, saveAndVersionInc, save, set_nodes, set_clusterconfig.
    destruct fsOk; reflexivity.
Qed.


End ClusterEventMore.

Section ClusterEventMoreExamples.
Import GoInt ClusterEvent.

Lemma offline_node_is_not_listed_online_witness :
  NoDup (Id <$> Nodes (clusterconfig seedManager)) /\
  2%N ∉ Id <$> GetAllOnlineNode (SetNodeOnlineNoSave 2 false seedManager).
Proof.
  assert (Hnd : NoDup (Id <$> Nodes (clusterconfig seedManager))).
  { cbn. apply NoDup_cons. split.
    - intros Hin. apply list_elem_of_singleton in Hin. discriminate.
    - apply NoDup_singleton. }
  split; [exact Hnd |].
  exact (offline_node_is_not_listed_online 2 seedManager Hnd).
Defined.


End ClusterEventMoreExamples.
